(** * ScheduleToCalendar: the schedule-to-calendar pipeline of [backend/main.py]

    A shallow embedding of [clean_response], [parse_schedule] and
    [generate_ics], together with the parts of Python's [str], [dict] and
    [datetime] they rely on, and the properties of the pipeline stated in
    the design document.

    Conventions.
    - Text is a sequence of code points below 256 (the Latin-1 part of
      Python's [str]); [str.isspace], [str.lower] and [str.upper] are given
      by their tables on that range.
    - Python values coming out of the JSON decoder are the type [pyval];
      a [dict] is an association list in insertion order.
    - A raised exception is the [Raise] branch of [result]; state changes
      made before the exception stay, as in Python.
    - [datetime] follows the reference implementation of the standard
      library (proleptic Gregorian ordinals). *)

From Stdlib Require Import ZArith List Ascii String Lia Bool.
From stdpp Require Import gmap list.
Import ListNotations.

Local Open Scope Z_scope.

Set Warnings "-register-all".

(** ** Text *)

Definition str := list ascii.

(** A literal of the source. *)
Definition py (s : string) : str := list_ascii_of_string s.

Definition ord (c : ascii) : Z := Z.of_N (N_of_ascii c).
Definition chr (n : Z) : ascii := ascii_of_N (Z.to_N n).

Definition between (lo hi n : Z) : bool := (lo <=? n) && (n <=? hi).

(** [str.isspace] on one character: TAB..CR, FS..US, SPACE, NEL, NBSP. *)
Definition isspace (c : ascii) : bool :=
  let n := ord c in
  between 9 13 n || between 28 32 n || (n =? 133) || (n =? 160).

(** [str.lower] on one character: A-Z and the accented capitals
    U+00C0..U+00DE (without the multiplication sign U+00D7). *)
Definition lower_char (c : ascii) : ascii :=
  let n := ord c in
  if between 65 90 n || (between 192 222 n && negb (n =? 215))
  then chr (n + 32) else c.

Definition lower (s : str) : str := map lower_char s.

(** [str.upper] on one character.  The sharp s becomes two letters.  The
    capitals of U+00B5 and U+00FF lie above U+00FF; they are kept as they
    are here, which changes no comparison with a key of [DAY_MAP]. *)
Definition upper_char (c : ascii) : str :=
  let n := ord c in
  if between 97 122 n || (between 224 254 n && negb (n =? 247))
  then [chr (n - 32)]
  else if n =? 223 then py "SS" else [c].

Definition upper (s : str) : str := flat_map upper_char s.

Fixpoint lstrip (s : str) : str :=
  match s with
  | c :: r => if isspace c then lstrip r else s
  | [] => []
  end.

Definition rstrip (s : str) : str := rev (lstrip (rev s)).

(** [s.strip()] *)
Definition strip (s : str) : str := rstrip (lstrip s).

Definition ascii_eqb (a b : ascii) : bool := Ascii.eqb a b.

(** [s.startswith(p)] *)
Fixpoint startswith (p s : str) : bool :=
  match p, s with
  | [], _ => true
  | a :: p', b :: s' => ascii_eqb a b && startswith p' s'
  | _ :: _, [] => false
  end.

(** [s.endswith(p)] *)
Definition endswith (p s : str) : bool := startswith (rev p) (rev s).

(** [s[i:]] for [i >= 0] *)
Definition slice_from (i : nat) (s : str) : str := skipn i s.

(** [s[i:-j]] for [i >= 0] and [j > 0]: the stop index is
    [max (len s - j) 0], and the slice is empty when it is not after [i]. *)
Definition slice_between (i j : nat) (s : str) : str :=
  skipn i (firstn (List.length s - j) s).

(** [s.replace(c, "")] for a one-character [c] *)
Definition remove_char (c : ascii) (s : str) : str :=
  List.filter (fun a => negb (ascii_eqb a c)) s.

Definition backtick : ascii := "`"%char.

(** ** The response sanitizer *)

Definition clean_response (response_str : str) : str :=
  (* Trim whitespace *)
  let cleaned := strip response_str in
  (* Remove triple backticks if present *)
  let cleaned :=
    if startswith (py "```") cleaned && endswith (py "```") cleaned
    then strip (slice_between 3 3 cleaned)
    else cleaned in
  (* Remove a leading language identifier like 'json' (case-insensitive) *)
  let lower_cleaned := lower cleaned in
  let cleaned :=
    if startswith (py "json") lower_cleaned then
      let cleaned := strip (slice_from (List.length (py "json")) cleaned) in
      if startswith (py ":") cleaned
      then strip (slice_from 1 cleaned)
      else cleaned
    else cleaned in
  (* Remove any stray backticks that may remain *)
  remove_char backtick cleaned.

(** ** Python values and exceptions *)

(** The values a JSON decoder can hand back. *)
Inductive pyval : Type :=
| PNone
| PBool (b : bool)
| PInt (z : Z)
| PFloat (mantissa exponent : Z)
| PStr (s : str)
| PList (l : list pyval)
| PDict (d : list (str * pyval)).

Inductive exn : Type :=
| KeyError (key : str)
| TypeError
| AttributeError
| ValueError
| OverflowError.

Inductive result (A : Type) : Type :=
| Ok (a : A)
| Raise (e : exn).
Arguments Ok {A} a.
Arguments Raise {A} e.

Definition rbind {A B} (r : result A) (k : A -> result B) : result B :=
  match r with
  | Ok a => k a
  | Raise e => Raise e
  end.

Notation "'do' x '<-' r ';' k" := (rbind r (fun x => k))
  (at level 10, x name, r at level 100, k at level 200).

Fixpoint str_eqb (a b : str) : bool :=
  match a, b with
  | [], [] => true
  | x :: a', y :: b' => ascii_eqb x y && str_eqb a' b'
  | _, _ => false
  end.

(** Lookup in a [dict] with [str] keys. *)
Fixpoint dict_lookup {V} (d : list (str * V)) (k : str) : option V :=
  match d with
  | [] => None
  | (k', v) :: d' => if str_eqb k' k then Some v else dict_lookup d' k
  end.

(** [v[k]] for a [str] key [k]: only a [dict] can be indexed by a string. *)
Definition getitem (v : pyval) (k : str) : result pyval :=
  match v with
  | PDict d =>
      match dict_lookup d k with
      | Some x => Ok x
      | None => Raise (KeyError k)
      end
  | _ => Raise TypeError
  end.

(** [v.get(k, default)]: only a [dict] has the method. *)
Definition get_default (v : pyval) (k : str) (default : pyval) : result pyval :=
  match v with
  | PDict d =>
      match dict_lookup d k with
      | Some x => Ok x
      | None => Ok default
      end
  | _ => Raise AttributeError
  end.

(** The elements [for x in v] runs through. *)
Definition iter (v : pyval) : result (list pyval) :=
  match v with
  | PStr s => Ok (map (fun c => PStr [c]) s)
  | PList l => Ok l
  | PDict d => Ok (map (fun kv => PStr (fst kv)) d)
  | _ => Raise TypeError
  end.

(** [v.upper()] *)
Definition upper_method (v : pyval) : result str :=
  match v with
  | PStr s => Ok (upper s)
  | _ => Raise AttributeError
  end.

(** ** The schedule decoder *)

Section Decoder.

(** [demjson3.decode], the lenient JSON parser of the library. *)
Variable decode : str -> result pyval.

Definition parse_schedule_body (formatted_schedule : str)
  : result (list pyval) :=
  let cleaned_schedule := clean_response formatted_schedule in
  do schedule_dict <- decode cleaned_schedule;
  do events <- get_default schedule_dict (py "events") (PList []);
  match events with
  | PList l => Ok l
  | _ => Raise ValueError (* 'events' key does not contain a list. *)
  end.

Definition parse_schedule (formatted_schedule : str) : result (list pyval) :=
  match parse_schedule_body formatted_schedule with
  | Ok events => Ok events
  | Raise e => Raise ValueError (* Failed to parse schedule JSON: e *)
  end.

End Decoder.

(** ** Dates and times ([datetime]) *)

Record date : Type := mkdate { year : Z; month : Z; day : Z }.
Record time : Type := mktime { hour : Z; minute : Z; second : Z }.

(** A [datetime] is a date and a time of day: [dt.date()], [dt.time()]
    and [datetime.combine(d, t)]. *)
Record datetime : Type := combine { dt_date : date; dt_time : time }.

Definition MINYEAR : Z := 1.
Definition MAXYEAR : Z := 9999.
Definition MAXORDINAL : Z := 3652059.

Definition DAYS_IN_MONTH : list Z :=
  [-1; 31; 28; 31; 30; 31; 30; 31; 31; 30; 31; 30; 31].
Definition DAYS_BEFORE_MONTH : list Z :=
  [-1; 0; 31; 59; 90; 120; 151; 181; 212; 243; 273; 304; 334].

Definition table (t : list Z) (i : Z) : Z := nth (Z.to_nat i) t 0.

Definition is_leap (y : Z) : bool :=
  (y mod 4 =? 0) && (negb (y mod 100 =? 0) || (y mod 400 =? 0)).

Definition days_before_year (y : Z) : Z :=
  let y := y - 1 in y * 365 + y / 4 - y / 100 + y / 400.

Definition days_in_month (y m : Z) : Z :=
  if (m =? 2) && is_leap y then 29 else table DAYS_IN_MONTH m.

Definition days_before_month (y m : Z) : Z :=
  table DAYS_BEFORE_MONTH m + (if (2 <? m) && is_leap y then 1 else 0).

Definition ymd2ord (y m d : Z) : Z :=
  days_before_year y + days_before_month y m + d.

Definition DI400Y : Z := 146097.
Definition DI100Y : Z := 36524.
Definition DI4Y : Z := 1461.

(** The month and the day of the month of the day numbered [n] (from 0)
    of a year. *)
Definition month_and_day (leapyear : bool) (n : Z) : Z * Z :=
  let m := Z.shiftr (n + 50) 5 in
  let preceding :=
    table DAYS_BEFORE_MONTH m + (if (2 <? m) && leapyear then 1 else 0) in
  if n <? preceding then
    let m := m - 1 in
    let preceding :=
      preceding
      - (table DAYS_IN_MONTH m + (if (m =? 2) && leapyear then 1 else 0)) in
    (m, n - preceding + 1)
  else (m, n - preceding + 1).

Definition ord2ymd (n : Z) : date :=
  let n := n - 1 in
  let n400 := n / DI400Y in
  let n := n mod DI400Y in
  let y := n400 * 400 + 1 in
  let n100 := n / DI100Y in
  let n := n mod DI100Y in
  let n4 := n / DI4Y in
  let n := n mod DI4Y in
  let n1 := n / 365 in
  let n := n mod 365 in
  let y := y + n100 * 100 + n4 * 4 + n1 in
  if (n1 =? 4) || (n100 =? 4) then mkdate (y - 1) 12 31
  else
    let leapyear := (n1 =? 3) && (negb (n4 =? 24) || (n100 =? 3)) in
    let md := month_and_day leapyear n in
    mkdate y (fst md) (snd md).

(** The checks of the [date] and [time] constructors. *)
Definition valid_date (d : date) : bool :=
  between MINYEAR MAXYEAR (year d) && between 1 12 (month d)
  && between 1 (days_in_month (year d) (month d)) (day d).

Definition valid_time (t : time) : bool :=
  between 0 23 (hour t) && between 0 59 (minute t) && between 0 59 (second t).

Definition date_new (y m d : Z) : result date :=
  if valid_date (mkdate y m d) then Ok (mkdate y m d) else Raise ValueError.

Definition time_new (h mi s : Z) : result time :=
  if valid_time (mktime h mi s) then Ok (mktime h mi s) else Raise ValueError.

Definition toordinal (d : date) : Z := ymd2ord (year d) (month d) (day d).
Definition fromordinal (n : Z) : date := ord2ymd n.

(** [d.weekday()], Monday is 0. *)
Definition date_weekday (d : date) : Z := (toordinal d + 6) mod 7.

(** [d + timedelta(days=n)] *)
Definition date_add_days (d : date) (n : Z) : result date :=
  let o := toordinal d + n in
  if (0 <? o) && (o <=? MAXORDINAL) then Ok (fromordinal o)
  else Raise OverflowError.

(** Dates compare as their (year, month, day) triples. *)
Definition date_leb (a b : date) : bool :=
  (year a <? year b)
  || ((year a =? year b)
      && ((month a <? month b)
          || ((month a =? month b) && (day a <=? day b)))).

Definition digit_char (n : Z) : ascii := chr (48 + n).

Definition two_digit_text (n : Z) : str :=
  [digit_char (n / 10 mod 10); digit_char (n mod 10)].

Definition four_digit_text (n : Z) : str :=
  [digit_char (n / 1000 mod 10); digit_char (n / 100 mod 10);
   digit_char (n / 10 mod 10); digit_char (n mod 10)].

(** The year as [%Y] writes it: its decimal digits, without leading
    zeros (the years of a [date] are 1 to 9999); the C library the
    interpreter formats with does not pad it, [date(999, 3, 22)] gives
    [999]. *)
Definition year_text (y : Z) : str :=
  if y <? 10 then [digit_char y]
  else if y <? 100 then two_digit_text y
  else if y <? 1000 then
    [digit_char (y / 100 mod 10); digit_char (y / 10 mod 10);
     digit_char (y mod 10)]
  else four_digit_text y.

(** [d.strftime("%Y-%m-%d")]: month and day on two digits. *)
Definition strftime_date (d : date) : str :=
  year_text (year d) ++ py "-" ++ two_digit_text (month d)
  ++ py "-" ++ two_digit_text (day d).

(** *** [datetime.strptime]

    The format is turned into a regular expression, one group per
    directive; alternatives are tried in the order they are written and
    the first match of the whole expression is taken.  A matcher returns
    the candidates in that order, each with the text left over. *)

Definition matcher (A : Type) : Type := str -> list (A * str).

Definition then_ {A B} (m : list (A * str)) (k : A -> matcher B)
  : list (B * str) :=
  flat_map (fun ar => k (fst ar) (snd ar)) m.

Definition digit (c : ascii) : option Z :=
  if between 48 57 (ord c) then Some (ord c - 48) else None.

Definition digit_in (lo hi : Z) (c : ascii) : option Z :=
  match digit c with
  | Some v => if between lo hi v then Some v else None
  | None => None
  end.

(** [[lo-hi]] *)
Definition one_digit (lo hi : Z) : matcher Z := fun s =>
  match s with
  | c :: r =>
      match digit_in lo hi c with
      | Some v => [(v, r)]
      | None => []
      end
  | [] => []
  end.

(** [[lo1-hi1][lo2-hi2]] *)
Definition two_digits (lo1 hi1 lo2 hi2 : Z) : matcher Z := fun s =>
  match s with
  | a :: b :: r =>
      match digit_in lo1 hi1 a, digit_in lo2 hi2 b with
      | Some x, Some y => [(10 * x + y, r)]
      | _, _ => []
      end
  | _ => []
  end.

(** [ [lo-hi]], a space and one digit *)
Definition space_digit (lo hi : Z) : matcher Z := fun s =>
  match s with
  | c :: r => if ascii_eqb c " " then one_digit lo hi r else []
  | [] => []
  end.

(** A literal character of the format; the expression ignores case. *)
Definition literal (c : ascii) : matcher unit := fun s =>
  match s with
  | a :: r => if ascii_eqb (lower_char a) (lower_char c) then [(tt, r)] else []
  | [] => []
  end.

Definition alt {A} (p q : matcher A) : matcher A := fun s => p s ++ q s.
Infix "|||" := alt (at level 50, left associativity).

(** [%Y]: [\d\d\d\d] *)
Definition re_Y : matcher Z := fun s =>
  match s with
  | a :: b :: c :: d :: r =>
      match digit a, digit b, digit c, digit d with
      | Some x, Some y, Some z, Some t =>
          [(1000 * x + 100 * y + 10 * z + t, r)]
      | _, _, _, _ => []
      end
  | _ => []
  end.

(** [%m]: [1[0-2]|0[1-9]|[1-9]] *)
Definition re_m : matcher Z :=
  two_digits 1 1 0 2 ||| two_digits 0 0 1 9 ||| one_digit 1 9.

(** [%d]: [3[0-1]|[1-2]\d|0[1-9]|[1-9]| [1-9]] *)
Definition re_d : matcher Z :=
  two_digits 3 3 0 1 ||| two_digits 1 2 0 9 ||| two_digits 0 0 1 9
  ||| one_digit 1 9 ||| space_digit 1 9.

(** [%H]: [2[0-3]|[0-1]\d|\d] *)
Definition re_H : matcher Z :=
  two_digits 2 2 0 3 ||| two_digits 0 1 0 9 ||| one_digit 0 9.

(** [%M]: [[0-5]\d|\d] *)
Definition re_M : matcher Z := two_digits 0 5 0 9 ||| one_digit 0 9.

(** [%S]: [6[0-1]|[0-5]\d|\d] *)
Definition re_S : matcher Z :=
  two_digits 6 6 0 1 ||| two_digits 0 5 0 9 ||| one_digit 0 9.

(** ["%Y-%m-%d"] *)
Definition re_date : matcher date := fun s =>
  then_ (re_Y s) (fun Y s =>
  then_ (literal "-" s) (fun _ s =>
  then_ (re_m s) (fun m s =>
  then_ (literal "-" s) (fun _ s =>
  then_ (re_d s) (fun d s => [(mkdate Y m d, s)]))))).

(** ["%H:%M:%S"] *)
Definition re_time : matcher time := fun s =>
  then_ (re_H s) (fun H s =>
  then_ (literal ":" s) (fun _ s =>
  then_ (re_M s) (fun M s =>
  then_ (literal ":" s) (fun _ s =>
  then_ (re_S s) (fun S s => [(mktime H M S, s)]))))).

(** ["%Y-%m-%dT%H:%M:%S"] *)
Definition re_datetime : matcher datetime := fun s =>
  then_ (re_date s) (fun d s =>
  then_ (literal "T" s) (fun _ s =>
  then_ (re_time s) (fun t s => [(combine d t, s)]))).

Definition midnight : time := mktime 0 0 0.

(** The first match, which must use up the whole text, and then the
    checks of the constructors. *)
Definition first_full_match {A} (ms : list (A * str)) : result A :=
  match ms with
  | [] => Raise ValueError (* does not match format *)
  | (a, rest) :: _ =>
      match rest with
      | [] => Ok a
      | _ :: _ => Raise ValueError (* unconverted data remains *)
      end
  end.

Definition check_datetime (dt : datetime) : result datetime :=
  do d <- date_new (year (dt_date dt)) (month (dt_date dt)) (day (dt_date dt));
  do t <- time_new (hour (dt_time dt)) (minute (dt_time dt))
                   (second (dt_time dt));
  Ok (combine d t).

(** [datetime.strptime(v, "%Y-%m-%dT%H:%M:%S")] *)
Definition strptime_datetime (v : pyval) : result datetime :=
  match v with
  | PStr data_string =>
      do dt <- first_full_match (re_datetime data_string);
      check_datetime dt
  | _ => Raise TypeError
  end.

(** [datetime.strptime(v, "%Y-%m-%d")] *)
Definition strptime_date (v : pyval) : result datetime :=
  match v with
  | PStr data_string =>
      do d <- first_full_match (re_date data_string);
      check_datetime (combine d midnight)
  | _ => Raise TypeError
  end.

(** ** Configuration *)

Definition ICS_DIR : str := py "ics_files".

(** Mapping for day abbreviations to weekday numbers (Monday = 0) *)
Definition DAY_MAP : list (str * Z) :=
  [(py "M", 0); (py "T", 1); (py "W", 2); (py "R", 3); (py "F", 4)].

(** ** Calendar objects and the state of a run *)

(** Modelled from the spec: the [Event] class of the calendar library,
    which is not part of the repository.  An entry is the record of the
    attributes [generate_ics] assigns to it (the CalendarEvent of the
    design document), and assigning an attribute stores the value. *)
Record Event : Type := mkEvent {
  name : pyval;
  begin : datetime;
  end_ : datetime;
  location : pyval;
  description : pyval;
  rrule : list (str * str)
}.

Inductive log_level : Type := INFO | WARNING | ERROR.

(** The log lines of [generate_ics], with the values they interpolate. *)
Inductive log_message : Type :=
| UnrecognizedDay (idx : nat) (abbreviation : pyval)
| MissingKey (idx : nat) (e : exn)
| UnexpectedError (idx : nat) (e : exn)
| IcsCreated (path : str).

(** Modelled from the spec: the [Calendar] class of the calendar library,
    of which the source uses [cal.events.add] and [str(cal)].
    [cal_events] is [cal.events], the set of [Event] objects of the
    calendar under construction.  Objects are told apart by their identity,
    the number [Event()] gave them, so the set is a finite map from
    identities to attributes; it has no order of its own.  The text
    [str(cal)] is not modelled: [files] maps a path to the calendar written
    there, newest first. *)
Record World : Type := mkWorld {
  cal_events : gmap nat Event;
  next_id : nat;
  log : list (log_level * log_message);
  files : list (str * gmap nat Event)
}.

Definition M (A : Type) : Type := World -> result A * World.

Definition ret {A} (a : A) : M A := fun w => (Ok a, w).

Definition bind {A B} (m : M A) (k : A -> M B) : M B := fun w =>
  match m w with
  | (Ok a, w') => k a w'
  | (Raise e, w') => (Raise e, w')
  end.

Definition lift {A} (r : result A) : M A := fun w => (r, w).

Notation "'let*' x ':=' m 'in' k" := (bind m (fun x => k))
  (at level 10, x name, m at level 100, k at level 200).

(** [logging.warning], [logging.error], [logging.info] *)
Definition logging (l : log_level) (m : log_message) (w : World) : World :=
  mkWorld (cal_events w) (next_id w) (log w ++ [(l, m)]) (files w).

(** [Calendar()] *)
Definition Calendar_new (w : World) : World :=
  mkWorld ∅ (next_id w) (log w) (files w).

(** [Event()]: a new object, known by its identity. *)
Definition Event_new : M nat := fun w =>
  (Ok (next_id w),
   mkWorld (cal_events w) (S (next_id w)) (log w) (files w)).

(** [cal.events.add(event)] *)
Definition events_add (event : nat) (attributes : Event) : M unit := fun w =>
  (Ok tt,
   mkWorld (<[event := attributes]> (cal_events w)) (next_id w) (log w)
           (files w)).

(** [with open(path, "w") as f: f.write(str(cal))]: the file holds the
    calendar as it is at that moment. *)
Definition write_calendar (path : str) (w : World) : World :=
  mkWorld (cal_events w) (next_id w) (log w)
          ((path, cal_events w) :: files w).

(** [os.path.join(a, b)] on a POSIX system *)
Definition path_join (a b : str) : str :=
  if startswith (py "/") b then b
  else if (Nat.eqb (List.length a) 0) || endswith (py "/") a then a ++ b
  else a ++ py "/" ++ b.

(** ** The recurrence expander and calendar emitter *)

(** The values read from one raw event before any calendar entry is made
    (the fields, and the parsed start, end and end date). *)
Record fields : Type := mkfields {
  title : pyval;
  start_dt : datetime;
  end_dt : datetime;
  days : pyval;
  f_location : pyval;
  instructor : pyval;
  end_date : date
}.

Definition read_fields (event_data : pyval) : result fields :=
  do title <- getitem event_data (py "title");
  do start_str <- getitem event_data (py "start");
  do end_str <- getitem event_data (py "end");
  do days <- getitem event_data (py "days");
  do location <- getitem event_data (py "location");
  do instructor <- getitem event_data (py "notes");
  do end_date_str <- getitem event_data (py "end_date");
  do start_dt <- strptime_datetime start_str;
  do end_dt <- strptime_datetime end_str;
  do end_date <- strptime_date end_date_str;
  Ok (mkfields title start_dt end_dt days location instructor
               (dt_date end_date)).

(** [DAY_MAP.get(day.upper())] *)
Definition day_weekday (day : pyval) : result (option Z) :=
  do u <- upper_method day;
  Ok (dict_lookup DAY_MAP u).

(** Calculate first occurrence for this weekday *)
Definition days_ahead (start_dt : datetime) (weekday : Z) : Z :=
  (weekday - date_weekday (dt_date start_dt)) mod 7.

Definition first_event_date (start_dt : datetime) (weekday : Z)
  : result date :=
  date_add_days (dt_date start_dt) (days_ahead start_dt weekday).

(** The attributes given to the entry of one weekday. *)
Definition make_event (f : fields) (first_event_date : date) : Event :=
  mkEvent (title f)
          (combine first_event_date (dt_time (start_dt f)))
          (combine first_event_date (dt_time (end_dt f)))
          (f_location f)
          (instructor f)
          [(py "freq", py "WEEKLY");
           (py "until", strftime_date (end_date f))].

(** One turn of [for day in days]. *)
Definition for_day (idx : nat) (f : fields) (day : pyval) : M unit :=
  let* weekday := lift (day_weekday day) in
  match weekday with
  | None => fun w => (Ok tt, logging WARNING (UnrecognizedDay idx day) w)
  | Some weekday =>
      let* first_event_date := lift (first_event_date (start_dt f) weekday) in
      let* event := Event_new in
      events_add event (make_event f first_event_date)
  end.

Fixpoint for_days (idx : nat) (f : fields) (ds : list pyval) : M unit :=
  match ds with
  | [] => ret tt
  | day :: rest =>
      let* _ := for_day idx f day in
      for_days idx f rest
  end.

(** The body of the [try] statement. *)
Definition try_event (idx : nat) (event_data : pyval) : M unit :=
  let* f := lift (read_fields event_data) in
  let* ds := lift (iter (days f)) in
  for_days idx f ds.

(** The two handlers of the [try] statement: both log and go on. *)
Definition except_ (idx : nat) (e : exn) (w : World) : World :=
  match e with
  | KeyError _ => logging ERROR (MissingKey idx e) w
  | _ => logging ERROR (UnexpectedError idx e) w
  end.

(** The [try] statement. *)
Definition expand_event (idx : nat) (event_data : pyval) (w : World) : World :=
  match try_event idx event_data w with
  | (Ok _, w') => w'
  | (Raise e, w') => except_ idx e w'
  end.

(** [for idx, event_data in enumerate(events, start=idx)] *)
Fixpoint for_events (idx : nat) (events : list pyval) (w : World) : World :=
  match events with
  | [] => w
  | event_data :: rest => for_events (S idx) rest (expand_event idx event_data w)
  end.

(** [generate_ics(events)]; [uuid4] is the text of the identifier
    [uuid.uuid4()] draws for the file name.  The result is the path of the
    file and the state after the call. *)
Definition generate_ics (events : list pyval) (uuid4 : str) (w : World)
  : str * World :=
  let w := Calendar_new w in
  let w := for_events 1 events w in
  let ics_filename := py "schedule_" ++ uuid4 ++ py ".ics" in
  let ics_path := path_join ICS_DIR ics_filename in
  let w := write_calendar ics_path w in
  let w := logging INFO (IcsCreated ics_path) w in
  (ics_path, w).

(** The calendar in the file [generate_ics] wrote. *)
Definition written_calendar (out : str * World) : option (gmap nat Event) :=
  dict_lookup (files (snd out)) (fst out).

(** A state before any request. *)
Definition initial_world : World := mkWorld ∅ 0 [] [].

(** ** Predicates used in the statements *)

(** No backtick occurs in the text. *)
Definition no_backtick (s : str) : Prop := Forall (fun a => a <> backtick) s.

(** The text begins with the word [json], in any case. *)
Definition starts_with_json (s : str) : bool := startswith (py "json") (lower s).

(** What the design document asks of the decoder: a failure exactly when
    the text does not parse, or the parsed value lacks an ["events"] field,
    or that field is not a sequence. *)
Definition lacks_events (v : pyval) : Prop :=
  match v with
  | PDict d => dict_lookup d (py "events") = None
  | _ => True
  end.

Definition events_not_a_list (v : pyval) : Prop :=
  match v with
  | PDict d =>
      match dict_lookup d (py "events") with
      | Some (PList _) => False
      | Some _ => True
      | None => False
      end
  | _ => False
  end.

Definition is_object (v : pyval) : Prop :=
  match v with
  | PDict _ => True
  | _ => False
  end.

Definition fails {A} (r : result A) : Prop :=
  match r with
  | Raise _ => True
  | Ok _ => False
  end.

Definition decoder_fails_as_documented (decode : str -> result pyval)
  (text : str) : Prop :=
  fails (parse_schedule decode text)
  <-> (fails (decode (clean_response text))
       \/ exists v, decode (clean_response text) = Ok v
                    /\ (lacks_events v \/ events_not_a_list v)).

(** A decoder that reads the empty object and nothing else. *)
Definition decode_empty_object (s : str) : result pyval :=
  if str_eqb s (py "{}") then Ok (PDict []) else Raise ValueError.

(** Bounded search, used to settle facts about the days of one year. *)
Fixpoint all_from (k : nat) (n : Z) (f : Z -> bool) : bool :=
  match k with
  | O => true
  | S k' => if f n then all_from k' (n + 1) f else false
  end.

Definition leap_bit (b : bool) : Z := if b then 1 else 0.

(** [month_and_day] is right on day [n] of a year. *)
Definition month_and_day_ok (leapyear : bool) (n : Z) : bool :=
  let md := month_and_day leapyear n in
  between 1 12 (fst md)
  && between 1 (if (fst md =? 2) && leapyear then 29
                else table DAYS_IN_MONTH (fst md)) (snd md)
  && (table DAYS_BEFORE_MONTH (fst md)
      + leap_bit ((2 <? fst md) && leapyear) + snd md =? n + 1).

(** Strictly earlier, as triples. *)
Definition date_lt (a b : date) : Prop :=
  year a < year b
  \/ (year a = year b
      /\ (month a < month b \/ (month a = month b /\ day a < day b))).

(** ** The entries of a run

    The attribute records a run hands to [cal.events.add], in the order of
    the calls, and the exception that ends the loop over the days, if any.
    These functions summarise [for_days], [expand_event] and [for_events]
    (lemmas [for_days_run], [expand_event_run], [for_events_run]). *)

Fixpoint days_entries (f : fields) (ds : list pyval)
  : list Event * option exn :=
  match ds with
  | [] => ([], None)
  | day :: rest =>
      match day_weekday day with
      | Raise e => ([], Some e)
      | Ok None => days_entries f rest
      | Ok (Some weekday) =>
          match first_event_date (start_dt f) weekday with
          | Raise e => ([], Some e)
          | Ok d =>
              (make_event f d :: fst (days_entries f rest),
               snd (days_entries f rest))
          end
      end
  end.

Definition event_entries (event_data : pyval) : list Event :=
  match read_fields event_data with
  | Ok f =>
      match iter (days f) with
      | Ok ds => fst (days_entries f ds)
      | Raise _ => []
      end
  | Raise _ => []
  end.

Definition batch_entries (events : list pyval) : list Event :=
  flat_map event_entries events.

(** Objects numbered from [n] on, put into the set one after the other. *)
Fixpoint add_all (es : list Event) (cal : gmap nat Event) (n : nat)
  : gmap nat Event :=
  match es with
  | [] => cal
  | e :: es' => add_all es' (<[n := e]> cal) (S n)
  end.

Definition outcome (r : option exn) : result unit :=
  match r with
  | None => Ok tt
  | Some e => Raise e
  end.

(** ** Raw events in the statements *)

(** A raw event with the seven fields, as the prompt asks for them. *)
Definition raw_event (title_ start_ end__ days_ location_ end_date_ notes_
  : pyval) : pyval :=
  PDict [(py "title", title_); (py "start", start_); (py "end", end__);
         (py "days", days_); (py "location", location_);
         (py "end_date", end_date_); (py "notes", notes_)].

Definition text (s : string) : pyval := PStr (py s).

(** The scenario of the design document. *)
Definition cs101 (days_ : string) : pyval :=
  raw_event (text "CS101") (text "2024-01-08T09:00:00")
            (text "2024-01-08T09:50:00") (text days_) (text "Rm 5")
            (text "2024-03-22") (text "Prof X").

Definition cs101_fields (days_ : string) : fields :=
  mkfields (text "CS101")
           (combine (mkdate 2024 1 8) (mktime 9 0 0))
           (combine (mkdate 2024 1 8) (mktime 9 50 0))
           (text days_) (text "Rm 5") (text "Prof X") (mkdate 2024 3 22).

Definition required_fields : list str :=
  [py "title"; py "start"; py "end"; py "days"; py "location"; py "notes";
   py "end_date"].

(** The event is an object without one of the required fields. *)
Definition missing_required_field (event_data : pyval) : bool :=
  match event_data with
  | PDict d =>
      existsb (fun k => match dict_lookup d k with
                        | None => true
                        | Some _ => false
                        end) required_fields
  | _ => false
  end.

Definition unparseable {A} (parse : pyval -> result A)
  (d : list (str * pyval)) (k : str) : bool :=
  match dict_lookup d k with
  | Some v => match parse v with
              | Raise _ => true
              | Ok _ => false
              end
  | None => false
  end.

(** The event is an object one of whose dates does not parse. *)
Definition has_unparseable_date (event_data : pyval) : bool :=
  match event_data with
  | PDict d =>
      unparseable strptime_datetime d (py "start")
      || unparseable strptime_datetime d (py "end")
      || unparseable strptime_date d (py "end_date")
  | _ => false
  end.

Definition malformed (event_data : pyval) : bool :=
  missing_required_field event_data || has_unparseable_date event_data.

Definition is_text (v : pyval) : bool :=
  match v with
  | PStr _ => true
  | _ => false
  end.

(** The weekdays of the valid day codes among [ds], one per occurrence. *)
Definition weekdays_of (ds : list pyval) : list Z :=
  flat_map (fun day => match day_weekday day with
                       | Ok (Some weekday) => [weekday]
                       | _ => []
                       end) ds.

(** [f] with another value of [days]. *)
Definition with_days (f : fields) (v : pyval) : fields :=
  mkfields (title f) (start_dt f) (end_dt f) v (f_location f) (instructor f)
           (end_date f).

(** The weekday a calendar entry is anchored to. *)
Definition anchor_weekday (e : Event) : Z := date_weekday (dt_date (begin e)).

(** The entry of [f] for the weekday [weekday]: the first day on or after
    the start with that weekday, the times of day of [f], and the weekly
    rule until the end date of [f]. *)
Definition entry_for (f : fields) (e : Event) (weekday : Z) : Prop :=
  name e = title f
  /\ location e = f_location f
  /\ description e = instructor f
  /\ rrule e = [(py "freq", py "WEEKLY");
               (py "until", strftime_date (end_date f))]
  /\ dt_time (begin e) = dt_time (start_dt f)
  /\ dt_time (end_ e) = dt_time (end_dt f)
  /\ dt_date (end_ e) = dt_date (begin e)
  /\ valid_date (dt_date (begin e)) = true
  /\ anchor_weekday e = weekday
  /\ toordinal (dt_date (begin e))
     = toordinal (dt_date (start_dt f)) + days_ahead (start_dt f) weekday
  /\ date_leb (dt_date (start_dt f)) (dt_date (begin e)) = true.

(** Every anchor of [f] is a date: the six days after the start exist. *)
Definition week_representable (f : fields) : Prop :=
  toordinal (dt_date (start_dt f)) + 6 <= MAXORDINAL.

(** Raw events for the examples: one without a title, one whose start is
    not a date, a second course, and a course at the end of the calendar. *)
Definition no_title_event : pyval :=
  PDict [(py "start", text "2024-01-09T13:00:00");
         (py "end", text "2024-01-09T14:15:00"); (py "days", text "TR");
         (py "location", text "Rm 7"); (py "end_date", text "2024-03-22");
         (py "notes", text "Prof Y")].

Definition bad_date_event : pyval :=
  raw_event (text "BIO110") (text "next Monday at nine")
            (text "2024-01-08T09:50:00") (text "MW") (text "Lab 2")
            (text "2024-03-22") (text "Prof Z").

Definition math200 : pyval :=
  raw_event (text "MATH200") (text "2024-01-09T10:30:00")
            (text "2024-01-09T11:45:00") (text "TR") (text "Rm 12")
            (text "2024-03-22") (text "Prof W").

Definition last_day_event : pyval :=
  raw_event (text "HIST300") (text "9999-12-31T09:00:00")
            (text "9999-12-31T09:50:00") (text "M") (text "Rm 1")
            (text "9999-12-31") (text "Prof V").

(** The fan-out as the design document words it: as many entries as valid
    day codes, each anchored to a different weekday. *)
Definition fan_out_as_documented (event_data : pyval) : Prop :=
  forall f ds uuid4 w,
    read_fields event_data = Ok f ->
    iter (days f) = Ok ds ->
    forallb is_text ds = true ->
    exists cal : gmap nat Event,
      written_calendar (generate_ics [event_data] uuid4 w) = Some cal
      /\ size cal = List.length (weekdays_of ds)
      /\ (forall i j e1 e2,
            i <> j -> cal !! i = Some e1 -> cal !! j = Some e2 ->
            anchor_weekday e1 <> anchor_weekday e2).

(** ** More predicates on text *)

(** Only white space. *)
Definition all_space (s : str) : bool := forallb isspace s.

(** The step of the sanitizer that drops a leading [json] and a colon. *)
Definition without_tag (cleaned : str) : str :=
  if startswith (py "json") (lower cleaned) then
    let cleaned := strip (slice_from (List.length (py "json")) cleaned) in
    if startswith (py ":") cleaned
    then strip (slice_from 1 cleaned)
    else cleaned
  else cleaned.

(** No backtick, as a test. *)
Definition backtick_free (s : str) : bool :=
  forallb (fun a => negb (ascii_eqb a backtick)) s.

(** ** The endpoint and the extraction client

    [upload_schedule] and [call_openai_api].  The uploaded images live in
    the directory [uploads], the state [uploads] below: a path has at most
    one file.  The chat client, the base-64 encoder, [json.dumps], the
    success of saving the upload and the success of writing the calendar
    are parameters. *)

Definition ALLOWED_CONTENT_TYPES : list str :=
  [py "image/jpeg"; py "image/png"; py "image/jpg"].

Definition UPLOAD_DIR : str := py "uploads".

(** [x in l] for texts *)
Definition str_in (x : str) (l : list str) : bool := existsb (str_eqb x) l.

(** [s.split(sep)] for a one-character [sep] *)
Fixpoint split (sep : ascii) (s : str) : list str :=
  match s with
  | [] => [[]]
  | c :: r =>
      if ascii_eqb c sep then [] :: split sep r
      else match split sep r with
           | p :: ps => (c :: p) :: ps
           | [] => [[c]]
           end
  end.

(** [l[-1]] of a list that is not empty *)
Definition last_item (l : list str) : str := List.last l [].

(** [p.rfind(c)]: the index of the last [c], or -1. *)
Fixpoint rfind_from (c : ascii) (p : str) (i best : Z) : Z :=
  match p with
  | [] => best
  | a :: r => rfind_from c r (i + 1) (if ascii_eqb a c then i else best)
  end.

Definition rfind (c : ascii) (p : str) : Z := rfind_from c p 0 (-1).

(** [p[i:j]] for [0 <= i] and [0 <= j] *)
Definition slice (p : str) (i j : Z) : str :=
  skipn (Z.to_nat i) (firstn (Z.to_nat j) p).

(** [os.path.splitext(p)] on a POSIX system: the extension starts at the
    last dot of the last component, unless only dots come before it. *)
Definition splitext (p : str) : str * str :=
  let sepIndex := rfind "/" p in
  let dotIndex := rfind "." p in
  if sepIndex <? dotIndex then
    (* skip all leading dots *)
    if existsb (fun a => negb (ascii_eqb a ".")) (slice p (sepIndex + 1) dotIndex)
    then (firstn (Z.to_nat dotIndex) p, skipn (Z.to_nat dotIndex) p)
    else (p, [])
  else (p, []).

Definition prompt : str :=
  py "Use this image of a college class schedule and output the schedule in valid JSON format. "
  ++ py "Each event should include 'title', 'start', 'end', 'days', 'location', 'end_date', and 'notes'. "
  ++ py "In the image, the days correspond to: M = Monday, T = Tuesday, W = Wednesday, R = Thursday, F = Friday "
  ++ py "Dates should be in 'YYYY-MM-DDTHH:MM:SS' for start and end, and 'YYYY-MM-DD' for end_date. Use today's date as starting date and use 11 weeks after today's date for ending date"
  ++ py "Output only the JSON data. Do not include any explanations or additional text."
  ++ py "Return only valid JSON. Do not include triple backticks or any Markdown formatting.".

(** The request sent to the chat client: one user message with the prompt
    and the image as a data URL. *)
Record chat_request : Type := mkrequest {
  model : str;
  message_text : str;
  image_url : str;
  max_tokens : Z;
  temperature : Z
}.

(** The reply of the chat client: [None] for a reply that is false in a
    condition, otherwise the contents of the messages of its choices. *)
Definition chat_response : Type := option (list (option str)).

(** What [open(path, "wb")] and the write of the image come to. *)
Inductive save_result : Type :=
| Saved
| NotOpened
| Partial (written : list ascii).

(** What [open(ics_path, "w")] and [f.write(str(cal))] come to: the
    calendar is written; or the file cannot be opened; or it is opened,
    which creates it or empties it, and then [str(cal)] or the write
    raises, which leaves the file without a calendar. *)
Inductive ics_write_result : Type :=
| CalendarWritten
| CalendarNotOpened (e : exn)
| CalendarUnfinished (e : exn).

(** The lines the endpoint and the client log. *)
Inductive server_message (E : Type) : Type :=
| FormattedSchedule (text : str)
| ParsedEvents (dumped : str)
| ErrorCallingApi (e : E)
| ErrorParsingSchedule (e : exn)
| ErrorGeneratingIcs (e : exn).
Arguments FormattedSchedule {E} text.
Arguments ParsedEvents {E} dumped.
Arguments ErrorCallingApi {E} e.
Arguments ErrorParsingSchedule {E} e.
Arguments ErrorGeneratingIcs {E} e.

(** What [call_openai_api] raises: its own two [ValueError]s, the
    [AttributeError] of a message without content, a missing file, or an
    exception of the client. *)
Inductive client_exn (E : Type) : Type :=
| UnsupportedImageType
| InvalidResponse
| NoContent
| FileNotFound
| ClientError (e : E).
Arguments UnsupportedImageType {E}.
Arguments InvalidResponse {E}.
Arguments NoContent {E}.
Arguments FileNotFound {E}.
Arguments ClientError {E} e.

(** The state of the server; [unfinished] lists the paths in [ics_files]
    of files that were opened for a calendar and left without one. *)
Record Server (E : Type) : Type := mkServer {
  uploads : list (str * list ascii);
  server_log : list (log_level * server_message (client_exn E));
  world : World;
  unfinished : list str
}.
Arguments mkServer {E} uploads server_log world unfinished.
Arguments uploads {E} s.
Arguments server_log {E} s.
Arguments world {E} s.
Arguments unfinished {E} s.

(** The file the client uploads. *)
Record UploadFile : Type := mkUploadFile {
  content_type : option str;
  filename : option str;
  body : list ascii
}.

Inductive http_detail (E : Type) : Type :=
| InvalidImageType
| FailedToSaveImage
| ApiFailure (e : client_exn E)
| ParseFailure (e : exn)
| GenerateFailure (e : exn).
Arguments InvalidImageType {E}.
Arguments FailedToSaveImage {E}.
Arguments ApiFailure {E} e.
Arguments ParseFailure {E} e.
Arguments GenerateFailure {E} e.

(** The answer of the endpoint; [Uncaught] is an exception no handler of
    [upload_schedule] sees. *)
Inductive response (E : Type) : Type :=
| FileResponse (path media_type download_name : str)
| HTTPException (status_code : Z) (detail : http_detail E)
| Uncaught (e : exn).
Arguments FileResponse {E} path media_type download_name.
Arguments HTTPException {E} status_code detail.
Arguments Uncaught {E} e.

(** [os.remove(path)] *)
Definition remove_file {A} (path : str) (d : list (str * A)) : list (str * A) :=
  List.filter (fun kv => negb (str_eqb (fst kv) path)) d.

(** The file at [path] after a write of [data]. *)
Definition write_file {A} (path : str) (data : A) (d : list (str * A))
  : list (str * A) :=
  (path, data) :: remove_file path d.

Section Endpoint.

(** The exceptions of the chat client. *)
Variable E : Type.
(** [openai_client.chat.completions.create] *)
Variable create : chat_request -> E + chat_response.
(** [base64.b64encode(data).decode("utf-8")] *)
Variable b64encode : list ascii -> str.
(** [demjson3.decode] *)
Variable decode : str -> result pyval.
(** [json.dumps(events, indent=2)], which raises on a value it cannot
    write. *)
Variable json_dumps : list pyval -> result str.
(** Whether the calendar can be written at a path. *)
Variable write_ics : str -> gmap nat Event -> ics_write_result.
(** Whether the upload can be saved at a path. *)
Variable save : str -> list ascii -> save_result.

Definition server_logging (l : log_level) (m : server_message (client_exn E))
  (s : Server E) : Server E :=
  mkServer (uploads s) (server_log s ++ [(l, m)]) (world s) (unfinished s).

Definition set_uploads (u : list (str * list ascii)) (s : Server E)
  : Server E :=
  mkServer u (server_log s) (world s) (unfinished s).

Definition set_world (w : World) (s : Server E) : Server E :=
  mkServer (uploads s) (server_log s) w (unfinished s).

Definition set_unfinished (u : list str) (s : Server E) : Server E :=
  mkServer (uploads s) (server_log s) (world s) u.

(** The media type for an extension, in lower case. *)
Definition image_type (ext : str) : option str :=
  if str_in ext [py ".jpg"; py ".jpeg"] then Some (py "image/jpeg")
  else if str_eqb ext (py ".png") then Some (py "image/png")
  else None.

Definition call_openai_api (image_path : str) (s : Server E)
  : (client_exn E + str) * Server E :=
  match dict_lookup (uploads s) image_path with
  | None => (inl FileNotFound, s)
  | Some image_bytes =>
      let ext := lower (snd (splitext image_path)) in
      match image_type ext with
      | None => (inl UnsupportedImageType, s)
      | Some img_type =>
          let img_b64_str := b64encode image_bytes in
          let request :=
            mkrequest (py "chatgpt-4o-latest") prompt
                      (py "data:" ++ img_type ++ py ";base64," ++ img_b64_str)
                      1500 0 in
          match create request with
          | inl e => (inl (ClientError e), s)
          | inr None => (inl InvalidResponse, s)
          | inr (Some []) => (inl InvalidResponse, s)
          | inr (Some (None :: _)) => (inl NoContent, s)
          | inr (Some (Some content :: _)) =>
              let formatted_schedule := strip content in
              (inr formatted_schedule,
               server_logging INFO (FormattedSchedule formatted_schedule) s)
          end
      end
  end.

(** [generate_ics(events)] as the endpoint runs it, where the write of the
    calendar can fail.  The loop over the events runs first; then the file
    is opened and the text of the calendar written.  When that succeeds the
    run is the one of [generate_ics]; when it raises, the exception leaves
    [generate_ics] before the last log line, and a file that was opened
    stays behind without a calendar. *)
Definition run_generate_ics (events : list pyval) (uuid4 : str)
  (s : Server E) : result str * Server E :=
  let w := for_events 1 events (Calendar_new (world s)) in
  let ics_filename := py "schedule_" ++ uuid4 ++ py ".ics" in
  let ics_path := path_join ICS_DIR ics_filename in
  match write_ics ics_path (cal_events w) with
  | CalendarWritten =>
      let out := generate_ics events uuid4 (world s) in
      (Ok (fst out), set_world (snd out) s)
  | CalendarNotOpened e => (Raise e, set_world w s)
  | CalendarUnfinished e =>
      let w :=
        mkWorld (cal_events w) (next_id w) (log w)
                (remove_file ics_path (files w)) in
      (Raise e, set_unfinished (ics_path :: unfinished s) (set_world w s))
  end.

(** [upload_schedule(image)]; [unique_id] and [uuid4] are the texts of the
    two identifiers drawn, for the upload and for the calendar file. *)
Definition upload_schedule (image : UploadFile) (unique_id uuid4 : str)
  (s : Server E) : response E * Server E :=
  match content_type image with
  | None => (HTTPException 400 InvalidImageType, s)
  | Some ct =>
      if negb (str_in ct ALLOWED_CONTENT_TYPES)
      then (HTTPException 400 InvalidImageType, s)
      else
        match filename image with
        | None => (Uncaught AttributeError, s)
        | Some name =>
            let file_extension := last_item (split "." name) in
            let file_path :=
              path_join UPLOAD_DIR (unique_id ++ py "." ++ file_extension) in
            match save file_path (body image) with
            | NotOpened => (HTTPException 500 FailedToSaveImage, s)
            | Partial written =>
                (HTTPException 500 FailedToSaveImage,
                 set_uploads (write_file file_path written (uploads s)) s)
            | Saved =>
                let s :=
                  set_uploads (write_file file_path (body image) (uploads s))
                              s in
                match call_openai_api file_path s with
                | (inl e, s) =>
                    let s := server_logging ERROR (ErrorCallingApi e) s in
                    let s :=
                      set_uploads (remove_file file_path (uploads s)) s in
                    (HTTPException 500 (ApiFailure e), s)
                | (inr formatted_schedule, s) =>
                    match
                      (do events <- parse_schedule decode formatted_schedule;
                       do dumped <- json_dumps events;
                       Ok (events, dumped))
                    with
                    | Raise e =>
                        let s :=
                          server_logging ERROR (ErrorParsingSchedule e) s in
                        let s :=
                          set_uploads (remove_file file_path (uploads s)) s in
                        (HTTPException 500 (ParseFailure e), s)
                    | Ok (events, dumped) =>
                        let s :=
                          server_logging INFO (ParsedEvents dumped) s in
                        match run_generate_ics events uuid4 s with
                        | (Raise e, s) =>
                            let s :=
                              server_logging ERROR (ErrorGeneratingIcs e) s in
                            let s :=
                              set_uploads (remove_file file_path (uploads s))
                                          s in
                            (HTTPException 500 (GenerateFailure e), s)
                        | (Ok ics_path, s) =>
                            (* Cleanup uploaded image *)
                            let s :=
                              set_uploads (remove_file file_path (uploads s))
                                          s in
                            (FileResponse ics_path (py "text/calendar")
                                          (py "schedule.ics"), s)
                        end
                    end
                end
            end
        end
  end.

End Endpoint.

(** ** The log of a run

    The lines [generate_ics] logs, summarised like the entries (lemmas
    [for_days_log], [expand_event_log], [for_events_log]). *)

Fixpoint days_log (idx : nat) (f : fields) (ds : list pyval)
  : list (log_level * log_message) :=
  match ds with
  | [] => []
  | day :: rest =>
      match day_weekday day with
      | Raise _ => []
      | Ok None => (WARNING, UnrecognizedDay idx day) :: days_log idx f rest
      | Ok (Some weekday) =>
          match first_event_date (start_dt f) weekday with
          | Raise _ => []
          | Ok _ => days_log idx f rest
          end
      end
  end.

(** The line a handler of the [try] writes. *)
Definition error_line (idx : nat) (e : exn) : log_level * log_message :=
  match e with
  | KeyError _ => (ERROR, MissingKey idx e)
  | _ => (ERROR, UnexpectedError idx e)
  end.

Definition event_log (idx : nat) (event_data : pyval)
  : list (log_level * log_message) :=
  match read_fields event_data with
  | Raise e => [error_line idx e]
  | Ok f =>
      match iter (days f) with
      | Raise e => [error_line idx e]
      | Ok ds =>
          days_log idx f ds
          ++ match snd (days_entries f ds) with
             | Some e => [error_line idx e]
             | None => []
             end
      end
  end.

Fixpoint batch_log (idx : nat) (events : list pyval)
  : list (log_level * log_message) :=
  match events with
  | [] => []
  | event_data :: rest => event_log idx event_data ++ batch_log (S idx) rest
  end.

(** The first of the required fields, in the order they are read, that the
    object does not have. *)
Definition first_missing_field (d : list (str * pyval)) : option str :=
  List.find (fun k => match dict_lookup d k with
                      | None => true
                      | Some _ => false
                      end) required_fields.

Definition is_dict (v : pyval) : bool :=
  match v with
  | PDict _ => true
  | _ => false
  end.

(** ** Statements about the endpoint *)

(** The text of an identifier: not empty, without a slash and a dot (the
    text of a UUID is made of hexadecimal digits and hyphens). *)
Definition identifier_text (s : str) : bool :=
  negb (Nat.eqb (List.length s) 0)
  && forallb (fun c => negb (ascii_eqb c "/") && negb (ascii_eqb c ".")) s.

Definition no_slash (s : str) : bool :=
  forallb (fun c => negb (ascii_eqb c "/")) s.

Definition no_dot (s : str) : bool :=
  forallb (fun c => negb (ascii_eqb c ".")) s.

(** The path of the upload for a file name. *)
Definition upload_path (unique_id name : str) : str :=
  path_join UPLOAD_DIR (unique_id ++ py "." ++ last_item (split "." name)).

(** The request [call_openai_api] sends for an image. *)
Definition request_for (b64encode : list ascii -> str) (img_type : str)
  (image_bytes : list ascii) : chat_request :=
  mkrequest (py "chatgpt-4o-latest") prompt
            (py "data:" ++ img_type ++ py ";base64," ++ b64encode image_bytes)
            1500 0.

Definition is_file_response {E} (r : response E) : bool :=
  match r with
  | FileResponse _ _ _ => true
  | _ => false
  end.

(** The answer of the handler around [generate_ics]. *)
Definition generation_failed {E} (r : response E) : bool :=
  match r with
  | HTTPException _ (GenerateFailure _) => true
  | _ => false
  end.

Definition allowed_content_type (image : UploadFile) : bool :=
  match content_type image with
  | Some ct => str_in ct ALLOWED_CONTENT_TYPES
  | None => false
  end.

(** Stand-ins for the examples: a client that answers with one fenced
    reply, an encoder, a decoder that reads that reply, a disk that saves. *)
Definition sample_reply : str :=
  py "```json" ++ [chr 10] ++ py "{events: [CS101]}" ++ [chr 10] ++ py "```"
  ++ [chr 10].

Definition sample_create (r : chat_request) : unit + chat_response :=
  inr (Some [Some sample_reply]).

Definition sample_b64encode (data : list ascii) : str := data.

Definition sample_decode (s : str) : result pyval :=
  if str_eqb s (py "{events: [CS101]}")
  then Ok (PDict [(py "events", PList [cs101 "MWF"])])
  else Raise ValueError.

Definition sample_save (path : str) (data : list ascii) : save_result := Saved.

Definition sample_json_dumps (events : list pyval) : result str :=
  Ok (py "[{...}]").

Definition sample_write_ics (path : str) (cal : gmap nat Event)
  : ics_write_result := CalendarWritten.

(** A calendar whose text cannot be made, as with a title that is a
    number: the file is opened and stays empty. *)
Definition failing_write_ics (path : str) (cal : gmap nat Event)
  : ics_write_result := CalendarUnfinished TypeError.

Definition sample_image : UploadFile :=
  mkUploadFile (Some (py "image/jpeg")) (Some (py "my.schedule.JPG"))
               (py "...image...").

Definition gif_image : UploadFile :=
  mkUploadFile (Some (py "image/png")) (Some (py "schedule.gif"))
               (py "...image...").

Definition text_upload : UploadFile :=
  mkUploadFile (Some (py "text/plain")) None (py "hello").

Definition sample_server : Server unit := mkServer [] [] initial_world [].

(** The requests of the examples. *)
Definition sample_upload (image : UploadFile)
  : response unit * Server unit :=
  upload_schedule unit sample_create sample_b64encode sample_decode
    sample_json_dumps sample_write_ics sample_save image (py "3f2a-01")
    (py "77") sample_server.

Definition failing_upload : response unit * Server unit :=
  upload_schedule unit sample_create sample_b64encode sample_decode
    sample_json_dumps failing_write_ics sample_save sample_image
    (py "3f2a-01") (py "77") sample_server.

(** ** The order of the document

    [cal.events] is a set: [generate_ics] fills it with [cal.events.add],
    and [str(cal)] writes one block per element in the order in which the
    set hands its elements out.  That order is the set's own (it comes from
    the hashes of the elements), so it is a parameter here, like the
    decoder and the identifiers drawn. *)

Section Document.

(** The order in which the set hands out its elements. *)
Variable iteration : gmap nat Event -> list (nat * Event).

(** Modelled from the spec: the calendar document, [str(cal)], as the
    sequence of its event blocks, one for each element the set hands out. *)
Definition document (cal : gmap nat Event) : list Event :=
  map snd (iteration cal).

(** The document in the file [generate_ics] returns the path of. *)
Definition written_document (out : str * World) : option (list Event) :=
  option_map document (written_calendar out).

(** The document lists the entries in the order [generate_ics] made
    them. *)
Definition order_preserved (events : list pyval) (uuid4 : str) (w : World)
  : Prop :=
  written_document (generate_ics events uuid4 w)
  = Some (batch_entries events).

End Document.

(** An iteration hands out every element of the set, once. *)
Definition walks_the_set (iteration : gmap nat Event -> list (nat * Event))
  : Prop :=
  forall cal, iteration cal ≡ₚ map_to_list cal.

(** The iteration in the order of the table that holds the set. *)
Definition table_order (cal : gmap nat Event) : list (nat * Event) :=
  map_to_list cal.

(** * Properties *)

(** ** Text *)

Lemma ascii_eqb_eq (a b : ascii) : ascii_eqb a b = true <-> a = b.
Proof. unfold ascii_eqb. apply Ascii.eqb_eq. Qed.

Lemma ascii_eqb_refl (a : ascii) : ascii_eqb a a = true.
Proof. apply ascii_eqb_eq. reflexivity. Qed.

Lemma str_eqb_eq (a b : str) : str_eqb a b = true <-> a = b.
Proof.
  revert b. induction a as [|x a IH]; intros [|y b]; simpl; try easy.
  rewrite andb_true_iff, ascii_eqb_eq, IH. split.
  - intros [-> ->]. reflexivity.
  - intros E. injection E. auto.
Qed.

Lemma str_eqb_refl (a : str) : str_eqb a a = true.
Proof. apply str_eqb_eq. reflexivity. Qed.

Lemma lstrip_length (s : str) : (List.length (lstrip s) <= List.length s)%nat.
Proof.
  induction s as [|c s IH]; simpl; [lia|].
  destruct (isspace c); simpl; lia.
Qed.

Lemma lstrip_same_length (s : str) :
  List.length (lstrip s) = List.length s -> lstrip s = s.
Proof.
  destruct s as [|c s]; simpl; [reflexivity|].
  destruct (isspace c); [|reflexivity].
  pose proof (lstrip_length s). lia.
Qed.

Lemma rstrip_length (s : str) : (List.length (rstrip s) <= List.length s)%nat.
Proof.
  unfold rstrip. rewrite length_rev.
  pose proof (lstrip_length (rev s)) as H. rewrite length_rev in H. exact H.
Qed.

Lemma rstrip_same_length (s : str) :
  List.length (rstrip s) = List.length s -> rstrip s = s.
Proof.
  unfold rstrip. rewrite length_rev. intros H.
  rewrite lstrip_same_length; [apply rev_involutive|].
  rewrite H. symmetry. apply length_rev.
Qed.

Lemma strip_length (s : str) : (List.length (strip s) <= List.length s)%nat.
Proof.
  unfold strip. pose proof (rstrip_length (lstrip s)).
  pose proof (lstrip_length s). lia.
Qed.

Lemma strip_same_length (s : str) :
  List.length (strip s) = List.length s -> strip s = s.
Proof.
  unfold strip. intros H.
  pose proof (rstrip_length (lstrip s)). pose proof (lstrip_length s).
  assert (L : lstrip s = s) by (apply lstrip_same_length; lia).
  rewrite L in *. apply rstrip_same_length. exact H.
Qed.

Lemma remove_char_length (c : ascii) (s : str) :
  (List.length (remove_char c s) <= List.length s)%nat.
Proof. unfold remove_char. apply List.filter_length_le. Qed.

Section Sublists.

Variable P : ascii -> Prop.

Lemma Forall_lstrip (s : str) : Forall P s -> Forall P (lstrip s).
Proof.
  induction 1 as [|c s Hc Hs IH]; simpl; [constructor|].
  destruct (isspace c); [exact IH | constructor; assumption].
Qed.

Lemma Forall_rstrip (s : str) : Forall P s -> Forall P (rstrip s).
Proof.
  intros H. unfold rstrip. apply List.Forall_rev, Forall_lstrip, List.Forall_rev, H.
Qed.

Lemma Forall_strip (s : str) : Forall P s -> Forall P (strip s).
Proof. intros H. apply Forall_rstrip, Forall_lstrip, H. Qed.

Lemma Forall_skipn (n : nat) (s : str) : Forall P s -> Forall P (skipn n s).
Proof.
  revert s. induction n as [|n IH]; intros s H; simpl; [exact H|].
  destruct H; [constructor | apply IH; assumption].
Qed.

End Sublists.

Lemma remove_char_no_backtick (s : str) : no_backtick (remove_char backtick s).
Proof.
  unfold no_backtick, remove_char. apply List.Forall_forall. intros a Ha.
  apply List.filter_In in Ha. destruct Ha as [_ Ha].
  intros ->. rewrite ascii_eqb_refl in Ha. discriminate.
Qed.

Lemma remove_char_id (s : str) : no_backtick s -> remove_char backtick s = s.
Proof.
  unfold remove_char.
  induction 1 as [|c s Hc Hs IH]; [reflexivity|].
  cbn [List.filter].
  destruct (ascii_eqb c backtick) eqn:E.
  - apply ascii_eqb_eq in E. contradiction.
  - cbn [negb]. rewrite IH. reflexivity.
Qed.

Lemma startswith_head (a : ascii) (p s : str) :
  startswith (a :: p) s = true -> exists r, s = a :: r.
Proof.
  destruct s as [|b s]; simpl; [discriminate|].
  rewrite andb_true_iff, ascii_eqb_eq. intros [-> _]. eauto.
Qed.

Lemma no_fence_without_backtick (s : str) :
  no_backtick s -> startswith (py "```") s = false.
Proof.
  intros H. destruct (startswith (py "```") s) eqn:E; [|reflexivity].
  change (py "```") with (backtick :: py "``") in E.
  apply startswith_head in E. destruct E as [r ->].
  inversion H as [|? ? Hc _]; subst. contradiction.
Qed.

Lemma startswith_length (p s : str) :
  startswith p s = true -> (List.length p <= List.length s)%nat.
Proof.
  revert s. induction p as [|a p IH]; intros [|b s]; simpl; try lia; try easy.
  rewrite andb_true_iff. intros [_ H]. apply IH in H. lia.
Qed.

(** The sanitizer never leaves a backtick. *)
Lemma clean_response_no_backtick (x : str) : no_backtick (clean_response x).
Proof. unfold clean_response. apply remove_char_no_backtick. Qed.

(** On a text without backticks the sanitizer only trims and drops a
    leading [json]. *)
Lemma clean_response_without_backtick (y : str) :
  no_backtick y ->
  clean_response y =
    if starts_with_json (strip y) then
      let cleaned := strip (slice_from 4 (strip y)) in
      if startswith (py ":") cleaned then strip (slice_from 1 cleaned)
      else cleaned
    else strip y.
Proof.
  intros H. unfold clean_response, starts_with_json.
  assert (Hs : no_backtick (strip y)) by (apply Forall_strip, H).
  rewrite (no_fence_without_backtick _ Hs). simpl andb. cbv iota.
  change (List.length (py "json")) with 4%nat.
  destruct (startswith (py "json") (lower (strip y))).
  - cbv zeta.
    assert (H4 : no_backtick (strip (slice_from 4 (strip y))))
      by (apply Forall_strip, Forall_skipn, Hs).
    destruct (startswith (py ":") (strip (slice_from 4 (strip y)))).
    + apply remove_char_id, Forall_strip, Forall_skipn, H4.
    + apply remove_char_id, H4.
  - apply remove_char_id, Hs.
Qed.

Lemma clean_response_fixed_iff (y : str) :
  no_backtick y ->
  clean_response y = y <-> strip y = y /\ starts_with_json y = false.
Proof.
  intros H. rewrite (clean_response_without_backtick y H). split.
  - intros E. pose proof (strip_length y) as Ly.
    destruct (starts_with_json (strip y)) eqn:J.
    + exfalso. unfold starts_with_json in J.
      apply startswith_length in J. unfold lower in J.
      rewrite length_map in J. change (List.length (py "json")) with 4%nat in J.
      cbv zeta in E.
      pose proof (strip_length (slice_from 4 (strip y))) as L4.
      pose proof (strip_length
                    (slice_from 1 (strip (slice_from 4 (strip y))))) as L1.
      unfold slice_from in *. rewrite length_skipn in L1, L4.
      apply (f_equal (@List.length ascii)) in E.
      destruct (startswith (py ":") (strip (skipn 4 (strip y)))); lia.
    + assert (S : strip y = y) by exact E. rewrite S in J. auto.
  - intros [S J]. rewrite S, J. reflexivity.
Qed.

(** ** The response sanitizer *)

Example clean_response_fenced :
  clean_response
    (py "```json" ++ [chr 10] ++ py "{'events':[]}" ++ [chr 10] ++ py "```")
  = py "{'events':[]}".
Proof. reflexivity. Qed.

(** C3, as stated: the sanitizer is not idempotent.  A reply wrapped in
    single backticks keeps its language tag after one pass, and loses it in
    the next one. *)
Lemma clean_response_not_idempotent :
  clean_response (py "`json {}`") = py "json {}"
  /\ clean_response (py "json {}") = py "{}"
  /\ clean_response (clean_response (py "`json {}`"))
     <> clean_response (py "`json {}`").
Proof. repeat split. vm_compute. discriminate. Qed.

(** C3, amended: the output of the sanitizer never holds a backtick, and a
    second pass leaves it unchanged exactly when it has no white space at
    either end and does not begin with [json] (in any case). *)
Theorem clean_response_twice (x : str) :
  no_backtick (clean_response x)
  /\ (clean_response (clean_response x) = clean_response x
      <-> strip (clean_response x) = clean_response x
          /\ starts_with_json (clean_response x) = false).
Proof.
  split.
  - apply clean_response_no_backtick.
  - apply clean_response_fixed_iff, clean_response_no_backtick.
Qed.

(** ** The schedule decoder *)

Lemma parse_schedule_unfold (decode : str -> result pyval) (text : str) :
  parse_schedule decode text =
    match decode (clean_response text) with
    | Raise _ => Raise ValueError
    | Ok (PDict d) =>
        match dict_lookup d (py "events") with
        | None => Ok []
        | Some (PList l) => Ok l
        | Some _ => Raise ValueError
        end
    | Ok _ => Raise ValueError
    end.
Proof.
  unfold parse_schedule, parse_schedule_body.
  destruct (decode (clean_response text)) as [v|e]; [|reflexivity].
  destruct v as [| | | | |l|d]; try reflexivity.
  cbn [rbind get_default].
  destruct (dict_lookup d (py "events")) as [v|]; [|reflexivity].
  destruct v; reflexivity.
Qed.

(** C2, as stated: an object without an ["events"] field is read as an
    empty schedule, not rejected. *)
Lemma parse_schedule_missing_events_field :
  parse_schedule decode_empty_object (py "{}") = Ok []
  /\ ~ decoder_fails_as_documented decode_empty_object (py "{}").
Proof.
  split; [reflexivity|].
  unfold decoder_fails_as_documented. intros [_ H].
  change (parse_schedule decode_empty_object (py "{}")) with (@Ok (list pyval) []) in H.
  apply H. right. exists (PDict []). split; [reflexivity|].
  left. reflexivity.
Qed.

(** C2, amended: [parse_schedule] fails exactly when the sanitized text
    does not parse, or the parsed value is not an object, or its ["events"]
    field is present and not a list.  An object without the field gives the
    empty sequence; otherwise the value of the field is returned whole. *)
Theorem parse_schedule_outcome (decode : str -> result pyval) (text : str) :
  (fails (parse_schedule decode text)
   <-> (fails (decode (clean_response text))
        \/ exists v, decode (clean_response text) = Ok v
                     /\ (~ is_object v \/ events_not_a_list v)))
  /\ parse_schedule decode text =
       match decode (clean_response text) with
       | Raise _ => Raise ValueError
       | Ok (PDict d) =>
           match dict_lookup d (py "events") with
           | None => Ok []
           | Some (PList l) => Ok l
           | Some _ => Raise ValueError
           end
       | Ok _ => Raise ValueError
       end.
Proof.
  split; [|apply parse_schedule_unfold].
  rewrite parse_schedule_unfold. unfold events_not_a_list, is_object, fails.
  destruct (decode (clean_response text)) as [v|e].
  - split.
    + intros F. right. exists v. split; [reflexivity|].
      destruct v as [| | | | |l|d]; try (left; tauto).
      right. destruct (dict_lookup d (py "events")) as [[]|]; tauto.
    + intros [[]|[v' [E [N|N]]]]; injection E as <-.
      * destruct v; tauto.
      * destruct v as [| | | | |l|d]; try tauto.
        destruct (dict_lookup d (py "events")) as [[]|]; tauto.
  - split; [tauto|]. intros _. exact I.
Qed.

(** ** Dates *)

Lemma all_from_spec (f : Z -> bool) (k : nat) (n : Z) :
  all_from k n f = true ->
  forall i, n <= i < n + Z.of_nat k -> f i = true.
Proof.
  revert n. induction k as [|k IH]; intros n H i Hi; [lia|].
  simpl in H. destruct (f n) eqn:E; [|discriminate].
  destruct (Z.eq_dec i n) as [->|Hne]; [exact E|].
  apply (IH (n + 1) H). lia.
Qed.

Lemma month_and_day_common (n : Z) :
  0 <= n < 365 -> month_and_day_ok false n = true.
Proof.
  intros H. apply (all_from_spec _ 365 0); [vm_compute; reflexivity | lia].
Qed.

Lemma month_and_day_leap (n : Z) :
  0 <= n < 366 -> month_and_day_ok true n = true.
Proof.
  intros H. apply (all_from_spec _ 366 0); [vm_compute; reflexivity | lia].
Qed.

Lemma is_leap_spec (y : Z) :
  is_leap y = true <-> y mod 4 = 0 /\ (y mod 100 <> 0 \/ y mod 400 = 0).
Proof.
  unfold is_leap.
  rewrite andb_true_iff, orb_true_iff, negb_true_iff, !Z.eqb_eq, Z.eqb_neq.
  reflexivity.
Qed.

Lemma days_before_year_succ (y : Z) :
  days_before_year (y + 1) = days_before_year y + 365 + leap_bit (is_leap y).
Proof.
  unfold days_before_year, leap_bit.
  destruct (is_leap y) eqn:L.
  - apply is_leap_spec in L. Z.div_mod_to_equations. lia.
  - assert (N : ~ (y mod 4 = 0 /\ (y mod 100 <> 0 \/ y mod 400 = 0))).
    { rewrite <- is_leap_spec, L. discriminate. }
    Z.div_mod_to_equations. lia.
Qed.

Lemma days_before_year_mono (y y' : Z) :
  y <= y' -> days_before_year y <= days_before_year y'.
Proof.
  intros H. unfold days_before_year. Z.div_mod_to_equations. lia.
Qed.

Lemma days_before_month_eq (y m : Z) :
  days_before_month y m
  = table DAYS_BEFORE_MONTH m + leap_bit ((2 <? m) && is_leap y).
Proof. reflexivity. Qed.

(** The ordinal of a day and the day of an ordinal are inverse to each
    other over the whole range of [date]. *)
Lemma ord2ymd_spec (n : Z) :
  1 <= n <= MAXORDINAL ->
  valid_date (ord2ymd n) = true /\ toordinal (ord2ymd n) = n.
Proof.
  unfold MAXORDINAL. intros Hn.
  unfold ord2ymd, DI400Y, DI100Y, DI4Y.
  pose proof (Z.div_mod (n - 1) 146097 ltac:(lia)) as E1.
  pose proof (Z.mod_pos_bound (n - 1) 146097 ltac:(lia)) as B1.
  set (q := (n - 1) / 146097) in *. set (r1 := (n - 1) mod 146097) in *.
  pose proof (Z.div_mod r1 36524 ltac:(lia)) as E2.
  pose proof (Z.mod_pos_bound r1 36524 ltac:(lia)) as B2.
  set (c := r1 / 36524) in *. set (r2 := r1 mod 36524) in *.
  pose proof (Z.div_mod r2 1461 ltac:(lia)) as E3.
  pose proof (Z.mod_pos_bound r2 1461 ltac:(lia)) as B3.
  set (f := r2 / 1461) in *. set (r3 := r2 mod 1461) in *.
  pose proof (Z.div_mod r3 365 ltac:(lia)) as E4.
  pose proof (Z.mod_pos_bound r3 365 ltac:(lia)) as B4.
  set (o := r3 / 365) in *. set (r4 := r3 mod 365) in *.
  clearbody q r1 c r2 f r3 o r4.
  assert (Hq : 0 <= q <= 24) by lia.
  assert (Hc : 0 <= c <= 4) by lia.
  assert (Hf : 0 <= f <= 24) by lia.
  assert (Ho : 0 <= o <= 4) by lia.
  cbv zeta.
  destruct ((o =? 4) || (c =? 4)) eqn:Special.
  - (* the last day of a leap year *)
    apply orb_true_iff in Special. rewrite !Z.eqb_eq in Special.
    set (y := q * 400 + 1 + c * 100 + f * 4 + o - 1).
    assert (Ly : is_leap y = true).
    { apply is_leap_spec. subst y. Z.div_mod_to_equations. lia. }
    assert (Hy : 1 <= y <= 9999) by (subst y; lia).
    split.
    + unfold valid_date, between, MINYEAR, MAXYEAR. cbn [year month day].
      apply andb_true_iff. split; [|reflexivity].
      apply andb_true_iff. split; [|reflexivity].
      apply andb_true_iff. split; apply Z.leb_le; lia.
    + unfold toordinal, ymd2ord. cbn [year month day].
      rewrite days_before_month_eq, Ly. change (table DAYS_BEFORE_MONTH 12) with 334.
      change (leap_bit ((2 <? 12) && true)) with 1.
      unfold days_before_year. subst y. Z.div_mod_to_equations. lia.
  - apply orb_false_iff in Special. rewrite !Z.eqb_neq in Special.
    set (y := q * 400 + 1 + c * 100 + f * 4 + o).
    set (L := (o =? 3) && (negb (f =? 24) || (c =? 3))).
    assert (Ly : is_leap y = L).
    { subst L. destruct ((o =? 3) && (negb (f =? 24) || (c =? 3))) eqn:E.
      - apply is_leap_spec.
        rewrite andb_true_iff, orb_true_iff, negb_true_iff, !Z.eqb_eq,
          Z.eqb_neq in E.
        subst y. Z.div_mod_to_equations. lia.
      - destruct (is_leap y) eqn:E'; [|reflexivity].
        apply is_leap_spec in E'.
        rewrite andb_false_iff, orb_false_iff, negb_false_iff, !Z.eqb_neq,
          Z.eqb_eq in E.
        subst y. Z.div_mod_to_equations. lia. }
    assert (Hy : 1 <= y <= 9999) by (subst y; lia).
    assert (Dy : days_before_year y = n - 1 - r4).
    { unfold days_before_year. subst y. Z.div_mod_to_equations. lia. }
    assert (OK : month_and_day_ok L r4 = true).
    { destruct L; [apply month_and_day_leap | apply month_and_day_common]; lia. }
    unfold month_and_day_ok in OK.
    destruct (month_and_day L r4) as [m d]. cbn [fst snd] in *.
    apply andb_true_iff in OK. destruct OK as [OK Sum].
    apply andb_true_iff in OK. destruct OK as [Hm Hd].
    apply Z.eqb_eq in Sum.
    split.
    + unfold valid_date. cbn [year month day].
      rewrite Hm. unfold days_in_month. rewrite Ly, Hd.
      unfold between, MINYEAR, MAXYEAR.
      rewrite andb_true_r, andb_true_r. apply andb_true_iff.
      split; apply Z.leb_le; lia.
    + unfold toordinal, ymd2ord. cbn [year month day].
      rewrite days_before_month_eq, Ly, Dy. lia.
Qed.

Lemma valid_date_spec (d : date) :
  valid_date d = true <->
  1 <= year d <= 9999 /\ 1 <= month d <= 12
  /\ 1 <= day d <= days_in_month (year d) (month d).
Proof.
  unfold valid_date, between, MINYEAR, MAXYEAR.
  rewrite !andb_true_iff, !Z.leb_le. tauto.
Qed.

Lemma month_cases (m : Z) :
  1 <= m <= 12 ->
  In m [1; 2; 3; 4; 5; 6; 7; 8; 9; 10; 11; 12].
Proof. intros H. simpl. lia. Qed.

Ltac each_month H :=
  apply month_cases in H; simpl in H;
  repeat (destruct H as [H|H]; [subst|]); [..|contradiction].

Lemma days_before_month_bounds (y m : Z) :
  1 <= m <= 12 ->
  0 <= days_before_month y m
  /\ days_before_month y m + days_in_month y m <= 365 + leap_bit (is_leap y).
Proof.
  intros H. unfold days_before_month, days_in_month.
  destruct (is_leap y); each_month H; vm_compute; split; discriminate.
Qed.

Lemma days_before_month_step (y m m' : Z) :
  1 <= m -> m < m' -> m' <= 12 ->
  days_before_month y m + days_in_month y m <= days_before_month y m'.
Proof.
  intros H1 H2 H3.
  assert (Hm : 1 <= m <= 12) by lia. assert (Hm' : 1 <= m' <= 12) by lia.
  unfold days_before_month, days_in_month.
  destruct (is_leap y); each_month Hm; each_month Hm'; try lia;
    vm_compute; discriminate.
Qed.

Lemma toordinal_range (d : date) :
  valid_date d = true -> 1 <= toordinal d <= MAXORDINAL.
Proof.
  intros V. apply valid_date_spec in V. destruct V as (Hy & Hm & Hd).
  unfold toordinal, ymd2ord.
  pose proof (days_before_month_bounds (year d) (month d) Hm) as [B1 B2].
  pose proof (days_before_year_succ (year d)) as S.
  pose proof (days_before_year_mono 1 (year d) ltac:(lia)) as M1.
  pose proof (days_before_year_mono (year d + 1) 10000 ltac:(lia)) as M2.
  change (days_before_year 1) with 0 in M1.
  change (days_before_year 10000) with 3652059 in M2.
  unfold MAXORDINAL. lia.
Qed.

Lemma toordinal_lt (a b : date) :
  valid_date a = true -> valid_date b = true ->
  date_lt a b -> toordinal a < toordinal b.
Proof.
  intros Va Vb. apply valid_date_spec in Va, Vb.
  destruct Va as (Hya & Hma & Hda). destruct Vb as (Hyb & Hmb & Hdb).
  unfold toordinal, ymd2ord.
  pose proof (days_before_month_bounds (year a) (month a) Hma) as [A1 A2].
  pose proof (days_before_month_bounds (year b) (month b) Hmb) as [B1 B2].
  intros [Y|[Y [Mo|[Mo D]]]].
  - pose proof (days_before_year_succ (year a)) as S.
    pose proof (days_before_year_mono (year a + 1) (year b) ltac:(lia)). lia.
  - rewrite Y in *.
    pose proof (days_before_month_step (year b) (month a) (month b)
                  ltac:(lia) Mo ltac:(lia)). lia.
  - rewrite Y, Mo in *. lia.
Qed.

Lemma date_leb_arith (a b : date) :
  date_leb a b = true <->
  year a < year b
  \/ (year a = year b
      /\ (month a < month b \/ (month a = month b /\ day a <= day b))).
Proof.
  unfold date_leb.
  destruct (Z.ltb_spec (year a) (year b)), (Z.eqb_spec (year a) (year b)),
    (Z.ltb_spec (month a) (month b)), (Z.eqb_spec (month a) (month b)),
    (Z.leb_spec (day a) (day b));
    cbn; split; intros ?; try discriminate; try reflexivity; lia.
Qed.

Lemma date_leb_spec (a b : date) :
  date_leb a b = true <-> a = b \/ date_lt a b.
Proof.
  rewrite date_leb_arith. unfold date_lt.
  destruct a as [ya ma da], b as [yb mb db]. cbn [year month day].
  split.
  - intros H.
    destruct (Z.eq_dec ya yb) as [->|]; [|right; lia].
    destruct (Z.eq_dec ma mb) as [->|]; [|right; lia].
    destruct (Z.eq_dec da db) as [->|]; [left; reflexivity | right; lia].
  - intros [E|H]; [injection E; lia | lia].
Qed.

(** Dates are ordered as their ordinals. *)
Lemma date_leb_toordinal (a b : date) :
  valid_date a = true -> valid_date b = true ->
  date_leb a b = true <-> toordinal a <= toordinal b.
Proof.
  intros Va Vb. split.
  - intros H. apply date_leb_spec in H. destruct H as [->|H]; [lia|].
    pose proof (toordinal_lt a b Va Vb H). lia.
  - intros H. destruct (date_leb a b) eqn:E; [reflexivity|]. exfalso.
    assert (L : date_lt b a).
    { assert (N : ~ (date_leb a b = true)) by (rewrite E; discriminate).
      rewrite date_leb_arith in N. unfold date_lt. lia. }
    pose proof (toordinal_lt b a Vb Va L). lia.
Qed.

Lemma fromordinal_valid (n : Z) :
  1 <= n <= MAXORDINAL -> valid_date (fromordinal n) = true.
Proof. intros H. apply ord2ymd_spec, H. Qed.

Lemma toordinal_fromordinal (n : Z) :
  1 <= n <= MAXORDINAL -> toordinal (fromordinal n) = n.
Proof. intros H. apply ord2ymd_spec, H. Qed.

(** [d + timedelta(days=n)]: the day [n] days later, or [OverflowError]
    outside the range of [date]. *)
Lemma date_add_days_spec (d : date) (n : Z) :
  valid_date d = true -> 0 <= n ->
  (toordinal d + n <= MAXORDINAL ->
   exists d', date_add_days d n = Ok d' /\ valid_date d' = true
              /\ toordinal d' = toordinal d + n)
  /\ (MAXORDINAL < toordinal d + n -> date_add_days d n = Raise OverflowError).
Proof.
  intros V Hn. pose proof (toordinal_range d V) as R.
  unfold date_add_days. split; intros H.
  - assert (C : (0 <? toordinal d + n) && (toordinal d + n <=? MAXORDINAL)
                = true).
    { apply andb_true_iff. split; [apply Z.ltb_lt | apply Z.leb_le]; lia. }
    rewrite C. eexists. split; [reflexivity|].
    split; [apply fromordinal_valid | apply toordinal_fromordinal]; lia.
  - assert (C : (toordinal d + n <=? MAXORDINAL) = false)
      by (apply Z.leb_gt; lia).
    rewrite C, andb_false_r. reflexivity.
Qed.

(** ** Runs of the expander *)

Lemma add_all_app (es1 es2 : list Event) (cal : gmap nat Event) (n : nat) :
  add_all (es1 ++ es2) cal n
  = add_all es2 (add_all es1 cal n) (n + List.length es1)%nat.
Proof.
  revert cal n. induction es1 as [|e es1 IH]; intros cal n; simpl.
  - f_equal. lia.
  - rewrite IH. f_equal. lia.
Qed.

Lemma add_all_lookup_below (es : list Event) (cal : gmap nat Event)
  (n k : nat) :
  (k < n)%nat -> add_all es cal n !! k = cal !! k.
Proof.
  revert cal n. induction es as [|e es IH]; intros cal n H; simpl; [done|].
  rewrite IH by lia. apply lookup_insert_ne. lia.
Qed.

Lemma add_all_lookup (es : list Event) (cal : gmap nat Event) (n i : nat) :
  (i < List.length es)%nat -> add_all es cal n !! (n + i)%nat = es !! i.
Proof.
  revert cal n i. induction es as [|e es IH]; intros cal n i H; simpl in *.
  - lia.
  - destruct i as [|i].
    + rewrite Nat.add_0_r, add_all_lookup_below by lia.
      apply lookup_insert_eq.
    + replace (n + S i)%nat with (S n + i)%nat by lia. apply IH. lia.
Qed.

Lemma add_all_lookup_above (es : list Event) (cal : gmap nat Event)
  (n k : nat) :
  (n + List.length es <= k)%nat -> add_all es cal n !! k = cal !! k.
Proof.
  revert cal n. induction es as [|e es IH]; intros cal n H; simpl in *; [done|].
  rewrite IH by lia. apply lookup_insert_ne. lia.
Qed.

Lemma add_all_lookup_Some (es : list Event) (n k : nat) (e : Event) :
  add_all es ∅ n !! k = Some e ->
  exists i, k = (n + i)%nat /\ es !! i = Some e.
Proof.
  intros H.
  destruct (decide (k < n)%nat).
  { rewrite add_all_lookup_below in H by lia. done. }
  destruct (decide (n + List.length es <= k)%nat).
  { rewrite add_all_lookup_above in H by lia. done. }
  exists (k - n)%nat. split; [lia|].
  rewrite <- H, <- (add_all_lookup es ∅ n (k - n)) by lia. f_equal. lia.
Qed.

Lemma add_all_size (es : list Event) (cal : gmap nat Event) (n : nat) :
  (forall k, (n <= k)%nat -> cal !! k = None) ->
  size (add_all es cal n) = (size cal + List.length es)%nat.
Proof.
  revert cal n. induction es as [|e es IH]; intros cal n H; simpl; [lia|].
  rewrite IH.
  - rewrite map_size_insert_None by (apply H; lia). lia.
  - intros k Hk. rewrite lookup_insert_ne by lia. apply H. lia.
Qed.

Lemma add_all_empty_size (es : list Event) (n : nat) :
  size (add_all es ∅ n) = List.length es.
Proof.
  rewrite add_all_size by (intros; apply lookup_empty).
  rewrite map_size_empty. lia.
Qed.

(** One turn of the loop over the days, spelled out. *)
Lemma for_days_cons (idx : nat) (f : fields) (day : pyval)
  (rest : list pyval) (w : World) :
  for_days idx f (day :: rest) w =
    match day_weekday day with
    | Raise e => (Raise e, w)
    | Ok None =>
        for_days idx f rest (logging WARNING (UnrecognizedDay idx day) w)
    | Ok (Some weekday) =>
        match first_event_date (start_dt f) weekday with
        | Raise e => (Raise e, w)
        | Ok d =>
            for_days idx f rest
              (mkWorld (<[next_id w := make_event f d]> (cal_events w))
                       (S (next_id w)) (log w) (files w))
        end
    end.
Proof.
  cbn [for_days]. unfold bind, for_day, bind, lift, Event_new, events_add.
  destruct (day_weekday day) as [[weekday|]|e]; try reflexivity.
  destruct (first_event_date (start_dt f) weekday); reflexivity.
Qed.

(** The loop over the days of one event. *)
Lemma for_days_run (idx : nat) (f : fields) (ds : list pyval) (w : World) :
  fst (for_days idx f ds w) = outcome (snd (days_entries f ds))
  /\ cal_events (snd (for_days idx f ds w))
     = add_all (fst (days_entries f ds)) (cal_events w) (next_id w)
  /\ next_id (snd (for_days idx f ds w))
     = (next_id w + List.length (fst (days_entries f ds)))%nat
  /\ files (snd (for_days idx f ds w)) = files w.
Proof.
  revert w. induction ds as [|day rest IH]; intros w.
  - simpl. repeat split. lia.
  - rewrite for_days_cons. cbn [days_entries].
    destruct (day_weekday day) as [[weekday|]|e].
    + destruct (first_event_date (start_dt f) weekday) as [d|e].
      * match goal with |- context [for_days idx f rest ?w'] =>
          destruct (IH w') as (I1 & I2 & I3 & I4) end.
        rewrite I1, I2, I3, I4.
        cbn [add_all List.length fst snd cal_events next_id files].
        repeat split. lia.
      * cbn. repeat split. lia.
    + destruct (IH (logging WARNING (UnrecognizedDay idx day) w))
        as (I1 & I2 & I3 & I4).
      cbn [logging cal_events next_id files] in *. auto.
    + cbn. repeat split. lia.
Qed.

Lemma except_frame (idx : nat) (e : exn) (w : World) :
  cal_events (except_ idx e w) = cal_events w
  /\ next_id (except_ idx e w) = next_id w
  /\ files (except_ idx e w) = files w.
Proof. destruct e; repeat split. Qed.

(** One event, with the handlers of its [try]. *)
Lemma expand_event_run (idx : nat) (event_data : pyval) (w : World) :
  cal_events (expand_event idx event_data w)
  = add_all (event_entries event_data) (cal_events w) (next_id w)
  /\ next_id (expand_event idx event_data w)
     = (next_id w + List.length (event_entries event_data))%nat
  /\ files (expand_event idx event_data w) = files w.
Proof.
  unfold expand_event, try_event, event_entries, bind, lift.
  destruct (read_fields event_data) as [f|e].
  - destruct (iter (days f)) as [ds|e].
    + destruct (for_days_run idx f ds w) as (I1 & I2 & I3 & I4).
      destruct (for_days idx f ds w) as [r w'].
      cbn [fst snd] in *.
      destruct r as [[]|e]; [auto|].
      destruct (except_frame idx e w') as (F1 & F2 & F3).
      rewrite F1, F2, F3. auto.
    + destruct (except_frame idx e w) as (F1 & F2 & F3).
      rewrite F1, F2, F3. cbn. repeat split. lia.
  - destruct (except_frame idx e w) as (F1 & F2 & F3).
    rewrite F1, F2, F3. cbn. repeat split. lia.
Qed.

(** The loop over the events. *)
Lemma for_events_run (idx : nat) (events : list pyval) (w : World) :
  cal_events (for_events idx events w)
  = add_all (batch_entries events) (cal_events w) (next_id w)
  /\ next_id (for_events idx events w)
     = (next_id w + List.length (batch_entries events))%nat
  /\ files (for_events idx events w) = files w.
Proof.
  revert idx w. induction events as [|ev rest IH]; intros idx w.
  - simpl. repeat split. lia.
  - cbn [for_events batch_entries flat_map].
    destruct (expand_event_run idx ev w) as (E1 & E2 & E3).
    destruct (IH (S idx) (expand_event idx ev w)) as (I1 & I2 & I3).
    rewrite I1, I2, I3, E1, E2, E3, add_all_app, length_app.
    fold (batch_entries rest). repeat split. lia.
Qed.

Lemma dict_lookup_head {V} (k : str) (v : V) (d : list (str * V)) :
  dict_lookup ((k, v) :: d) k = Some v.
Proof. simpl. rewrite str_eqb_refl. reflexivity. Qed.

(** What [generate_ics] leaves behind: the file at the returned path holds
    exactly the entries of the batch, as objects numbered from the first
    free identity. *)
Lemma generate_ics_run (events : list pyval) (uuid4 : str) (w : World) :
  fst (generate_ics events uuid4 w)
  = path_join ICS_DIR (py "schedule_" ++ uuid4 ++ py ".ics")
  /\ written_calendar (generate_ics events uuid4 w)
     = Some (add_all (batch_entries events) ∅ (next_id w))
  /\ cal_events (snd (generate_ics events uuid4 w))
     = add_all (batch_entries events) ∅ (next_id w)
  /\ next_id (snd (generate_ics events uuid4 w))
     = (next_id w + List.length (batch_entries events))%nat.
Proof.
  unfold generate_ics, written_calendar.
  destruct (for_events_run 1 events (Calendar_new w)) as (E1 & E2 & E3).
  cbn [fst snd logging write_calendar files cal_events next_id Calendar_new]
    in *.
  rewrite dict_lookup_head, E1, E2. auto.
Qed.

(** ** Reading one raw event *)

Lemma check_datetime_Ok (dt dt' : datetime) :
  check_datetime dt = Ok dt' ->
  dt' = dt /\ valid_date (dt_date dt) = true /\ valid_time (dt_time dt) = true.
Proof.
  unfold check_datetime, date_new, time_new.
  destruct dt as [[y m d] [h mi s]]. cbn [dt_date dt_time year month day
    hour minute second].
  destruct (valid_date (mkdate y m d)); [|discriminate].
  destruct (valid_time (mktime h mi s)); [|discriminate].
  cbn [rbind]. intros E. injection E as <-. auto.
Qed.

Lemma strptime_datetime_valid (v : pyval) (dt : datetime) :
  strptime_datetime v = Ok dt ->
  valid_date (dt_date dt) = true /\ valid_time (dt_time dt) = true.
Proof.
  unfold strptime_datetime. destruct v; try discriminate.
  destruct (first_full_match (re_datetime s)) as [dt0|]; [|discriminate].
  cbn [rbind]. intros H. apply check_datetime_Ok in H.
  destruct H as (-> & H). exact H.
Qed.

Lemma strptime_date_valid (v : pyval) (dt : datetime) :
  strptime_date v = Ok dt -> valid_date (dt_date dt) = true.
Proof.
  unfold strptime_date. destruct v; try discriminate.
  destruct (first_full_match (re_date s)) as [d0|]; [|discriminate].
  cbn [rbind]. intros H. apply check_datetime_Ok in H.
  destruct H as (-> & H & _). exact H.
Qed.

(** What a successful reading of the fields says about the raw event. *)
Lemma read_fields_Ok (event_data : pyval) (f : fields) :
  read_fields event_data = Ok f ->
  exists d s e ed edt,
    event_data = PDict d
    /\ dict_lookup d (py "title") = Some (title f)
    /\ dict_lookup d (py "start") = Some s
    /\ dict_lookup d (py "end") = Some e
    /\ dict_lookup d (py "days") = Some (days f)
    /\ dict_lookup d (py "location") = Some (f_location f)
    /\ dict_lookup d (py "notes") = Some (instructor f)
    /\ dict_lookup d (py "end_date") = Some ed
    /\ strptime_datetime s = Ok (start_dt f)
    /\ strptime_datetime e = Ok (end_dt f)
    /\ strptime_date ed = Ok edt
    /\ end_date f = dt_date edt.
Proof.
  intros H. unfold read_fields in H.
  destruct event_data as [| | | | | |d]; try discriminate H.
  unfold getitem in H.
  repeat match type of H with
         | context [dict_lookup d ?k] =>
             let E := fresh "E" in
             destruct (dict_lookup d k) eqn:E; cbn [rbind] in H;
             [|discriminate H]
         end.
  repeat match type of H with
         | context [strptime_datetime ?v] =>
             let E := fresh "S" in
             destruct (strptime_datetime v) eqn:E; cbn [rbind] in H;
             [|discriminate H]
         end.
  match type of H with
  | context [strptime_date ?v] =>
      destruct (strptime_date v) as [edt|] eqn:Sd; cbn [rbind] in H;
      [|discriminate H]
  end.
  injection H as <-. cbn [title start_dt end_dt days f_location instructor
    end_date].
  eexists d, _, _, _, edt. repeat split; eassumption.
Qed.

Lemma read_fields_valid (event_data : pyval) (f : fields) :
  read_fields event_data = Ok f ->
  valid_date (dt_date (start_dt f)) = true
  /\ valid_date (dt_date (end_dt f)) = true
  /\ valid_date (end_date f) = true.
Proof.
  intros H. apply read_fields_Ok in H.
  destruct H as (d & s & e & ed & edt & _ & _ & _ & _ & _ & _ & _ & _
                 & S1 & S2 & S3 & ->).
  apply strptime_datetime_valid in S1, S2. apply strptime_date_valid in S3.
  tauto.
Qed.

(** A malformed event is not read. *)
Lemma malformed_not_read (event_data : pyval) :
  malformed event_data = true -> fails (read_fields event_data).
Proof.
  intros M. destruct (read_fields event_data) as [f|] eqn:R; [|exact I].
  exfalso. apply read_fields_Ok in R.
  destruct R as (d & s & e & ed & edt & -> & L1 & L2 & L3 & L4 & L5 & L6
                 & L7 & S1 & S2 & S3 & _).
  unfold malformed, missing_required_field, has_unparseable_date,
    required_fields, unparseable in M.
  cbn [existsb] in M.
  rewrite L1, L2, L3, L4, L5, L6, L7, S1, S2, S3 in M. discriminate M.
Qed.

Lemma malformed_no_entries (event_data : pyval) :
  malformed event_data = true -> event_entries event_data = [].
Proof.
  intros M. apply malformed_not_read in M. unfold event_entries.
  destruct (read_fields event_data); [contradiction | reflexivity].
Qed.

(** ** The first occurrence *)

Lemma dict_lookup_In {V} (d : list (str * V)) (k : str) (v : V) :
  dict_lookup d k = Some v -> In (k, v) d.
Proof.
  induction d as [|[k' v'] d IH]; simpl; [discriminate|].
  destruct (str_eqb k' k) eqn:E.
  - apply str_eqb_eq in E. intros [= ->]. left. congruence.
  - intros H. right. apply IH, H.
Qed.

Lemma day_weekday_range (day : pyval) (weekday : Z) :
  day_weekday day = Ok (Some weekday) -> 0 <= weekday <= 4.
Proof.
  unfold day_weekday. destruct (upper_method day) as [u|]; [|discriminate].
  cbn [rbind]. intros H0.
  assert (H : dict_lookup DAY_MAP u = Some weekday) by congruence.
  apply dict_lookup_In in H. unfold DAY_MAP in H. cbn [In] in H.
  repeat (destruct H as [H|H]; [injection H as _ <-; lia|]). contradiction.
Qed.

Lemma days_ahead_range (start : datetime) (weekday : Z) :
  0 <= days_ahead start weekday <= 6.
Proof. unfold days_ahead. pose proof (Z.mod_pos_bound (weekday - date_weekday (dt_date start)) 7). lia. Qed.

Lemma first_event_date_spec (start : datetime) (weekday : Z) :
  valid_date (dt_date start) = true -> 0 <= weekday <= 6 ->
  (toordinal (dt_date start) + days_ahead start weekday <= MAXORDINAL ->
   exists d,
     first_event_date start weekday = Ok d
     /\ valid_date d = true
     /\ toordinal d = toordinal (dt_date start) + days_ahead start weekday
     /\ date_weekday d = weekday
     /\ date_leb (dt_date start) d = true)
  /\ (MAXORDINAL < toordinal (dt_date start) + days_ahead start weekday ->
      first_event_date start weekday = Raise OverflowError).
Proof.
  intros V Hw. pose proof (days_ahead_range start weekday) as Hk.
  unfold first_event_date.
  destruct (date_add_days_spec (dt_date start) (days_ahead start weekday) V
              ltac:(lia)) as [Hin Hout].
  split; [|exact Hout].
  intros Hle. destruct (Hin Hle) as (d & E & Vd & Od).
  exists d. repeat split; try assumption.
  - unfold date_weekday. rewrite Od. unfold days_ahead, date_weekday.
    Z.div_mod_to_equations. lia.
  - apply date_leb_toordinal; try assumption. lia.
Qed.

Example first_occurrence_of_the_design_document :
  first_event_date (combine (mkdate 2024 1 8) (mktime 9 0 0)) 2
  = Ok (mkdate 2024 1 10).
Proof. reflexivity. Qed.

(** C1: for a well-formed event and a day code that maps to the weekday
    [weekday], the number of days added to the start date is
    [(weekday - start.weekday()) mod 7], between 0 and 6; the first
    occurrence is the start date plus that many days, so it is the start
    date or a later one, never an earlier one, and it falls on [weekday].
    This is the date of the entry the turn of the loop puts in the calendar.
    (When that date would lie after 9999-12-31, the last [date], the
    addition raises [OverflowError] and no date is computed.) *)
Theorem first_occurrence_date (event_data : pyval) (f : fields)
  (day : pyval) (weekday : Z) (idx : nat) (w : World) :
  read_fields event_data = Ok f ->
  day_weekday day = Ok (Some weekday) ->
  let start := dt_date (start_dt f) in
  let k := (weekday - date_weekday start) mod 7 in
  0 <= k <= 6
  /\ (toordinal start + k <= MAXORDINAL ->
      exists d,
        first_event_date (start_dt f) weekday = Ok d
        /\ toordinal d = toordinal start + k
        /\ date_leb start d = true
        /\ date_weekday d = weekday
        /\ for_day idx f day w
           = (Ok tt,
              mkWorld (<[next_id w := make_event f d]> (cal_events w))
                      (S (next_id w)) (log w) (files w)))
  /\ (MAXORDINAL < toordinal start + k ->
      first_event_date (start_dt f) weekday = Raise OverflowError
      /\ for_day idx f day w = (Raise OverflowError, w)).
Proof.
  intros R D start k.
  apply read_fields_valid in R. destruct R as (V & _).
  pose proof (day_weekday_range day weekday D) as Hw.
  destruct (first_event_date_spec (start_dt f) weekday V ltac:(lia))
    as [Hin Hout].
  fold start in Hin, Hout. change (days_ahead (start_dt f) weekday) with k in *.
  split; [apply (days_ahead_range (start_dt f) weekday)|]. split.
  - intros Hle. destruct (Hin Hle) as (d & E & Vd & Od & Wd & Ld).
    exists d. repeat split; try assumption.
    unfold for_day, bind, lift. rewrite D, E. reflexivity.
  - intros Hgt. split; [apply Hout, Hgt|].
    unfold for_day, bind, lift. rewrite D, (Hout Hgt). reflexivity.
Qed.

Lemma first_occurrence_date_witness :
  let f := cs101_fields "MWF" in
  let start := dt_date (start_dt f) in
  let k := (2 - date_weekday start) mod 7 in
  0 <= k <= 6
  /\ (toordinal start + k <= MAXORDINAL ->
      exists d,
        first_event_date (start_dt f) 2 = Ok d
        /\ toordinal d = toordinal start + k
        /\ date_leb start d = true
        /\ date_weekday d = 2
        /\ for_day 1 f (text "W") initial_world
           = (Ok tt,
              mkWorld (<[next_id initial_world := make_event f d]>
                         (cal_events initial_world))
                      (S (next_id initial_world)) (log initial_world)
                      (files initial_world)))
  /\ (MAXORDINAL < toordinal start + k ->
      first_event_date (start_dt f) 2 = Raise OverflowError
      /\ for_day 1 f (text "W") initial_world
         = (Raise OverflowError, initial_world)).
Proof.
  apply (first_occurrence_date (cs101 "MWF") (cs101_fields "MWF") (text "W")
           2 1 initial_world); reflexivity.
Defined.

(** ** Failures of single events *)

Lemma batch_entries_app (l1 l2 : list pyval) :
  batch_entries (l1 ++ l2) = batch_entries l1 ++ batch_entries l2.
Proof. unfold batch_entries. apply flat_map_app. Qed.

Lemma batch_entries_skip (l1 l2 : list pyval) (event_data : pyval) :
  event_entries event_data = [] ->
  batch_entries (l1 ++ event_data :: l2) = batch_entries (l1 ++ l2).
Proof.
  intros H. rewrite !batch_entries_app. f_equal.
  unfold batch_entries. cbn [flat_map]. rewrite H. reflexivity.
Qed.

(** C4: an event that lacks a required field or has a date that does not
    parse adds nothing to the calendar and stops nothing: the turn of the
    loop leaves the calendar as it was, and the file written for the batch
    is the one written for the batch without that event.  ([generate_ics]
    returns a path in every case: both handlers of the [try] go on.) *)
Theorem malformed_event_isolated (l1 l2 : list pyval) (event_data : pyval)
  (uuid4 : str) (w : World) :
  malformed event_data = true ->
  (forall idx w0,
     cal_events (expand_event idx event_data w0) = cal_events w0
     /\ next_id (expand_event idx event_data w0) = next_id w0)
  /\ fst (generate_ics (l1 ++ event_data :: l2) uuid4 w)
     = fst (generate_ics (l1 ++ l2) uuid4 w)
  /\ written_calendar (generate_ics (l1 ++ event_data :: l2) uuid4 w)
     = written_calendar (generate_ics (l1 ++ l2) uuid4 w)
  /\ written_calendar (generate_ics (l1 ++ event_data :: l2) uuid4 w)
     = Some (add_all (batch_entries l1 ++ batch_entries l2) ∅ (next_id w)).
Proof.
  intros M. pose proof (malformed_no_entries event_data M) as E.
  split.
  - intros idx w0. destruct (expand_event_run idx event_data w0) as (C & N & _).
    rewrite C, N, E. cbn. split; [reflexivity | lia].
  - destruct (generate_ics_run (l1 ++ event_data :: l2) uuid4 w)
      as (P1 & W1 & _).
    destruct (generate_ics_run (l1 ++ l2) uuid4 w) as (P2 & W2 & _).
    rewrite P1, P2, W1, W2, (batch_entries_skip l1 l2 event_data E),
      batch_entries_app.
    auto.
Qed.

(** C9: when every event of the batch is malformed, and when the batch is
    empty, [generate_ics] returns the path of a file it wrote, and the
    calendar in the file has no entry. *)
Theorem all_malformed_empty_calendar (events : list pyval) (uuid4 : str)
  (w : World) :
  forallb malformed events = true ->
  fst (generate_ics events uuid4 w)
  = path_join ICS_DIR (py "schedule_" ++ uuid4 ++ py ".ics")
  /\ written_calendar (generate_ics events uuid4 w) = Some ∅
  /\ next_id (snd (generate_ics events uuid4 w)) = next_id w.
Proof.
  intros H.
  assert (E : batch_entries events = []).
  { induction events as [|ev rest IH]; [reflexivity|].
    cbn [forallb] in H. apply andb_true_iff in H. destruct H as [M H].
    unfold batch_entries. cbn [flat_map].
    rewrite (malformed_no_entries ev M). apply IH, H. }
  destruct (generate_ics_run events uuid4 w) as (P & W & _ & N).
  rewrite P, W, N, E. cbn. repeat split. lia.
Qed.

Lemma malformed_event_isolated_witness :
  malformed no_title_event = true
  /\ written_calendar
       (generate_ics [cs101 "MWF"; no_title_event; math200] (py "u")
          initial_world)
     = written_calendar
         (generate_ics [cs101 "MWF"; math200] (py "u") initial_world)
  /\ written_calendar
       (generate_ics [cs101 "MWF"; no_title_event; math200] (py "u")
          initial_world)
     = Some (add_all (batch_entries [cs101 "MWF"] ++ batch_entries [math200])
               ∅ 0).
Proof.
  split; [reflexivity|].
  apply (malformed_event_isolated [cs101 "MWF"] [math200] no_title_event
           (py "u") initial_world).
  reflexivity.
Defined.

Lemma all_malformed_empty_calendar_witness :
  forallb malformed [no_title_event; bad_date_event] = true
  /\ fst (generate_ics [no_title_event; bad_date_event] (py "u")
            initial_world)
     = path_join ICS_DIR (py "schedule_" ++ py "u" ++ py ".ics")
  /\ written_calendar
       (generate_ics [no_title_event; bad_date_event] (py "u") initial_world)
     = Some ∅
  /\ next_id (snd (generate_ics [no_title_event; bad_date_event] (py "u")
                     initial_world))
     = next_id initial_world.
Proof.
  split; [reflexivity|].
  apply (all_malformed_empty_calendar [no_title_event; bad_date_event]
           (py "u") initial_world).
  reflexivity.
Defined.

(** ** The entries of one event *)

Lemma entry_for_make (f : fields) (weekday : Z) (d : date) :
  valid_date (dt_date (start_dt f)) = true -> 0 <= weekday <= 6 ->
  first_event_date (start_dt f) weekday = Ok d ->
  entry_for f (make_event f d) weekday.
Proof.
  intros V Hw E.
  destruct (first_event_date_spec (start_dt f) weekday V Hw) as [Hin Hout].
  destruct (Z.le_gt_cases
              (toordinal (dt_date (start_dt f))
               + days_ahead (start_dt f) weekday) MAXORDINAL) as [Hle|Hgt].
  - destruct (Hin Hle) as (d' & E' & Vd & Od & Wd & Ld).
    assert (d' = d) by congruence. subst d'.
    unfold entry_for, anchor_weekday, make_event.
    cbn [name begin end_ location description rrule dt_date dt_time].
    repeat split; assumption.
  - rewrite (Hout ltac:(lia)) in E. discriminate.
Qed.

Lemma days_entries_In (f : fields) (ds : list pyval) (e : Event) :
  valid_date (dt_date (start_dt f)) = true ->
  In e (fst (days_entries f ds)) -> exists weekday, entry_for f e weekday.
Proof.
  intros V. induction ds as [|day rest IH]; cbn [days_entries].
  - intros [].
  - destruct (day_weekday day) as [[weekday|]|] eqn:D; try (intros []).
    + destruct (first_event_date (start_dt f) weekday) as [d|] eqn:E;
        [|intros []].
      cbn [fst]. intros [<-|H]; [|apply IH, H].
      exists weekday. apply entry_for_make; try assumption.
      apply day_weekday_range in D. lia.
    + exact IH.
Qed.

Lemma event_entries_In (event_data : pyval) (e : Event) :
  In e (event_entries event_data) ->
  exists f weekday,
    read_fields event_data = Ok f /\ entry_for f e weekday.
Proof.
  unfold event_entries.
  destruct (read_fields event_data) as [f|] eqn:R; [|intros []].
  destruct (iter (days f)) as [ds|]; [|intros []].
  intros H. apply read_fields_valid in R. destruct R as (V & _).
  destruct (days_entries_In f ds e V H) as [weekday He].
  exists f, weekday. auto.
Qed.

(** The loop over text day codes, when the week after the start exists:
    no exception, and one entry per valid code, in order. *)
Lemma days_entries_fan_out (f : fields) (ds : list pyval) :
  valid_date (dt_date (start_dt f)) = true ->
  week_representable f ->
  forallb is_text ds = true ->
  snd (days_entries f ds) = None
  /\ Forall2 (entry_for f) (fst (days_entries f ds)) (weekdays_of ds).
Proof.
  intros V Rp. induction ds as [|day rest IH]; intros T.
  - split; [reflexivity | constructor].
  - cbn [forallb] in T. apply andb_true_iff in T. destruct T as [Td T].
    destruct (IH T) as [I1 I2].
    cbn [days_entries weekdays_of flat_map]. fold (weekdays_of rest).
    destruct day; try discriminate Td.
    destruct (day_weekday (PStr s)) as [[weekday|]|] eqn:D.
    + pose proof (day_weekday_range _ _ D) as Hw.
      pose proof (days_ahead_range (start_dt f) weekday) as Hk.
      destruct (first_event_date_spec (start_dt f) weekday V ltac:(lia))
        as [Hin _].
      unfold week_representable in Rp.
      destruct (Hin ltac:(lia)) as (d & E & _).
      rewrite E. cbn [fst snd app]. split; [exact I1|].
      constructor; [|exact I2].
      apply entry_for_make; try assumption. lia.
    + auto.
    + unfold day_weekday, upper_method in D. discriminate D.
Qed.

Lemma Forall2_anchor_weekday (f : fields) (es : list Event) (ws : list Z) :
  Forall2 (entry_for f) es ws -> map anchor_weekday es = ws.
Proof.
  induction 1 as [|e w es ws He _ IH]; [reflexivity|].
  cbn [map]. rewrite IH. f_equal. apply He.
Qed.

Lemma batch_entries_single (event_data : pyval) :
  batch_entries [event_data] = event_entries event_data.
Proof. unfold batch_entries. cbn [flat_map]. apply app_nil_r. Qed.

(** C5, as stated: a day code written twice gives two entries on the same
    weekday, and an event that starts on the last day of the calendar gives
    no entry for the Monday after it. *)
Lemma fan_out_not_as_documented :
  ~ fan_out_as_documented (cs101 "MM")
  /\ ~ fan_out_as_documented last_day_event.
Proof.
  split; intros H.
  - destruct (H (cs101_fields "MM") [text "M"; text "M"] [] initial_world
                eq_refl eq_refl eq_refl) as (cal & W & _ & D).
    destruct (generate_ics_run [cs101 "MM"] [] initial_world) as (_ & W' & _).
    rewrite W' in W. injection W as <-.
    apply (D 0%nat 1%nat
             (make_event (cs101_fields "MM") (mkdate 2024 1 8))
             (make_event (cs101_fields "MM") (mkdate 2024 1 8)));
      [lia | reflexivity | reflexivity | reflexivity].
  - destruct (H (mkfields (text "HIST300")
                   (combine (mkdate 9999 12 31) (mktime 9 0 0))
                   (combine (mkdate 9999 12 31) (mktime 9 50 0))
                   (text "M") (text "Rm 1") (text "Prof V")
                   (mkdate 9999 12 31))
                [text "M"] [] initial_world eq_refl eq_refl eq_refl)
      as (cal & W & S & _).
    destruct (generate_ics_run [last_day_event] [] initial_world)
      as (_ & W' & _).
    rewrite W' in W. injection W as <-.
    vm_compute in S. discriminate S.
Qed.

(** C5, amended: for a well-formed raw event whose day codes are text and
    whose start lies at least six days before the last date, [generate_ics]
    emits exactly one entry per valid day code, counted with repetitions
    and in the order of the codes; each is anchored to the weekday of its
    code, so the anchors differ exactly as the codes do; all have the start
    and end time of day of the event and the weekly rule until its end
    date. *)
Theorem event_fan_out (event_data : pyval) (f : fields) (ds : list pyval)
  (uuid4 : str) (w : World) :
  read_fields event_data = Ok f ->
  iter (days f) = Ok ds ->
  forallb is_text ds = true ->
  week_representable f ->
  exists es,
    written_calendar (generate_ics [event_data] uuid4 w)
    = Some (add_all es ∅ (next_id w))
    /\ size (add_all es ∅ (next_id w)) = List.length (weekdays_of ds)
    /\ List.length es = List.length (weekdays_of ds)
    /\ Forall2 (entry_for f) es (weekdays_of ds)
    /\ map anchor_weekday es = weekdays_of ds.
Proof.
  intros R I T Rp.
  pose proof (read_fields_valid _ _ R) as (V & _).
  destruct (days_entries_fan_out f ds V Rp T) as [_ F].
  exists (fst (days_entries f ds)).
  destruct (generate_ics_run [event_data] uuid4 w) as (_ & W & _).
  rewrite W, batch_entries_single. unfold event_entries. rewrite R, I.
  pose proof (Forall2_length _ _ _ F) as L.
  rewrite add_all_empty_size.
  repeat split; try assumption.
  apply (Forall2_anchor_weekday f), F.
Qed.

Lemma event_fan_out_witness :
  exists es,
    written_calendar (generate_ics [cs101 "MWF"] (py "u") initial_world)
    = Some (add_all es ∅ (next_id initial_world))
    /\ size (add_all es ∅ (next_id initial_world))
       = List.length (weekdays_of [text "M"; text "W"; text "F"])
    /\ List.length es = List.length (weekdays_of [text "M"; text "W"; text "F"])
    /\ Forall2 (entry_for (cs101_fields "MWF")) es
               (weekdays_of [text "M"; text "W"; text "F"])
    /\ map anchor_weekday es = weekdays_of [text "M"; text "W"; text "F"].
Proof.
  apply (event_fan_out (cs101 "MWF") (cs101_fields "MWF")
           [text "M"; text "W"; text "F"] (py "u") initial_world);
    try reflexivity.
  unfold week_representable. vm_compute. discriminate.
Defined.

Example fan_out_of_the_design_document :
  batch_entries [cs101 "MWF"]
  = map (make_event (cs101_fields "MWF"))
        [mkdate 2024 1 8; mkdate 2024 1 10; mkdate 2024 1 12]
  /\ weekdays_of [text "M"; text "W"; text "F"] = [0; 2; 4].
Proof. split; reflexivity. Qed.

(** ** Day codes *)

Lemma upper_char_lower_char (c : ascii) :
  upper_char (lower_char c) = upper_char c.
Proof. destruct c as [[] [] [] [] [] [] [] []]; vm_compute; reflexivity. Qed.

Lemma upper_upper_char (c : ascii) : upper (upper_char c) = upper_char c.
Proof. destruct c as [[] [] [] [] [] [] [] []]; vm_compute; reflexivity. Qed.

Lemma upper_lower (s : str) : upper (lower s) = upper s.
Proof.
  unfold upper, lower. induction s as [|c s IH]; [reflexivity|].
  cbn [map flat_map]. rewrite IH, upper_char_lower_char. reflexivity.
Qed.

Lemma upper_upper (s : str) : upper (upper s) = upper s.
Proof.
  induction s as [|c s IH]; [reflexivity|].
  unfold upper in *. cbn [flat_map]. rewrite flat_map_app, IH.
  f_equal. apply upper_upper_char.
Qed.

(** The mapping of day codes does not look at the case of the letters. *)
Lemma day_weekday_ignores_case (s : str) :
  day_weekday (PStr (lower s)) = day_weekday (PStr s)
  /\ day_weekday (PStr (upper s)) = day_weekday (PStr s).
Proof.
  unfold day_weekday, upper_method. rewrite upper_lower, upper_upper. auto.
Qed.

(** The single characters that are day codes are the five letters of the
    table, in either case. *)
Lemma day_weekday_of_character (c : ascii) :
  day_weekday (PStr [c])
  = Ok (dict_lookup
          [(py "M", 0); (py "m", 0); (py "T", 1); (py "t", 1); (py "W", 2);
           (py "w", 2); (py "R", 3); (py "r", 3); (py "F", 4); (py "f", 4)]
          [c]).
Proof. destruct c as [[] [] [] [] [] [] [] []]; vm_compute; reflexivity. Qed.

Lemma days_entries_skip (f : fields) (d1 d2 : list pyval) (x : pyval) :
  day_weekday x = Ok None ->
  days_entries f (d1 ++ x :: d2) = days_entries f (d1 ++ d2).
Proof.
  intros H. induction d1 as [|day d1 IH]; cbn [app days_entries].
  - rewrite H. reflexivity.
  - rewrite IH. reflexivity.
Qed.

Lemma days_entries_with_days (f : fields) (v : pyval) (ds : list pyval) :
  days_entries (with_days f v) ds = days_entries f ds.
Proof.
  induction ds as [|day rest IH]; cbn [days_entries]; [reflexivity|].
  rewrite IH. reflexivity.
Qed.

Lemma batch_entries_replace (l1 l2 : list pyval) (a b : pyval) :
  event_entries a = event_entries b ->
  batch_entries (l1 ++ a :: l2) = batch_entries (l1 ++ b :: l2).
Proof.
  intros H. rewrite !batch_entries_app. f_equal.
  unfold batch_entries. cbn [flat_map]. rewrite H. reflexivity.
Qed.

(** C6: the day codes are the letters M, T, W, R, F for Monday (0) to
    Friday (4), in either case; a day that is no day code, such as [X],
    is passed over with a warning and without an exception, and the event
    gives the entries it gives without that day, in any batch. *)
Theorem unmapped_day_code_skipped (l1 l2 : list pyval)
  (event_data event_data' : pyval) (f : fields) (days' x : pyval)
  (d1 d2 : list pyval) (uuid4 : str) (w : World) :
  read_fields event_data = Ok f ->
  iter (days f) = Ok (d1 ++ x :: d2) ->
  read_fields event_data' = Ok (with_days f days') ->
  iter days' = Ok (d1 ++ d2) ->
  day_weekday x = Ok None ->
  (forall s,
     day_weekday (PStr (lower s)) = day_weekday (PStr s)
     /\ day_weekday (PStr (upper s)) = day_weekday (PStr s))
  /\ map day_weekday [text "M"; text "T"; text "W"; text "R"; text "F"]
     = [Ok (Some 0); Ok (Some 1); Ok (Some 2); Ok (Some 3); Ok (Some 4)]
  /\ (forall idx w0,
        for_day idx f x w0
        = (Ok tt, logging WARNING (UnrecognizedDay idx x) w0))
  /\ event_entries event_data = event_entries event_data'
  /\ written_calendar (generate_ics (l1 ++ event_data :: l2) uuid4 w)
     = written_calendar (generate_ics (l1 ++ event_data' :: l2) uuid4 w).
Proof.
  intros R I R' I' X.
  assert (E : event_entries event_data = event_entries event_data').
  { unfold event_entries. rewrite R, R'. cbn [days with_days]. rewrite I, I'.
    rewrite days_entries_with_days, (days_entries_skip f d1 d2 x X).
    reflexivity. }
  split; [apply day_weekday_ignores_case|].
  split; [reflexivity|].
  split.
  { intros idx w0. unfold for_day, bind, lift. rewrite X. reflexivity. }
  split; [exact E|].
  destruct (generate_ics_run (l1 ++ event_data :: l2) uuid4 w) as (_ & W1 & _).
  destruct (generate_ics_run (l1 ++ event_data' :: l2) uuid4 w)
    as (_ & W2 & _).
  rewrite W1, W2, (batch_entries_replace l1 l2 _ _ E). reflexivity.
Qed.

Lemma unmapped_day_code_skipped_witness :
  day_weekday (text "X") = Ok None
  /\ event_entries (cs101 "MXW") = event_entries (cs101 "MW")
  /\ written_calendar
       (generate_ics ([math200] ++ cs101 "MXW" :: []) (py "u") initial_world)
     = written_calendar
         (generate_ics ([math200] ++ cs101 "MW" :: []) (py "u")
            initial_world).
Proof.
  split; [reflexivity|].
  apply (unmapped_day_code_skipped [math200] [] (cs101 "MXW") (cs101 "MW")
           (cs101_fields "MXW") (text "MW") (text "X") [text "M"] [text "W"]
           (py "u") initial_world); reflexivity.
Defined.

(** ** Every entry of the calendar *)

(** C7: every entry of the written calendar comes from a raw event of the
    batch that was read; its start and end have the time of day of the
    start and end of that event and share one date, the first day on or
    after the start date that falls on the weekday of the entry. *)
Theorem entry_keeps_time_of_day (events : list pyval) (uuid4 : str)
  (w : World) (cal : gmap nat Event) (i : nat) (e : Event) :
  written_calendar (generate_ics events uuid4 w) = Some cal ->
  cal !! i = Some e ->
  exists event_data f weekday,
    In event_data events
    /\ read_fields event_data = Ok f
    /\ dt_time (begin e) = dt_time (start_dt f)
    /\ dt_time (end_ e) = dt_time (end_dt f)
    /\ dt_date (end_ e) = dt_date (begin e)
    /\ 0 <= days_ahead (start_dt f) weekday <= 6
    /\ toordinal (dt_date (begin e))
       = toordinal (dt_date (start_dt f)) + days_ahead (start_dt f) weekday
    /\ entry_for f e weekday.
Proof.
  intros W L.
  destruct (generate_ics_run events uuid4 w) as (_ & W' & _).
  rewrite W' in W. injection W as <-.
  apply add_all_lookup_Some in L. destruct L as (j & _ & L).
  apply list_elem_of_lookup_2, list_elem_of_In in L.
  unfold batch_entries in L. apply in_flat_map in L.
  destruct L as (event_data & Hin & He).
  destruct (event_entries_In event_data e He) as (f & weekday & R & Hf).
  exists event_data, f, weekday.
  pose proof (days_ahead_range (start_dt f) weekday).
  unfold entry_for in Hf. repeat split; try tauto; lia.
Qed.

Lemma entry_keeps_time_of_day_witness :
  exists event_data f weekday,
    In event_data [cs101 "MWF"]
    /\ read_fields event_data = Ok f
    /\ dt_time (begin (make_event (cs101_fields "MWF") (mkdate 2024 1 10)))
       = dt_time (start_dt f)
    /\ dt_time (end_ (make_event (cs101_fields "MWF") (mkdate 2024 1 10)))
       = dt_time (end_dt f)
    /\ dt_date (end_ (make_event (cs101_fields "MWF") (mkdate 2024 1 10)))
       = dt_date (begin (make_event (cs101_fields "MWF") (mkdate 2024 1 10)))
    /\ 0 <= days_ahead (start_dt f) weekday <= 6
    /\ toordinal
         (dt_date (begin (make_event (cs101_fields "MWF") (mkdate 2024 1 10))))
       = toordinal (dt_date (start_dt f)) + days_ahead (start_dt f) weekday
    /\ entry_for f (make_event (cs101_fields "MWF") (mkdate 2024 1 10))
                 weekday.
Proof.
  apply (entry_keeps_time_of_day [cs101 "MWF"] (py "u") initial_world
           (add_all (batch_entries [cs101 "MWF"]) ∅ 0) 1
           (make_event (cs101_fields "MWF") (mkdate 2024 1 10)));
    vm_compute; reflexivity.
Defined.

(** ** Repeated day codes *)



(** * Further properties *)

(** ** The sanitizer only deletes *)

Lemma sublist_rev_rev (a b : str) :
  a `sublist_of` b -> rev a `sublist_of` rev b.
Proof.
  induction 1 as [|x l1 l2 _ IH|x l1 l2 _ IH]; simpl.
  - constructor.
  - apply sublist_app; [exact IH | reflexivity].
  - apply sublist_inserts_r, IH.
Qed.

Lemma lstrip_sublist (s : str) : lstrip s `sublist_of` s.
Proof.
  induction s as [|c s IH]; simpl; [constructor|].
  destruct (isspace c); [apply sublist_cons, IH | reflexivity].
Qed.

Lemma strip_sublist (s : str) : strip s `sublist_of` s.
Proof.
  unfold strip, rstrip. etrans; [|apply lstrip_sublist].
  rewrite <- (rev_involutive (lstrip s)) at 2.
  apply sublist_rev_rev, lstrip_sublist.
Qed.

Lemma remove_char_sublist (c : ascii) (s : str) :
  remove_char c s `sublist_of` s.
Proof.
  unfold remove_char. induction s as [|a s IH]; simpl; [constructor|].
  destruct (negb (ascii_eqb a c)); [apply sublist_skip | apply sublist_cons];
    exact IH.
Qed.

(** X1: the sanitizer only deletes characters: its output is the input
    with some characters left out, in the same order. *)
Theorem clean_response_only_deletes (x : str) :
  clean_response x `sublist_of` x.
Proof.
  unfold clean_response.
  etrans; [apply remove_char_sublist|].
  set (a := strip x).
  set (b := if startswith (py "```") a && endswith (py "```") a
            then strip (slice_between 3 3 a) else a).
  assert (Ha : a `sublist_of` x) by apply strip_sublist.
  assert (Hb : b `sublist_of` a).
  { subst b. destruct (startswith (py "```") a && endswith (py "```") a);
      [|reflexivity].
    etrans; [apply strip_sublist|]. unfold slice_between.
    etrans; [apply sublist_drop | apply sublist_take]. }
  etrans; [|exact Ha]. etrans; [|exact Hb].
  destruct (startswith (py "json") (lower b)); [|reflexivity].
  cbv zeta.
  assert (H4 : strip (slice_from (List.length (py "json")) b) `sublist_of` b).
  { etrans; [apply strip_sublist | apply sublist_drop]. }
  destruct (startswith (py ":")
              (strip (slice_from (List.length (py "json")) b)));
    [|exact H4].
  etrans; [|exact H4]. etrans; [apply strip_sublist | apply sublist_drop].
Qed.

(** ** Replies in their usual wrappings *)

Lemma lstrip_space_app (pre s : str) :
  all_space pre = true -> lstrip (pre ++ s) = lstrip s.
Proof.
  unfold all_space. induction pre as [|c pre IH]; simpl; [reflexivity|].
  rewrite andb_true_iff. intros [-> H]. apply IH, H.
Qed.

Lemma all_space_rev (s : str) : all_space s = true -> all_space (rev s) = true.
Proof.
  unfold all_space. rewrite !forallb_forall. intros H a Ha.
  apply H, in_rev, Ha.
Qed.

Lemma rstrip_app_space (s post : str) :
  all_space post = true -> rstrip (s ++ post) = rstrip s.
Proof.
  intros H. unfold rstrip. rewrite rev_app_distr, lstrip_space_app;
    [reflexivity | apply all_space_rev, H].
Qed.

Lemma lstrip_all_space (s : str) : all_space s = true -> lstrip s = [].
Proof.
  intros H. rewrite <- (app_nil_r s), lstrip_space_app; [reflexivity | exact H].
Qed.

Lemma strip_fixed_parts (s : str) :
  strip s = s -> lstrip s = s /\ rstrip s = s.
Proof.
  intros H.
  assert (L : lstrip s = s).
  { apply lstrip_same_length. pose proof (lstrip_length s).
    pose proof (rstrip_length (lstrip s)).
    apply (f_equal (@List.length ascii)) in H. unfold strip in H. lia. }
  split; [exact L|]. unfold strip in H. rewrite L in H. exact H.
Qed.

Lemma lstrip_app_fixed (s t : str) :
  s <> [] -> lstrip s = s -> lstrip (s ++ t) = s ++ t.
Proof.
  destruct s as [|c s]; [congruence|]. intros _. simpl.
  destruct (isspace c); [|reflexivity].
  intros H. exfalso. pose proof (lstrip_length s) as L.
  apply (f_equal (@List.length ascii)) in H. simpl in H. lia.
Qed.

(** White space around a trimmed text is what [strip] takes away. *)
Lemma strip_pad (pre s post : str) :
  all_space pre = true -> all_space post = true -> strip s = s ->
  strip (pre ++ s ++ post) = s.
Proof.
  intros Hpre Hpost Hs. apply strip_fixed_parts in Hs. destruct Hs as [L R].
  unfold strip. rewrite lstrip_space_app by exact Hpre.
  destruct s as [|c s].
  - simpl. rewrite lstrip_all_space by exact Hpost. reflexivity.
  - rewrite lstrip_app_fixed by (try discriminate; exact L).
    rewrite rstrip_app_space by exact Hpost. exact R.
Qed.

Lemma backtick_free_spec (s : str) : backtick_free s = true -> no_backtick s.
Proof.
  unfold backtick_free, no_backtick. rewrite forallb_forall, List.Forall_forall.
  intros H a Ha E. specialize (H a Ha). subst a.
  rewrite ascii_eqb_refl in H. discriminate.
Qed.

Lemma all_space_no_backtick (s : str) : all_space s = true -> no_backtick s.
Proof.
  unfold all_space, no_backtick. rewrite forallb_forall, List.Forall_forall.
  intros H a Ha E. specialize (H a Ha). subst a. discriminate.
Qed.

(** X2: a reply that is already plain (trimmed, without backticks, not
    beginning with [json]) comes out of the sanitizer as it is, whatever
    white space surrounds it. *)
Theorem clean_response_plain (pre body post : str) :
  all_space pre = true -> all_space post = true ->
  strip body = body -> backtick_free body = true ->
  starts_with_json body = false ->
  clean_response (pre ++ body ++ post) = body.
Proof.
  intros Hpre Hpost T B J.
  rewrite clean_response_without_backtick.
  - rewrite (strip_pad pre body post Hpre Hpost T), J. reflexivity.
  - unfold no_backtick. rewrite !List.Forall_app. repeat split.
    + apply all_space_no_backtick, Hpre.
    + apply backtick_free_spec, B.
    + apply all_space_no_backtick, Hpost.
Qed.

Lemma clean_response_plain_witness :
  clean_response (py "  " ++ py "{'events': []}" ++ [chr 10])
  = py "{'events': []}".
Proof.
  apply (clean_response_plain (py "  ") (py "{'events': []}") [chr 10]);
    reflexivity.
Defined.

Lemma startswith_app (p s : str) : startswith p (p ++ s) = true.
Proof.
  induction p as [|a p IH]; simpl; [reflexivity|].
  rewrite ascii_eqb_refl. exact IH.
Qed.

Lemma rstrip_fixed_rev (s : str) : rstrip s = s -> lstrip (rev s) = rev s.
Proof.
  unfold rstrip. intros H. rewrite <- H at 2. rewrite rev_involutive.
  reflexivity.
Qed.

(** A text that begins and ends with trimmed, non-empty parts is trimmed. *)
Lemma strip_app_fixed (a m b : str) :
  a <> [] -> b <> [] -> lstrip a = a -> rstrip b = b ->
  strip (a ++ m ++ b) = a ++ m ++ b.
Proof.
  intros Ha Hb La Rb. unfold strip.
  rewrite lstrip_app_fixed by assumption.
  unfold rstrip. rewrite app_assoc, rev_app_distr.
  rewrite lstrip_app_fixed.
  - rewrite <- rev_app_distr, rev_involutive. reflexivity.
  - intros E. apply Hb. rewrite <- (rev_involutive b), E. reflexivity.
  - apply rstrip_fixed_rev, Rb.
Qed.

Lemma strip_singleton_fixed (a : ascii) :
  isspace a = false -> lstrip [a] = [a] /\ rstrip [a] = [a].
Proof. intros H. unfold rstrip. simpl. rewrite H. auto. Qed.

Lemma space_lower_char (c : ascii) : isspace c = true -> lower_char c = c.
Proof.
  destruct c as [[] [] [] [] [] [] [] []]; vm_compute;
    intros; try reflexivity; discriminate.
Qed.

(** A language tag [json], in any case, is four letters. *)
Lemma json_tag_shape (tag : str) :
  lower tag = py "json" ->
  List.length tag = 4%nat /\ tag <> [] /\ lstrip tag = tag /\ rstrip tag = tag.
Proof.
  intros H.
  destruct tag as [|c1 [|c2 [|c3 [|c4 [|c5 tag]]]]]; try discriminate H.
  injection H as H1 H2 H3 H4.
  assert (S1 : isspace c1 = false).
  { destruct (isspace c1) eqn:E; [|reflexivity].
    rewrite (space_lower_char c1 E) in H1. subst c1. discriminate E. }
  assert (S4 : isspace c4 = false).
  { destruct (isspace c4) eqn:E; [|reflexivity].
    rewrite (space_lower_char c4 E) in H4. subst c4. discriminate E. }
  repeat split; try discriminate.
  - simpl. rewrite S1. reflexivity.
  - unfold rstrip. simpl. rewrite S4. reflexivity.
Qed.

Lemma fence_stripped (pre inner post : str) :
  all_space pre = true -> all_space post = true ->
  strip (pre ++ (py "```" ++ inner ++ py "```") ++ post)
  = py "```" ++ inner ++ py "```".
Proof.
  intros Hpre Hpost. apply strip_pad; try assumption.
  replace (py "```" ++ inner ++ py "```")
    with ([backtick] ++ (py "``" ++ inner ++ py "``") ++ [backtick])
    by (simpl; rewrite <- app_assoc; reflexivity).
  apply strip_app_fixed; try discriminate; apply strip_singleton_fixed;
    reflexivity.
Qed.

Lemma fence_recognised (inner : str) :
  startswith (py "```") (py "```" ++ inner ++ py "```")
  && endswith (py "```") (py "```" ++ inner ++ py "```") = true.
Proof.
  rewrite startswith_app. unfold endswith.
  rewrite app_assoc, rev_app_distr, startswith_app. reflexivity.
Qed.

Lemma fence_removed (inner : str) :
  slice_between 3 3 (py "```" ++ inner ++ py "```") = inner.
Proof.
  unfold slice_between.
  replace (List.length (py "```" ++ inner ++ py "```") - 3)%nat
    with (List.length (py "```" ++ inner) + 0)%nat
    by (rewrite !length_app; simpl; lia).
  rewrite app_assoc, firstn_app_2. simpl. rewrite app_nil_r. reflexivity.
Qed.

(** A fenced reply goes through the sanitizer as what is inside the fence,
    trimmed, without its tag and without backticks. *)
Lemma clean_response_fence (pre inner post : str) :
  all_space pre = true -> all_space post = true ->
  clean_response (pre ++ (py "```" ++ inner ++ py "```") ++ post)
  = remove_char backtick (without_tag (strip inner)).
Proof.
  intros Hpre Hpost. unfold clean_response.
  rewrite (fence_stripped pre _ post Hpre Hpost), fence_recognised,
    fence_removed.
  reflexivity.
Qed.

(** Inside the fence: the tag, white space, the body, white space. *)
Lemma without_tag_tagged (tag ws1 body ws2 : str) :
  all_space ws1 = true -> all_space ws2 = true ->
  lower tag = py "json" ->
  strip body = body -> startswith (py ":") body = false ->
  without_tag (strip (tag ++ ws1 ++ body ++ ws2)) = body.
Proof.
  intros H1 H2 Htag T C.
  destruct (json_tag_shape tag Htag) as (Len & Ne & Lt & Rt).
  assert (S : exists r,
             strip (tag ++ ws1 ++ body ++ ws2) = tag ++ r /\ strip r = body).
  { destruct body as [|b body].
    - exists []. split; [|reflexivity].
      rewrite app_nil_r. cbn [app].
      apply (strip_pad [] tag (ws1 ++ ws2)); [reflexivity| |].
      + unfold all_space in *. rewrite forallb_app, H1, H2. reflexivity.
      + unfold strip. rewrite Lt. exact Rt.
    - exists (ws1 ++ b :: body). split.
      + replace (tag ++ ws1 ++ (b :: body) ++ ws2)
          with ((tag ++ ws1 ++ b :: body) ++ ws2)
          by (rewrite <- !app_assoc; reflexivity).
        apply (strip_pad [] (tag ++ ws1 ++ b :: body) ws2);
          [reflexivity | exact H2 |].
        apply strip_fixed_parts in T. destruct T as [_ Rb].
        apply strip_app_fixed; try assumption. discriminate.
      + replace (ws1 ++ b :: body) with (ws1 ++ (b :: body) ++ [])
          by (rewrite app_nil_r; reflexivity).
        apply strip_pad; [exact H1 | reflexivity | exact T]. }
  destruct S as (r & -> & Sr). unfold without_tag.
  change (List.length (py "json")) with 4%nat.
  unfold lower. rewrite map_app. fold (lower tag). rewrite Htag, startswith_app.
  unfold slice_from.
  replace (skipn 4 (tag ++ r)) with r
    by (rewrite <- Len, skipn_app, skipn_all, Nat.sub_diag; reflexivity).
  rewrite Sr, C. reflexivity.
Qed.

(** X3: a reply wrapped in a code fence with the language tag [json] (in
    any case), with any white space around the fence, after the tag and
    before the closing fence, comes out as the bare body, when the body is
    trimmed, has no backtick and does not begin with a colon. *)
Theorem clean_response_fenced_reply (pre tag ws1 body ws2 post : str) :
  all_space pre = true -> all_space post = true ->
  all_space ws1 = true -> all_space ws2 = true ->
  lower tag = py "json" ->
  strip body = body -> backtick_free body = true ->
  startswith (py ":") body = false ->
  clean_response
    (pre ++ (py "```" ++ (tag ++ ws1 ++ body ++ ws2) ++ py "```") ++ post)
  = body.
Proof.
  intros Hpre Hpost H1 H2 Htag T B C.
  rewrite (clean_response_fence pre _ post Hpre Hpost).
  rewrite (without_tag_tagged tag ws1 body ws2 H1 H2 Htag T C).
  apply remove_char_id, backtick_free_spec, B.
Qed.

Lemma clean_response_fenced_reply_witness :
  clean_response
    (py " " ++ (py "```" ++ (py "JSON" ++ [chr 10] ++ py "{'events': []}"
                             ++ [chr 10]) ++ py "```") ++ [chr 10])
  = py "{'events': []}".
Proof.
  apply (clean_response_fenced_reply (py " ") (py "JSON") [chr 10]
           (py "{'events': []}") [chr 10] [chr 10]); reflexivity.
Defined.

(** ** The log and the files of a run *)

Lemma for_days_log (idx : nat) (f : fields) (ds : list pyval) (w : World) :
  log (snd (for_days idx f ds w)) = log w ++ days_log idx f ds.
Proof.
  revert w. induction ds as [|day rest IH]; intros w.
  - simpl. rewrite app_nil_r. reflexivity.
  - rewrite for_days_cons. cbn [days_log].
    destruct (day_weekday day) as [[weekday|]|e].
    + destruct (first_event_date (start_dt f) weekday) as [d|e].
      * rewrite IH. reflexivity.
      * simpl. rewrite app_nil_r. reflexivity.
    + rewrite IH. cbn [logging log]. rewrite <- app_assoc. reflexivity.
    + simpl. rewrite app_nil_r. reflexivity.
Qed.

Lemma except_log (idx : nat) (e : exn) (w : World) :
  log (except_ idx e w) = log w ++ [error_line idx e].
Proof. destruct e; reflexivity. Qed.

Lemma expand_event_log (idx : nat) (event_data : pyval) (w : World) :
  log (expand_event idx event_data w) = log w ++ event_log idx event_data.
Proof.
  unfold expand_event, try_event, event_log, bind, lift.
  destruct (read_fields event_data) as [f|e]; [|apply except_log].
  destruct (iter (days f)) as [ds|e]; [|apply except_log].
  pose proof (for_days_log idx f ds w) as L.
  destruct (for_days_run idx f ds w) as (O & _).
  destruct (for_days idx f ds w) as [r w']. cbn [fst snd] in *.
  destruct (snd (days_entries f ds)) as [e|]; cbn [outcome] in O; subst r.
  - rewrite except_log, L, app_assoc. reflexivity.
  - rewrite L, app_nil_r. reflexivity.
Qed.

Lemma for_events_log (idx : nat) (events : list pyval) (w : World) :
  log (for_events idx events w) = log w ++ batch_log idx events.
Proof.
  revert idx w. induction events as [|ev rest IH]; intros idx w.
  - simpl. rewrite app_nil_r. reflexivity.
  - cbn [for_events batch_log]. rewrite IH, expand_event_log, app_assoc.
    reflexivity.
Qed.

Lemma batch_log_app (idx : nat) (l1 l2 : list pyval) :
  batch_log idx (l1 ++ l2)
  = batch_log idx l1 ++ batch_log (idx + List.length l1) l2.
Proof.
  revert idx. induction l1 as [|ev l1 IH]; intros idx; cbn [app batch_log].
  - rewrite Nat.add_0_r. reflexivity.
  - rewrite IH, <- app_assoc. cbn [List.length].
    replace (S idx + List.length l1)%nat with (idx + S (List.length l1))%nat
      by lia.
    reflexivity.
Qed.

Lemma ics_path_shape (uuid4 : str) :
  path_join ICS_DIR (py "schedule_" ++ uuid4 ++ py ".ics")
  = py "ics_files/schedule_" ++ uuid4 ++ py ".ics".
Proof. reflexivity. Qed.

(** The state [generate_ics] leaves, in full. *)
Lemma generate_ics_world (events : list pyval) (uuid4 : str) (w : World) :
  generate_ics events uuid4 w
  = (py "ics_files/schedule_" ++ uuid4 ++ py ".ics",
     mkWorld (add_all (batch_entries events) ∅ (next_id w))
             (next_id w + List.length (batch_entries events))
             (log w ++ batch_log 1 events
              ++ [(INFO, IcsCreated
                           (py "ics_files/schedule_" ++ uuid4 ++ py ".ics"))])
             ((py "ics_files/schedule_" ++ uuid4 ++ py ".ics",
               add_all (batch_entries events) ∅ (next_id w)) :: files w)).
Proof.
  unfold generate_ics. rewrite ics_path_shape. f_equal.
  destruct (for_events_run 1 events (Calendar_new w)) as (C & N & F).
  pose proof (for_events_log 1 events (Calendar_new w)) as L.
  destruct (for_events 1 events (Calendar_new w)) as [c n l fs].
  cbn [cal_events next_id log files Calendar_new] in *.
  unfold logging, write_calendar. cbn [cal_events next_id log files].
  subst. rewrite <- app_assoc. reflexivity.
Qed.

(** X4: an object that lacks a required field adds no entry and one line
    to the log: an error that names the position of the event in the batch,
    counted from 1, and the first missing field in the order title, start,
    end, days, location, notes, end_date, whatever else is wrong with the
    event. *)
Theorem missing_field_reported (l1 l2 : list pyval) (d : list (str * pyval))
  (k : str) (uuid4 : str) (w : World) :
  first_missing_field d = Some k ->
  event_entries (PDict d) = []
  /\ (forall idx w0,
        expand_event idx (PDict d) w0
        = logging ERROR (MissingKey idx (KeyError k)) w0)
  /\ log (snd (generate_ics (l1 ++ PDict d :: l2) uuid4 w))
     = log w ++ batch_log 1 l1
       ++ [(ERROR, MissingKey (S (List.length l1)) (KeyError k))]
       ++ batch_log (S (S (List.length l1))) l2
       ++ [(INFO, IcsCreated (py "ics_files/schedule_" ++ uuid4 ++ py ".ics"))].
Proof.
  intros M.
  assert (R : read_fields (PDict d) = Raise (KeyError k)).
  { unfold first_missing_field, required_fields in M. cbn [List.find] in M.
    unfold read_fields, getitem.
    repeat match type of M with
           | context [dict_lookup d ?key] =>
               destruct (dict_lookup d key);
               [cbn [rbind] | injection M as <-; reflexivity]
           end.
    discriminate M. }
  split; [unfold event_entries; rewrite R; reflexivity|].
  split.
  - intros idx w0. unfold expand_event, try_event, bind, lift. rewrite R.
    reflexivity.
  - rewrite generate_ics_world. cbn [snd log].
    rewrite batch_log_app. cbn [batch_log]. unfold event_log at 1. rewrite R.
    cbn [error_line]. rewrite <- !app_assoc.
    replace (1 + List.length l1)%nat with (S (List.length l1)) by lia.
    reflexivity.
Qed.

Lemma missing_field_reported_witness :
  event_entries no_title_event = []
  /\ (forall idx w0,
        expand_event idx no_title_event w0
        = logging ERROR (MissingKey idx (KeyError (py "title"))) w0)
  /\ log (snd (generate_ics ([cs101 "MWF"] ++ no_title_event :: [math200])
                 (py "u") initial_world))
     = log initial_world ++ batch_log 1 [cs101 "MWF"]
       ++ [(ERROR, MissingKey (S (List.length [cs101 "MWF"]))
                     (KeyError (py "title")))]
       ++ batch_log (S (S (List.length [cs101 "MWF"]))) [math200]
       ++ [(INFO, IcsCreated (py "ics_files/schedule_" ++ py "u" ++ py ".ics"))].
Proof.
  apply (missing_field_reported [cs101 "MWF"] [math200]
           [(py "start", text "2024-01-09T13:00:00");
            (py "end", text "2024-01-09T14:15:00"); (py "days", text "TR");
            (py "location", text "Rm 7"); (py "end_date", text "2024-03-22");
            (py "notes", text "Prof Y")]
           (py "title") (py "u") initial_world).
  reflexivity.
Defined.

(** X5: an element of the batch that is not an object (a text, a number,
    a list, ...) adds no entry; it is logged as an unexpected [TypeError]
    and the rest of the batch is expanded as without it. *)
Theorem non_object_event_skipped (l1 l2 : list pyval) (v : pyval)
  (uuid4 : str) (w : World) :
  is_dict v = false ->
  (forall idx w0,
     expand_event idx v w0 = logging ERROR (UnexpectedError idx TypeError) w0)
  /\ written_calendar (generate_ics (l1 ++ v :: l2) uuid4 w)
     = written_calendar (generate_ics (l1 ++ l2) uuid4 w).
Proof.
  intros D.
  assert (R : read_fields v = Raise TypeError)
    by (destruct v; try discriminate D; reflexivity).
  split.
  - intros idx w0. unfold expand_event, try_event, bind, lift. rewrite R.
    reflexivity.
  - rewrite !generate_ics_world. unfold written_calendar. cbn [fst snd files].
    rewrite !dict_lookup_head. do 2 f_equal.
    apply batch_entries_skip. unfold event_entries. rewrite R. reflexivity.
Qed.

Lemma non_object_event_skipped_witness :
  (forall idx w0,
     expand_event idx (text "CS101 MWF 9:00") w0
     = logging ERROR (UnexpectedError idx TypeError) w0)
  /\ written_calendar
       (generate_ics ([cs101 "MWF"] ++ text "CS101 MWF 9:00" :: [math200])
          (py "u") initial_world)
     = written_calendar
         (generate_ics ([cs101 "MWF"] ++ [math200]) (py "u") initial_world).
Proof.
  apply (non_object_event_skipped [cs101 "MWF"] [math200]
           (text "CS101 MWF 9:00") (py "u") initial_world).
  reflexivity.
Defined.

(** ** Days that are not text *)





(** ** Where the entries fall *)

Lemma days_entries_In_code (f : fields) (ds : list pyval) (e : Event) :
  valid_date (dt_date (start_dt f)) = true ->
  In e (fst (days_entries f ds)) ->
  exists day weekday,
    In day ds /\ day_weekday day = Ok (Some weekday) /\ entry_for f e weekday.
Proof.
  intros V. induction ds as [|day rest IH]; cbn [days_entries].
  - intros [].
  - destruct (day_weekday day) as [[weekday|]|] eqn:D; try (intros []).
    + destruct (first_event_date (start_dt f) weekday) as [d|] eqn:E;
        [|intros []].
      cbn [fst]. intros [<-|H].
      * exists day, weekday. split; [left; reflexivity|]. split; [exact D|].
        apply entry_for_make; try assumption.
        apply day_weekday_range in D. lia.
      * destruct (IH H) as (day' & w' & Hin & Hd & He).
        exists day', w'. split; [right; exact Hin | auto].
    + intros H. destruct (IH H) as (day' & w' & Hin & Hd & He).
      exists day', w'. split; [right; exact Hin | auto].
Qed.

(** X7: every entry of the written calendar falls on a day from Monday to
    Friday, the weekday that one of the day codes of its raw event names;
    nothing is ever put on a Saturday or a Sunday. *)
Theorem entries_on_weekdays_only (events : list pyval) (uuid4 : str)
  (w : World) (cal : gmap nat Event) (i : nat) (e : Event) :
  written_calendar (generate_ics events uuid4 w) = Some cal ->
  cal !! i = Some e ->
  0 <= anchor_weekday e <= 4
  /\ exists event_data f ds day,
       In event_data events
       /\ read_fields event_data = Ok f
       /\ iter (days f) = Ok ds
       /\ In day ds
       /\ day_weekday day = Ok (Some (anchor_weekday e)).
Proof.
  intros W L.
  destruct (generate_ics_run events uuid4 w) as (_ & W' & _).
  rewrite W' in W. injection W as <-.
  apply add_all_lookup_Some in L. destruct L as (j & _ & L).
  apply list_elem_of_lookup_2, list_elem_of_In in L.
  unfold batch_entries in L. apply in_flat_map in L.
  destruct L as (event_data & Hin & He).
  unfold event_entries in He.
  destruct (read_fields event_data) as [f|] eqn:R; [|destruct He].
  destruct (iter (days f)) as [ds|] eqn:I; [|destruct He].
  pose proof (read_fields_valid _ _ R) as (V & _).
  destruct (days_entries_In_code f ds e V He) as (day & weekday & Hd & D & Hf).
  assert (A : anchor_weekday e = weekday) by apply Hf.
  pose proof (day_weekday_range _ _ D) as Rg.
  rewrite A. split; [exact Rg|].
  exists event_data, f, ds, day. auto.
Qed.

Lemma entries_on_weekdays_only_witness :
  0 <= anchor_weekday (make_event (cs101_fields "MWF") (mkdate 2024 1 12)) <= 4
  /\ exists event_data f ds day,
       In event_data [cs101 "MWF"]
       /\ read_fields event_data = Ok f
       /\ iter (days f) = Ok ds
       /\ In day ds
       /\ day_weekday day
          = Ok (Some (anchor_weekday
                        (make_event (cs101_fields "MWF") (mkdate 2024 1 12)))).
Proof.
  apply (entries_on_weekdays_only [cs101 "MWF"] (py "u") initial_world
           (add_all (batch_entries [cs101 "MWF"]) ∅ 0) 2
           (make_event (cs101_fields "MWF") (mkdate 2024 1 12)));
    vm_compute; reflexivity.
Defined.

(** ** An event listed on its own weekday *)

Lemma date_trichotomy (a b : date) : a = b \/ date_lt a b \/ date_lt b a.
Proof.
  destruct a as [ya ma da], b as [yb mb db]. unfold date_lt.
  cbn [year month day].
  destruct (Z.eq_dec ya yb) as [->|]; [|right; lia].
  destruct (Z.eq_dec ma mb) as [->|]; [|right; lia].
  destruct (Z.eq_dec da db) as [->|]; [left; reflexivity | right; lia].
Qed.

Lemma toordinal_inj (a b : date) :
  valid_date a = true -> valid_date b = true ->
  toordinal a = toordinal b -> a = b.
Proof.
  intros Va Vb E. destruct (date_trichotomy a b) as [H|[H|H]]; [exact H| |].
  - pose proof (toordinal_lt a b Va Vb H). lia.
  - pose proof (toordinal_lt b a Vb Va H). lia.
Qed.

Lemma fromordinal_toordinal (d : date) :
  valid_date d = true -> fromordinal (toordinal d) = d.
Proof.
  intros V. pose proof (toordinal_range d V) as R.
  apply toordinal_inj; [apply fromordinal_valid, R | exact V |].
  apply toordinal_fromordinal, R.
Qed.

(** X8: the first occurrence is the start date itself exactly when the
    start already falls on the weekday of the day code; the entry then
    begins at the very start of the event, and ends on that day at the end
    time of the event. *)
Theorem start_on_its_weekday (event_data : pyval) (f : fields) (day : pyval)
  (weekday : Z) :
  read_fields event_data = Ok f ->
  day_weekday day = Ok (Some weekday) ->
  (first_event_date (start_dt f) weekday = Ok (dt_date (start_dt f))
   <-> weekday = date_weekday (dt_date (start_dt f)))
  /\ (weekday = date_weekday (dt_date (start_dt f)) ->
      forall idx w,
        for_day idx f day w
        = (Ok tt,
           mkWorld (<[next_id w :=
                        mkEvent (title f) (start_dt f)
                                (combine (dt_date (start_dt f))
                                         (dt_time (end_dt f)))
                                (f_location f) (instructor f)
                                [(py "freq", py "WEEKLY");
                                 (py "until", strftime_date (end_date f))]]>
                      (cal_events w))
                   (S (next_id w)) (log w) (files w))).
Proof.
  intros R D.
  pose proof (read_fields_valid _ _ R) as (V & _).
  pose proof (day_weekday_range _ _ D) as Hw.
  pose proof (toordinal_range _ V) as Rg.
  assert (Back : weekday = date_weekday (dt_date (start_dt f)) ->
                 first_event_date (start_dt f) weekday
                 = Ok (dt_date (start_dt f))).
  { intros ->. unfold first_event_date, days_ahead, date_add_days.
    rewrite Z.sub_diag, Z.mod_0_l by lia. rewrite Z.add_0_r.
    replace ((0 <? toordinal (dt_date (start_dt f)))
             && (toordinal (dt_date (start_dt f)) <=? MAXORDINAL)) with true
      by (symmetry; apply andb_true_iff; split;
          [apply Z.ltb_lt | apply Z.leb_le]; lia).
    rewrite fromordinal_toordinal by exact V. reflexivity. }
  split; [split; [|exact Back]|].
  - intros E.
    destruct (first_event_date_spec (start_dt f) weekday V ltac:(lia))
      as [Hin Hout].
    pose proof (days_ahead_range (start_dt f) weekday) as Hk.
    destruct (Z.le_gt_cases
                (toordinal (dt_date (start_dt f))
                 + days_ahead (start_dt f) weekday) MAXORDINAL) as [Hle|Hgt].
    + destruct (Hin Hle) as (d & E' & _ & Od & Wd & _).
      assert (d = dt_date (start_dt f)) by congruence. subst d.
      symmetry. exact Wd.
    + rewrite (Hout ltac:(lia)) in E. discriminate.
  - intros Hwd idx w. unfold for_day, bind, lift, Event_new, events_add.
    rewrite D, (Back Hwd). unfold make_event.
    destruct (start_dt f) as [sd st]. reflexivity.
Qed.

Lemma start_on_its_weekday_witness :
  (first_event_date (start_dt (cs101_fields "MWF")) 0
   = Ok (dt_date (start_dt (cs101_fields "MWF")))
   <-> 0 = date_weekday (dt_date (start_dt (cs101_fields "MWF"))))
  /\ (0 = date_weekday (dt_date (start_dt (cs101_fields "MWF"))) ->
      forall idx w,
        for_day idx (cs101_fields "MWF") (text "m") w
        = (Ok tt,
           mkWorld (<[next_id w :=
                        mkEvent (title (cs101_fields "MWF"))
                                (start_dt (cs101_fields "MWF"))
                                (combine
                                   (dt_date (start_dt (cs101_fields "MWF")))
                                   (dt_time (end_dt (cs101_fields "MWF"))))
                                (f_location (cs101_fields "MWF"))
                                (instructor (cs101_fields "MWF"))
                                [(py "freq", py "WEEKLY");
                                 (py "until",
                                  strftime_date
                                    (end_date (cs101_fields "MWF")))]]>
                      (cal_events w))
                   (S (next_id w)) (log w) (files w))).
Proof.
  apply (start_on_its_weekday (cs101 "MWF") (cs101_fields "MWF") (text "m") 0);
    reflexivity.
Defined.

(** ** The end of the recurrence *)

Lemma digit_digit_char (k : Z) : 0 <= k <= 9 -> digit (digit_char k) = Some k.
Proof.
  intros H.
  assert (C : In k [0; 1; 2; 3; 4; 5; 6; 7; 8; 9]) by (simpl; lia).
  simpl in C.
  repeat (destruct C as [C|C]; [subst k; reflexivity|]). contradiction.
Qed.

Lemma re_Y_four_digit_text (y : Z) (r : str) :
  0 <= y <= 9999 -> re_Y (four_digit_text y ++ r) = [(y, r)].
Proof.
  intros H. unfold four_digit_text, re_Y. cbn [app].
  rewrite !digit_digit_char
    by (pose proof (Z.mod_pos_bound (y / 1000) 10);
        pose proof (Z.mod_pos_bound (y / 100) 10);
        pose proof (Z.mod_pos_bound (y / 10) 10);
        pose proof (Z.mod_pos_bound y 10); lia).
  do 2 f_equal. Z.div_mod_to_equations. lia.
Qed.

Lemma re_m_two_digit_text (m : Z) (r : str) :
  1 <= m <= 12 ->
  exists tl, re_m (two_digit_text m ++ py "-" ++ r) = (m, py "-" ++ r) :: tl.
Proof.
  intros H. each_month H; eexists; reflexivity.
Qed.

Lemma re_d_two_digit_text (d : Z) :
  1 <= d <= 31 -> exists tl, re_d (two_digit_text d) = (d, []) :: tl.
Proof.
  intros H.
  assert (C : In d [1; 2; 3; 4; 5; 6; 7; 8; 9; 10; 11; 12; 13; 14; 15; 16;
                    17; 18; 19; 20; 21; 22; 23; 24; 25; 26; 27; 28; 29; 30;
                    31]) by (simpl; lia).
  simpl in C.
  repeat (destruct C as [C|C]; [subst d; eexists; reflexivity|]).
  contradiction.
Qed.

Lemma then_head {A B} (a : A) (r : str) (tl : list (A * str))
  (k : A -> matcher B) (b : B) (r' : str) :
  (exists tl', k a r = (b, r') :: tl') ->
  exists tl', then_ ((a, r) :: tl) k = (b, r') :: tl'.
Proof.
  intros [tl' H]. unfold then_. cbn [flat_map fst snd]. rewrite H.
  eexists. reflexivity.
Qed.

Lemma literal_same (c : ascii) (r : str) : literal c (c :: r) = [(tt, r)].
Proof. unfold literal. rewrite ascii_eqb_refl. reflexivity. Qed.

Lemma days_in_month_le_31 (y m : Z) : 1 <= m <= 12 -> days_in_month y m <= 31.
Proof.
  intros H. unfold days_in_month.
  destruct (is_leap y); each_month H; vm_compute; discriminate.
Qed.

Lemma year_text_four (y : Z) : 1000 <= y -> year_text y = four_digit_text y.
Proof.
  intros H. unfold year_text.
  destruct (Z.ltb_spec y 10); [lia|].
  destruct (Z.ltb_spec y 100); [lia|].
  destruct (Z.ltb_spec y 1000); [lia|]. reflexivity.
Qed.

Lemma digit_hyphen : digit "-" = None.
Proof. reflexivity. Qed.

(** A year written on fewer than four digits is not a [%Y]. *)
Lemma re_Y_short_year (y m d : Z) :
  y < 1000 ->
  re_Y (year_text y ++ py "-" ++ two_digit_text m ++ py "-"
        ++ two_digit_text d) = [].
Proof.
  intros H. unfold year_text.
  destruct (Z.ltb_spec y 10);
    [|destruct (Z.ltb_spec y 100); [|destruct (Z.ltb_spec y 1000); [|lia]]];
    unfold two_digit_text, re_Y; cbn [app];
    change (py "-" ++ ?t) with ("-"%char :: t); cbn [app];
    rewrite ?digit_hyphen;
    repeat match goal with
           | |- context [digit (digit_char ?k)] =>
               destruct (digit (digit_char k))
           end; reflexivity.
Qed.

(** [strptime] reads back what [strftime] wrote, from the year 1000 on. *)
Lemma strptime_strftime_date (d : date) :
  valid_date d = true ->
  1000 <= year d ->
  strptime_date (PStr (strftime_date d)) = Ok (combine d midnight).
Proof.
  intros V Y. pose proof V as V'. apply valid_date_spec in V'.
  destruct V' as (Hy & Hm & Hd).
  pose proof (days_in_month_le_31 (year d) (month d) Hm) as H31.
  unfold strptime_date, strftime_date. rewrite (year_text_four _ Y).
  assert (M : exists tl,
             re_date (four_digit_text (year d) ++ py "-"
                      ++ two_digit_text (month d) ++ py "-"
                      ++ two_digit_text (day d))
             = (d, []) :: tl).
  { unfold re_date. rewrite re_Y_four_digit_text by lia.
    apply then_head. change (py "-" ++ ?r) with ("-"%char :: r).
    rewrite literal_same. apply then_head.
    destruct (re_m_two_digit_text (month d) (two_digit_text (day d)) Hm)
      as [tl1 E1].
    rewrite E1. apply then_head.
    change (py "-" ++ ?r) with ("-"%char :: r).
    rewrite literal_same. apply then_head.
    destruct (re_d_two_digit_text (day d) ltac:(lia)) as [tl2 ->].
    apply then_head. destruct d. eexists. reflexivity. }
  destruct M as [tl ->]. cbn [first_full_match rbind].
  unfold check_datetime, date_new, time_new.
  cbn [dt_date dt_time hour minute second midnight].
  destruct d as [y m dd]. cbn [year month day] in *. rewrite V.
  reflexivity.
Qed.

(** Before the year 1000 [strftime] writes fewer than four digits for the
    year, and [strptime] does not take the text. *)
Lemma strptime_strftime_short_year (d : date) :
  year d < 1000 ->
  strptime_date (PStr (strftime_date d)) = Raise ValueError.
Proof.
  intros Y. unfold strptime_date, strftime_date, re_date.
  rewrite (re_Y_short_year _ _ _ Y). reflexivity.
Qed.

(** X9: the end of the recurrence written on an entry is the end date of
    its raw event as [strftime] writes it: the year without leading zeros,
    then month and day on two digits.  The rule of every entry of the
    written calendar is weekly, until that text.  Reading the text with the
    format of [end_date] gives the end date back when its year is 1000 or
    later; for an earlier year, which [read_fields] accepts, the text has
    fewer than four digits for the year and the format rejects it. *)
Theorem recurrence_until_end_date (events : list pyval) (uuid4 : str)
  (w : World) (cal : gmap nat Event) (i : nat) (e : Event) :
  written_calendar (generate_ics events uuid4 w) = Some cal ->
  cal !! i = Some e ->
  exists event_data f until,
    In event_data events
    /\ read_fields event_data = Ok f
    /\ dict_lookup (rrule e) (py "freq") = Some (py "WEEKLY")
    /\ dict_lookup (rrule e) (py "until") = Some until
    /\ until = year_text (year (end_date f)) ++ py "-"
               ++ two_digit_text (month (end_date f)) ++ py "-"
               ++ two_digit_text (day (end_date f))
    /\ (1000 <= year (end_date f) ->
        strptime_date (PStr until) = Ok (combine (end_date f) midnight))
    /\ (year (end_date f) < 1000 ->
        strptime_date (PStr until) = Raise ValueError).
Proof.
  intros W L.
  destruct (generate_ics_run events uuid4 w) as (_ & W' & _).
  rewrite W' in W. injection W as <-.
  apply add_all_lookup_Some in L. destruct L as (j & _ & L).
  apply list_elem_of_lookup_2, list_elem_of_In in L.
  unfold batch_entries in L. apply in_flat_map in L.
  destruct L as (event_data & Hin & He).
  destruct (event_entries_In event_data e He) as (f & weekday & R & Hf).
  pose proof (read_fields_valid _ _ R) as (_ & _ & Ve).
  destruct Hf as (_ & _ & _ & Hr & _).
  exists event_data, f, (strftime_date (end_date f)).
  rewrite Hr. repeat split; try assumption; try reflexivity.
  - intros Y. apply strptime_strftime_date; assumption.
  - apply strptime_strftime_short_year.
Qed.

Lemma recurrence_until_end_date_witness :
  exists event_data f until,
    In event_data [cs101 "MWF"]
    /\ read_fields event_data = Ok f
    /\ dict_lookup (rrule (make_event (cs101_fields "MWF") (mkdate 2024 1 8)))
                   (py "freq") = Some (py "WEEKLY")
    /\ dict_lookup (rrule (make_event (cs101_fields "MWF") (mkdate 2024 1 8)))
                   (py "until") = Some until
    /\ until = year_text (year (end_date f)) ++ py "-"
               ++ two_digit_text (month (end_date f)) ++ py "-"
               ++ two_digit_text (day (end_date f))
    /\ (1000 <= year (end_date f) ->
        strptime_date (PStr until) = Ok (combine (end_date f) midnight))
    /\ (year (end_date f) < 1000 ->
        strptime_date (PStr until) = Raise ValueError).
Proof.
  apply (recurrence_until_end_date [cs101 "MWF"] (py "u") initial_world
           (add_all (batch_entries [cs101 "MWF"]) ∅ 0) 0
           (make_event (cs101_fields "MWF") (mkdate 2024 1 8)));
    vm_compute; reflexivity.
Defined.

(** ** The file of a run *)

(** X10: the calendar is written to [ics_files/schedule_<identifier>.ics],
    whatever the events; two runs write to the same path only if they drew
    the same identifier. *)
Theorem ics_path_per_identifier (events events' : list pyval)
  (uuid4 uuid4' : str) (w w' : World) :
  fst (generate_ics events uuid4 w)
  = py "ics_files/schedule_" ++ uuid4 ++ py ".ics"
  /\ (fst (generate_ics events uuid4 w) = fst (generate_ics events' uuid4' w')
      <-> uuid4 = uuid4').
Proof.
  rewrite !generate_ics_world. cbn [fst]. split; [reflexivity|]. split.
  - intros H. apply app_inv_head in H. apply app_inv_tail in H. exact H.
  - intros ->. reflexivity.
Qed.

(** X11: a run leaves every file at another path as it was, keeps the log
    lines that were there and adds its own after them, ending with the line
    that names the new file; the identities of its objects are new. *)
Theorem earlier_state_kept (events : list pyval) (uuid4 : str) (w : World)
  (p : str) :
  str_eqb (fst (generate_ics events uuid4 w)) p = false ->
  dict_lookup (files (snd (generate_ics events uuid4 w))) p
  = dict_lookup (files w) p
  /\ (exists added,
        log (snd (generate_ics events uuid4 w))
        = log w ++ added
             ++ [(INFO, IcsCreated (fst (generate_ics events uuid4 w)))])
  /\ (forall i e,
        cal_events (snd (generate_ics events uuid4 w)) !! i = Some e ->
        (next_id w <= i < next_id (snd (generate_ics events uuid4 w)))%nat).
Proof.
  rewrite generate_ics_world. cbn [fst snd files log cal_events next_id].
  intros H. split; [|split].
  - cbn [dict_lookup]. rewrite H. reflexivity.
  - exists (batch_log 1 events). reflexivity.
  - intros i e L. apply add_all_lookup_Some in L.
    destruct L as (j & -> & L). apply lookup_lt_Some in L. lia.
Qed.

Lemma earlier_state_kept_witness :
  dict_lookup
    (files (snd (generate_ics [cs101 "MWF"] (py "b")
                   (snd (generate_ics [math200] (py "a") initial_world)))))
    (py "ics_files/schedule_a.ics")
  = dict_lookup (files (snd (generate_ics [math200] (py "a") initial_world)))
                (py "ics_files/schedule_a.ics")
  /\ (exists added,
        log (snd (generate_ics [cs101 "MWF"] (py "b")
                    (snd (generate_ics [math200] (py "a") initial_world))))
        = log (snd (generate_ics [math200] (py "a") initial_world)) ++ added
             ++ [(INFO,
                  IcsCreated
                    (fst (generate_ics [cs101 "MWF"] (py "b")
                            (snd (generate_ics [math200] (py "a")
                                    initial_world)))))])
  /\ (forall i e,
        cal_events
          (snd (generate_ics [cs101 "MWF"] (py "b")
                  (snd (generate_ics [math200] (py "a") initial_world))))
        !! i = Some e ->
        (next_id (snd (generate_ics [math200] (py "a") initial_world)) <= i
         < next_id
             (snd (generate_ics [cs101 "MWF"] (py "b")
                     (snd (generate_ics [math200] (py "a") initial_world)))))
        %nat).
Proof.
  apply (earlier_state_kept [cs101 "MWF"] (py "b")
           (snd (generate_ics [math200] (py "a") initial_world))
           (py "ics_files/schedule_a.ics")).
  reflexivity.
Defined.

(** ** The order of the events *)

Lemma add_all_entries (es : list Event) (cal : gmap nat Event) (n : nat) :
  (forall k, (n <= k)%nat -> cal !! k = None) ->
  map snd (map_to_list (add_all es cal n))
  ≡ₚ es ++ map snd (map_to_list cal).
Proof.
  revert cal n. induction es as [|e es IH]; intros cal n H; [reflexivity|].
  cbn [add_all]. rewrite IH.
  - rewrite map_to_list_insert by (apply H; lia). cbn [map snd app].
    symmetry. apply Permutation_middle.
  - intros k Hk. rewrite lookup_insert_ne by lia. apply H. lia.
Qed.

(** X12: the entries of the written calendar do not depend on the order
    of the events in the batch: two batches with the same events give
    calendars with the same entries, each as many times. *)
Theorem calendar_ignores_event_order (events events' : list pyval)
  (uuid4 : str) (w : World) :
  Permutation events events' ->
  exists cal cal',
    written_calendar (generate_ics events uuid4 w) = Some cal
    /\ written_calendar (generate_ics events' uuid4 w) = Some cal'
    /\ map snd (map_to_list cal) ≡ₚ map snd (map_to_list cal')
    /\ size cal = size cal'.
Proof.
  intros P.
  destruct (generate_ics_run events uuid4 w) as (_ & W & _).
  destruct (generate_ics_run events' uuid4 w) as (_ & W' & _).
  do 2 eexists. split; [exact W|]. split; [exact W'|].
  assert (B : batch_entries events ≡ₚ batch_entries events').
  { unfold batch_entries. apply Permutation_flat_map, P. }
  split.
  - rewrite !add_all_entries by (intros; apply lookup_empty).
    rewrite map_to_list_empty. cbn [map]. rewrite !app_nil_r. exact B.
  - rewrite !add_all_empty_size. apply Permutation_length, B.
Qed.

Lemma calendar_ignores_event_order_witness :
  exists cal cal',
    written_calendar (generate_ics [cs101 "MWF"; math200] (py "u")
                        initial_world) = Some cal
    /\ written_calendar (generate_ics [math200; cs101 "MWF"] (py "u")
                           initial_world) = Some cal'
    /\ map snd (map_to_list cal) ≡ₚ map snd (map_to_list cal')
    /\ size cal = size cal'.
Proof.
  apply (calendar_ignores_event_order [cs101 "MWF"; math200]
           [math200; cs101 "MWF"] (py "u") initial_world).
  apply perm_swap.
Defined.

(** ** File names and extensions *)

Lemma split_not_nil (sep : ascii) (s : str) : split sep s <> [].
Proof.
  destruct s as [|c r]; simpl; [discriminate|].
  destruct (ascii_eqb c sep); [discriminate|].
  destruct (split sep r); discriminate.
Qed.

Lemma last_cons_not_nil (x : str) (l : list str) :
  l <> [] -> List.last (x :: l) [] = List.last l [].
Proof. destruct l; [congruence | reflexivity]. Qed.

(** The part after the last separator holds no separator. *)
Lemma split_last_no_sep (sep : ascii) (s : str) :
  forallb (fun c => negb (ascii_eqb c sep)) (last_item (split sep s)) = true.
Proof.
  unfold last_item. induction s as [|c r IH]; [reflexivity|].
  cbn [split]. destruct (ascii_eqb c sep) eqn:E.
  - rewrite last_cons_not_nil by apply split_not_nil. exact IH.
  - pose proof (split_not_nil sep r) as N.
    destruct (split sep r) as [|p [|q ps]]; [congruence| |].
    + cbn [List.last] in *. cbn [forallb]. rewrite E, IH. reflexivity.
    + exact IH.
Qed.

Lemma rfind_from_app (c : ascii) (a b : str) (i best : Z) :
  rfind_from c (a ++ b) i best
  = rfind_from c b (i + Z.of_nat (List.length a)) (rfind_from c a i best).
Proof.
  revert i best. induction a as [|x a IH]; intros i best.
  - simpl. rewrite Z.add_0_r. reflexivity.
  - cbn [app rfind_from List.length]. rewrite IH. f_equal. lia.
Qed.

Lemma rfind_from_absent (c : ascii) (b : str) (i best : Z) :
  forallb (fun x => negb (ascii_eqb x c)) b = true ->
  rfind_from c b i best = best.
Proof.
  revert i best. induction b as [|x b IH]; intros i best; [reflexivity|].
  cbn [forallb rfind_from]. rewrite andb_true_iff, negb_true_iff.
  intros [-> H]. apply IH, H.
Qed.

Lemma identifier_text_spec (s : str) :
  identifier_text s = true ->
  s <> [] /\ no_slash s = true /\ no_dot s = true.
Proof.
  unfold identifier_text, no_slash, no_dot.
  rewrite andb_true_iff, negb_true_iff, Nat.eqb_neq. intros [N H].
  split; [intros ->; apply N; reflexivity|].
  rewrite !forallb_forall in *.
  split; intros c Hc; specialize (H c Hc); apply andb_true_iff in H; tauto.
Qed.

(** The path of the upload and the extension [splitext] finds in it: the
    part of the file name after its last dot. *)
Lemma upload_path_extension (unique_id name : str) :
  identifier_text unique_id = true ->
  no_slash (last_item (split "." name)) = true ->
  upload_path unique_id name
  = py "uploads/" ++ unique_id ++ py "." ++ last_item (split "." name)
  /\ snd (splitext (upload_path unique_id name))
     = py "." ++ last_item (split "." name).
Proof.
  intros Hid Hslash.
  destruct (identifier_text_spec unique_id Hid) as (Ne & Is & Id).
  pose proof (split_last_no_sep "." name) as Hdot.
  set (ext := last_item (split "." name)) in *.
  assert (P : upload_path unique_id name
              = py "uploads/" ++ unique_id ++ py "." ++ ext).
  { unfold upload_path, path_join. fold ext.
    destruct unique_id as [|c u]; [congruence|].
    cbn [no_slash forallb] in Is. apply andb_true_iff in Is.
    destruct Is as [Hc _]. apply negb_true_iff in Hc.
    change (startswith (py "/") ((c :: u) ++ py "." ++ ext))
      with (ascii_eqb "/" c && true).
    assert (F : ascii_eqb "/" c = false).
    { destruct (ascii_eqb "/" c) eqn:E; [|reflexivity].
      apply ascii_eqb_eq in E. subst c. discriminate Hc. }
    rewrite F. reflexivity. }
  split; [exact P|]. rewrite P. unfold splitext.
  set (n := List.length unique_id).
  assert (Sep : rfind "/" (py "uploads/" ++ unique_id ++ py "." ++ ext) = 7).
  { unfold rfind.
    change (py "uploads/" ++ unique_id ++ py "." ++ ext)
      with (py "uploads" ++ "/"%char :: (unique_id ++ py "." ++ ext)).
    rewrite rfind_from_app. cbn [rfind_from]. rewrite ascii_eqb_refl.
    apply rfind_from_absent. rewrite !forallb_app.
    unfold no_slash in *. rewrite Is, Hslash. reflexivity. }
  assert (Dot : rfind "." (py "uploads/" ++ unique_id ++ py "." ++ ext)
                = 8 + Z.of_nat n).
  { unfold rfind. rewrite rfind_from_app, rfind_from_app.
    cbn [app py list_ascii_of_string rfind_from]. rewrite ascii_eqb_refl.
    rewrite (rfind_from_absent "." ext) by exact Hdot.
    subst n. cbn [List.length]. lia. }
  rewrite Sep, Dot.
  replace (7 <? 8 + Z.of_nat n) with true by (symmetry; apply Z.ltb_lt; lia).
  replace (Z.to_nat (8 + Z.of_nat n)) with (8 + n)%nat by lia.
  assert (Sl : slice (py "uploads/" ++ unique_id ++ py "." ++ ext) (7 + 1)
                 (8 + Z.of_nat n) = unique_id).
  { unfold slice.
    replace (Z.to_nat (8 + Z.of_nat n))
      with (List.length (py "uploads/" ++ unique_id) + 0)%nat
      by (rewrite length_app; change (List.length (py "uploads/")) with 8%nat;
          fold n; lia).
    rewrite app_assoc, firstn_app_2. cbn [firstn]. rewrite app_nil_r.
    reflexivity. }
  rewrite Sl.
  assert (Ex : existsb (fun a => negb (ascii_eqb a ".")) unique_id = true).
  { destruct unique_id as [|c u]; [congruence|].
    cbn [no_dot forallb] in Id. apply andb_true_iff in Id.
    destruct Id as [Hc _]. cbn [existsb]. rewrite Hc. reflexivity. }
  rewrite Ex. cbn [snd].
  replace (8 + n)%nat with (List.length (py "uploads/" ++ unique_id))
    by (rewrite length_app; reflexivity).
  rewrite app_assoc, skipn_app, skipn_all, Nat.sub_diag. reflexivity.
Qed.

(** ** The store of uploads *)

Lemma remove_file_lookup_same {A} (p : str) (d : list (str * A)) :
  dict_lookup (remove_file p d) p = None.
Proof.
  induction d as [|[k v] d IH]; [reflexivity|].
  unfold remove_file in *. cbn [List.filter fst].
  destruct (str_eqb k p) eqn:E; cbn [negb]; [exact IH|].
  cbn [dict_lookup]. rewrite E. exact IH.
Qed.

Lemma remove_file_lookup_other {A} (p q : str) (d : list (str * A)) :
  str_eqb p q = false ->
  dict_lookup (remove_file p d) q = dict_lookup d q.
Proof.
  intros H. induction d as [|[k v] d IH]; [reflexivity|].
  unfold remove_file in *. cbn [List.filter fst dict_lookup].
  destruct (str_eqb k p) eqn:E; cbn [negb].
  - apply str_eqb_eq in E. subst k. rewrite H. exact IH.
  - cbn [dict_lookup]. rewrite IH. reflexivity.
Qed.

Lemma write_file_lookup_same {A} (p : str) (x : A) (d : list (str * A)) :
  dict_lookup (write_file p x d) p = Some x.
Proof. unfold write_file. apply dict_lookup_head. Qed.

Lemma write_file_lookup_other {A} (p q : str) (x : A) (d : list (str * A)) :
  str_eqb p q = false ->
  dict_lookup (write_file p x d) q = dict_lookup d q.
Proof.
  intros H. unfold write_file. cbn [dict_lookup]. rewrite H.
  apply remove_file_lookup_other, H.
Qed.

Lemma remove_file_idem {A} (p : str) (d : list (str * A)) :
  remove_file p (remove_file p d) = remove_file p d.
Proof.
  induction d as [|[k v] d IH]; [reflexivity|].
  unfold remove_file in *. cbn [List.filter fst].
  destruct (str_eqb k p) eqn:E; cbn [negb]; [exact IH|].
  cbn [List.filter fst]. rewrite E. cbn [negb]. rewrite IH. reflexivity.
Qed.

Lemma remove_file_write_file {A} (p : str) (x : A) (d : list (str * A)) :
  remove_file p (write_file p x d) = remove_file p d.
Proof.
  unfold write_file. unfold remove_file at 1. cbn [List.filter fst].
  rewrite str_eqb_refl. cbn [negb]. apply remove_file_idem.
Qed.

Lemma lstrip_lstrip (s : str) : lstrip (lstrip s) = lstrip s.
Proof.
  induction s as [|c s IH]; [reflexivity|]. simpl.
  destruct (isspace c) eqn:E; [exact IH|]. simpl. rewrite E. reflexivity.
Qed.

Lemma lstrip_keeps_end (x : str) (c : ascii) :
  isspace c = false -> exists u, lstrip (x ++ [c]) = u ++ [c].
Proof.
  intros H. induction x as [|a x IH]; simpl.
  - rewrite H. exists []. reflexivity.
  - destruct (isspace a); [exact IH|]. exists (a :: x). reflexivity.
Qed.

(** Trimming twice is trimming once. *)
Lemma strip_strip (s : str) : strip (strip s) = strip s.
Proof.
  unfold strip.
  assert (L : lstrip (rstrip (lstrip s)) = rstrip (lstrip s)).
  { pose proof (lstrip_lstrip s) as I. destruct (lstrip s) as [|c t] eqn:E;
      [reflexivity|].
    assert (Hc : isspace c = false).
    { simpl in I. destruct (isspace c); [|reflexivity].
      pose proof (lstrip_length t) as Ln.
      apply (f_equal (@List.length ascii)) in I. simpl in I. lia. }
    unfold rstrip. cbn [rev].
    destruct (lstrip_keeps_end (rev t) c Hc) as [u ->].
    rewrite rev_app_distr. simpl. rewrite Hc. reflexivity. }
  rewrite L. unfold rstrip. rewrite rev_involutive, lstrip_lstrip.
  reflexivity.
Qed.

Lemma remove_file_lookup_Some {A} (p q : str) (x : A) (d : list (str * A)) :
  dict_lookup (remove_file p d) q = Some x -> dict_lookup d q = Some x.
Proof.
  destruct (str_eqb p q) eqn:E.
  - apply str_eqb_eq in E. subst q. rewrite remove_file_lookup_same.
    discriminate.
  - rewrite (remove_file_lookup_other p q d E). auto.
Qed.

(** ** The endpoint *)

Section EndpointProperties.

Variable E : Type.
Variable create : chat_request -> E + chat_response.
Variable b64encode : list ascii -> str.
Variable decode : str -> result pyval.
Variable json_dumps : list pyval -> result str.
Variable write_ics : str -> gmap nat Event -> ics_write_result.
Variable save : str -> list ascii -> save_result.

Local Abbreviation call := (call_openai_api E create b64encode).
Local Abbreviation run := (run_generate_ics E write_ics).
Local Abbreviation upload :=
  (upload_schedule E create b64encode decode json_dumps write_ics save).

(** The client reads the upload and writes one log line at most. *)
Lemma call_openai_api_cases (image_path : str) (s : Server E) :
  (exists e, call image_path s = (inl e, s))
  \/ (exists content,
        call image_path s
        = (inr (strip content),
           server_logging E INFO (FormattedSchedule (strip content)) s)).
Proof.
  unfold call_openai_api.
  destruct (dict_lookup (uploads s) image_path); [|left; eauto].
  destruct (image_type (lower (snd (splitext image_path)))); [|left; eauto].
  destruct (create _) as [e|[[|[content|] rest]|]];
    try solve [left; eexists; reflexivity].
  right. eexists. reflexivity.
Qed.

(** A text comes back only as the trimmed content of the first choice of
    the reply to the request for the bytes at the path. *)
Lemma call_openai_api_reply (image_path : str) (s s' : Server E) (t : str) :
  call image_path s = (inr t, s') ->
  exists image_bytes img_type content rest,
    dict_lookup (uploads s) image_path = Some image_bytes
    /\ image_type (lower (snd (splitext image_path))) = Some img_type
    /\ create (request_for b64encode img_type image_bytes)
       = inr (Some (Some content :: rest))
    /\ t = strip content
    /\ s' = server_logging E INFO (FormattedSchedule (strip content)) s.
Proof.
  unfold call_openai_api.
  destruct (dict_lookup (uploads s) image_path) as [image_bytes|];
    [|discriminate].
  destruct (image_type (lower (snd (splitext image_path)))) as [img_type|];
    [|discriminate].
  fold (request_for b64encode img_type image_bytes).
  destruct (create (request_for b64encode img_type image_bytes))
    as [e|[[|[content|] rest]|]] eqn:C; try discriminate.
  intros [= <- <-]. exists image_bytes, img_type, content, rest. auto.
Qed.

(** The run of [generate_ics] at the endpoint: either the calendar is
    written and the run is the one of [generate_ics], or an exception
    comes out, no calendar has appeared, and at most the file of this run
    is left unfinished. *)
Lemma run_generate_ics_cases (events : list pyval) (uuid4 : str)
  (s : Server E) :
  (write_ics (py "ics_files/schedule_" ++ uuid4 ++ py ".ics")
             (add_all (batch_entries events) ∅ (next_id (world s)))
   = CalendarWritten
   /\ run events uuid4 s
      = (Ok (fst (generate_ics events uuid4 (world s))),
         set_world E (snd (generate_ics events uuid4 (world s))) s))
  \/ (exists e s',
        write_ics (py "ics_files/schedule_" ++ uuid4 ++ py ".ics")
                  (add_all (batch_entries events) ∅ (next_id (world s)))
        <> CalendarWritten
        /\ run events uuid4 s = (Raise e, s')
        /\ uploads s' = uploads s
        /\ server_log s' = server_log s
        /\ log (world s') = log (world s) ++ batch_log 1 events
        /\ (forall q c, dict_lookup (files (world s')) q = Some c ->
                        dict_lookup (files (world s)) q = Some c)
        /\ (unfinished s' = unfinished s
            \/ unfinished s'
               = (py "ics_files/schedule_" ++ uuid4 ++ py ".ics")
                   :: unfinished s)).
Proof.
  unfold run_generate_ics. rewrite ics_path_shape.
  destruct (for_events_run 1 events (Calendar_new (world s))) as (C & N & F).
  pose proof (for_events_log 1 events (Calendar_new (world s))) as L.
  cbn [cal_events next_id log files Calendar_new] in C, N, F, L.
  rewrite C.
  destruct (write_ics _ _) as [|e|e]; [left; split; reflexivity|right..];
    exists e; eexists; (split; [discriminate|]); (split; [reflexivity|]);
    cbn [uploads server_log world unfinished set_world set_unfinished log
         files].
  - rewrite F, L. repeat split; auto.
  - rewrite F, L. repeat split; auto.
    intros q c. apply remove_file_lookup_Some.
Qed.

(** X13: the text [call_openai_api] returns has no white space at either
    end, and the call changes neither the uploads nor the calendar files:
    a failed call leaves the state as it was, a successful one adds a log
    line. *)
Theorem call_openai_api_result (image_path : str) (s : Server E) :
  uploads (snd (call image_path s)) = uploads s
  /\ world (snd (call image_path s)) = world s
  /\ match fst (call image_path s) with
     | inr formatted_schedule =>
         strip formatted_schedule = formatted_schedule
         /\ server_log (snd (call image_path s))
            = server_log s ++ [(INFO, FormattedSchedule formatted_schedule)]
     | inl _ => snd (call image_path s) = s
     end.
Proof.
  destruct (call_openai_api_cases image_path s) as [[e ->]|[content ->]];
    cbn [fst snd]; repeat split.
  apply strip_strip.
Qed.

(** One way through [upload_schedule] after the upload is saved. *)
Ltac endpoint_paths :=
  match goal with |- context [call_openai_api _ _ _ ?p ?s1] =>
    destruct (call_openai_api_cases p s1) as [[? ->]|[? ->]] end;
  [|match goal with |- context [parse_schedule ?d ?t] =>
      destruct (parse_schedule d t) end;
    cbn [rbind];
    [match goal with |- context [rbind (?dumps ?ev)] =>
       destruct (dumps ev) end;
     cbn [rbind];
     [match goal with |- context [run_generate_ics _ _ ?ev ?u ?sx] =>
        let Wr := fresh "Wr" in
        let Up := fresh "Up" in
        let Sl := fresh "Sl" in
        let Lg := fresh "Lg" in
        let Fm := fresh "Fm" in
        let Un := fresh "Un" in
        destruct (run_generate_ics_cases ev u sx)
          as [[Wr ->]|(? & ? & Wr & -> & Up & Sl & Lg & Fm & Un)] end| ]| ]].

(** X14: a content type other than the three allowed ones is answered with
    status 400 before anything else happens, whatever the file name is, and
    nothing is saved or logged; no other case gives status 400. *)
Theorem rejected_content_type (image : UploadFile) (unique_id uuid4 : str)
  (s : Server E) :
  (fst (upload image unique_id uuid4 s) = HTTPException 400 InvalidImageType
   <-> allowed_content_type image = false)
  /\ (allowed_content_type image = false ->
      snd (upload image unique_id uuid4 s) = s).
Proof.
  unfold upload_schedule, allowed_content_type.
  destruct (content_type image) as [ct|]; [|tauto].
  destruct (str_in ct ALLOWED_CONTENT_TYPES); cbn [negb]; [|tauto].
  split; [|discriminate]. split; [|discriminate].
  destruct (filename image) as [name|]; [|discriminate].
  destruct (save _ _); try discriminate.
  endpoint_paths; discriminate.
Qed.

(** X15: a request that is not answered with the calendar file writes no
    calendar: every calendar file there is after the request was there
    before it.  When the failure is not one of [generate_ics], the files,
    the log and the objects of [generate_ics] are as before the request.
    When [generate_ics] fails, the answer has status 500, and the file of
    this request may be left behind without a calendar. *)
Theorem failed_request_writes_no_calendar (image : UploadFile)
  (unique_id uuid4 : str) (s : Server E) :
  is_file_response (fst (upload image unique_id uuid4 s)) = false ->
  (forall q c,
     dict_lookup (files (world (snd (upload image unique_id uuid4 s)))) q
     = Some c ->
     dict_lookup (files (world s)) q = Some c)
  /\ (generation_failed (fst (upload image unique_id uuid4 s)) = false ->
      world (snd (upload image unique_id uuid4 s)) = world s
      /\ unfinished (snd (upload image unique_id uuid4 s)) = unfinished s)
  /\ (generation_failed (fst (upload image unique_id uuid4 s)) = true ->
      (exists e,
         fst (upload image unique_id uuid4 s)
         = HTTPException 500 (GenerateFailure e))
      /\ (unfinished (snd (upload image unique_id uuid4 s)) = unfinished s
          \/ unfinished (snd (upload image unique_id uuid4 s))
             = (py "ics_files/schedule_" ++ uuid4 ++ py ".ics")
                 :: unfinished s)).
Proof.
  unfold upload_schedule.
  destruct (content_type image) as [ct|];
    [|cbn; repeat split; auto; discriminate].
  destruct (negb (str_in ct ALLOWED_CONTENT_TYPES));
    [cbn; repeat split; auto; discriminate|].
  destruct (filename image) as [name|];
    [|cbn; repeat split; auto; discriminate].
  destruct (save _ _); try (cbn; repeat split; auto; discriminate).
  endpoint_paths;
    try (cbn; repeat split; auto; discriminate).
  intros _.
  cbn [fst snd world unfinished uploads server_log set_uploads set_world
       server_logging generation_failed] in *.
  repeat split; try discriminate; eauto.
Qed.

(** X16: when the endpoint answers with a file, it is the calendar file of
    this request, of type [text/calendar] and offered as [schedule.ics].
    The client was asked about the uploaded image, under the media type of
    the extension of the upload's path, and its reply had a first choice
    with content; the file exists and holds the entries of the events
    decoded from that content, trimmed; [json.dumps] took the events, and
    the uploaded image is gone. *)
Theorem file_response_is_the_calendar (image : UploadFile)
  (unique_id uuid4 : str) (s : Server E) (p m n : str) :
  fst (upload image unique_id uuid4 s) = FileResponse p m n ->
  p = py "ics_files/schedule_" ++ uuid4 ++ py ".ics"
  /\ m = py "text/calendar"
  /\ n = py "schedule.ics"
  /\ exists name img_type content rest events dumped,
       filename image = Some name
       /\ image_type (lower (snd (splitext (upload_path unique_id name))))
          = Some img_type
       /\ create (request_for b64encode img_type (body image))
          = inr (Some (Some content :: rest))
       /\ parse_schedule decode (strip content) = Ok events
       /\ json_dumps events = Ok dumped
       /\ write_ics p (add_all (batch_entries events) ∅ (next_id (world s)))
          = CalendarWritten
       /\ world (snd (upload image unique_id uuid4 s))
          = snd (generate_ics events uuid4 (world s))
       /\ dict_lookup (files (world (snd (upload image unique_id uuid4 s)))) p
          = Some (add_all (batch_entries events) ∅ (next_id (world s)))
       /\ dict_lookup (uploads (snd (upload image unique_id uuid4 s)))
                      (upload_path unique_id name) = None.
Proof.
  unfold upload_schedule.
  destruct (content_type image) as [ct|]; [|discriminate].
  destruct (negb (str_in ct ALLOWED_CONTENT_TYPES)); [discriminate|].
  destruct (filename image) as [name|]; [|discriminate].
  fold (upload_path unique_id name).
  destruct (save _ _); try discriminate.
  match goal with |- context [call ?path ?s1] =>
    destruct (call path s1) as [[e|t] s2] eqn:Cl end; [discriminate|].
  apply call_openai_api_reply in Cl.
  destruct Cl as (image_bytes & img_type & content & rest & B & T & C & -> & ->).
  cbn [uploads set_uploads] in B. rewrite write_file_lookup_same in B.
  injection B as <-.
  destruct (parse_schedule decode (strip content)) as [events|] eqn:P;
    cbn [rbind]; [|discriminate].
  destruct (json_dumps events) as [dumped|] eqn:J; cbn [rbind];
    [|discriminate].
  match goal with |- context [run ?ev ?u ?sx] =>
    destruct (run_generate_ics_cases ev u sx)
      as [[Wr ->]|(e & s' & Wr & -> & _)] end; [|discriminate].
  cbn [fst snd world uploads set_uploads set_world server_logging] in *.
  rewrite !generate_ics_world. cbn [fst snd files].
  intros [= <- <- <-].
  repeat split.
  exists name, img_type, content, rest, events, dumped.
  rewrite !generate_ics_world. cbn [fst snd files].
  repeat split; try assumption.
  - apply dict_lookup_head.
  - apply remove_file_lookup_same.
Qed.

(** X17: once the upload is saved, it is removed again on every way out:
    whether the client, the decoder or nothing fails, no file is left at
    the path of the upload, and the other uploads are as they were. *)
Theorem upload_removed_on_every_path (image : UploadFile) (name : str)
  (unique_id uuid4 : str) (s : Server E) :
  allowed_content_type image = true ->
  filename image = Some name ->
  save (upload_path unique_id name) (body image) = Saved ->
  dict_lookup (uploads (snd (upload image unique_id uuid4 s)))
              (upload_path unique_id name) = None
  /\ forall q,
       str_eqb (upload_path unique_id name) q = false ->
       dict_lookup (uploads (snd (upload image unique_id uuid4 s))) q
       = dict_lookup (uploads s) q.
Proof.
  unfold upload_schedule, allowed_content_type.
  destruct (content_type image) as [ct|]; [|discriminate].
  intros -> -> Sv. cbn [negb]. fold (upload_path unique_id name). rewrite Sv.
  endpoint_paths;
    cbn [fst snd uploads set_uploads set_world server_logging] in *;
    rewrite ?Up; cbn [uploads set_uploads set_world server_logging];
    (split; [apply remove_file_lookup_same|]);
    intros q Hq; rewrite remove_file_lookup_other, write_file_lookup_other
      by exact Hq; reflexivity.
Qed.

(** The client is asked about the saved upload with the media type of its
    extension. *)
Lemma call_on_saved_upload (image : UploadFile) (name : str)
  (unique_id : str) (s : Server E) :
  identifier_text unique_id = true ->
  no_slash (last_item (split "." name)) = true ->
  call (upload_path unique_id name)
       (set_uploads E
          (write_file (upload_path unique_id name) (body image) (uploads s)) s)
  = match image_type (lower (py "." ++ last_item (split "." name))) with
    | None =>
        (inl UnsupportedImageType,
         set_uploads E
           (write_file (upload_path unique_id name) (body image) (uploads s))
           s)
    | Some img_type =>
        let s1 :=
          set_uploads E
            (write_file (upload_path unique_id name) (body image) (uploads s))
            s in
        match create (request_for b64encode img_type (body image)) with
        | inl e => (inl (ClientError e), s1)
        | inr None => (inl InvalidResponse, s1)
        | inr (Some []) => (inl InvalidResponse, s1)
        | inr (Some (None :: _)) => (inl NoContent, s1)
        | inr (Some (Some content :: _)) =>
            (inr (strip content),
             server_logging E INFO (FormattedSchedule (strip content)) s1)
        end
    end.
Proof.
  intros Hid Hs.
  destruct (upload_path_extension unique_id name Hid Hs) as [_ X].
  unfold call_openai_api. cbn [uploads set_uploads].
  rewrite write_file_lookup_same, X. reflexivity.
Qed.

(** X18: the media type sent to the client is decided by the part of the
    file name after its last dot, in any case, not by the declared content
    type: when that part is not [jpg], [jpeg] or [png], a request with an
    allowed content type is answered with status 500 and "unsupported image
    type", the client is not asked, the upload is removed and no calendar
    is written. *)
Theorem unsupported_extension_rejected (image : UploadFile) (name : str)
  (unique_id uuid4 : str) (s : Server E) :
  allowed_content_type image = true ->
  filename image = Some name ->
  identifier_text unique_id = true ->
  no_slash (last_item (split "." name)) = true ->
  save (upload_path unique_id name) (body image) = Saved ->
  image_type (lower (py "." ++ last_item (split "." name))) = None ->
  fst (upload image unique_id uuid4 s)
  = HTTPException 500 (ApiFailure UnsupportedImageType)
  /\ uploads (snd (upload image unique_id uuid4 s))
     = remove_file (upload_path unique_id name) (uploads s)
  /\ world (snd (upload image unique_id uuid4 s)) = world s
  /\ server_log (snd (upload image unique_id uuid4 s))
     = server_log s ++ [(ERROR, ErrorCallingApi UnsupportedImageType)].
Proof.
  unfold allowed_content_type. intros A F Hid Hs Sv T.
  unfold upload_schedule.
  destruct (content_type image) as [ct|]; [|discriminate].
  rewrite A, F. cbn [negb]. fold (upload_path unique_id name). rewrite Sv.
  cbv zeta. rewrite (call_on_saved_upload image name unique_id s Hid Hs), T.
  cbn [fst snd uploads world server_log set_uploads server_logging].
  repeat split. apply remove_file_write_file.
Qed.

(** X19: a request with an allowed content type, a file name ending in an
    accepted extension, a saved upload, a reply of the client with content,
    a reply that decodes to a list of events which [json.dumps] can write,
    and a calendar whose file can be written is answered with the calendar
    of those events: the client was sent the image under the media type of
    the extension, the parsed events are logged as [json.dumps] wrote them,
    the file of [generate_ics] for the events is the one returned, and the
    upload is removed. *)
Theorem upload_schedule_succeeds (image : UploadFile) (name : str)
  (unique_id uuid4 : str) (s : Server E) (img_type content dumped : str)
  (rest : list (option str)) (events : list pyval) :
  allowed_content_type image = true ->
  filename image = Some name ->
  identifier_text unique_id = true ->
  no_slash (last_item (split "." name)) = true ->
  save (upload_path unique_id name) (body image) = Saved ->
  image_type (lower (py "." ++ last_item (split "." name))) = Some img_type ->
  create (request_for b64encode img_type (body image))
  = inr (Some (Some content :: rest)) ->
  parse_schedule decode (strip content) = Ok events ->
  json_dumps events = Ok dumped ->
  write_ics (py "ics_files/schedule_" ++ uuid4 ++ py ".ics")
            (add_all (batch_entries events) ∅ (next_id (world s)))
  = CalendarWritten ->
  fst (upload image unique_id uuid4 s)
  = FileResponse (fst (generate_ics events uuid4 (world s)))
                 (py "text/calendar") (py "schedule.ics")
  /\ world (snd (upload image unique_id uuid4 s))
     = snd (generate_ics events uuid4 (world s))
  /\ written_calendar (generate_ics events uuid4 (world s))
     = Some (add_all (batch_entries events) ∅ (next_id (world s)))
  /\ server_log (snd (upload image unique_id uuid4 s))
     = server_log s ++ [(INFO, FormattedSchedule (strip content));
                        (INFO, ParsedEvents dumped)]
  /\ unfinished (snd (upload image unique_id uuid4 s)) = unfinished s
  /\ dict_lookup (uploads (snd (upload image unique_id uuid4 s)))
                 (upload_path unique_id name) = None.
Proof.
  unfold allowed_content_type. intros A F Hid Hs Sv T C P J Wr.
  unfold upload_schedule.
  destruct (content_type image) as [ct|]; [|discriminate].
  rewrite A, F. cbn [negb]. fold (upload_path unique_id name). rewrite Sv.
  cbv zeta. rewrite (call_on_saved_upload image name unique_id s Hid Hs), T.
  cbv zeta. rewrite C, P. cbn [rbind]. rewrite J. cbn [rbind].
  match goal with |- context [run ?ev ?u ?sx] =>
    destruct (run_generate_ics_cases ev u sx)
      as [[_ ->]|(e & s' & Wr' & _)] end;
    [|exfalso; apply Wr'; exact Wr].
  cbn [fst snd uploads world server_log unfinished set_uploads set_world
       server_logging].
  repeat split.
  - apply generate_ics_run.
  - rewrite <- app_assoc. reflexivity.
  - apply remove_file_lookup_same.
Qed.

End EndpointProperties.
Lemma failed_request_writes_no_calendar_witness :
  (forall q c,
     dict_lookup (files (world (snd failing_upload))) q = Some c ->
     dict_lookup (files (world sample_server)) q = Some c)
  /\ (generation_failed (fst failing_upload) = false ->
      world (snd failing_upload) = world sample_server
      /\ unfinished (snd failing_upload) = unfinished sample_server)
  /\ (generation_failed (fst failing_upload) = true ->
      (exists e, fst failing_upload = HTTPException 500 (GenerateFailure e))
      /\ (unfinished (snd failing_upload) = unfinished sample_server
          \/ unfinished (snd failing_upload)
             = (py "ics_files/schedule_" ++ py "77" ++ py ".ics")
                 :: unfinished sample_server)).
Proof.
  apply (failed_request_writes_no_calendar unit sample_create
           sample_b64encode sample_decode sample_json_dumps failing_write_ics
           sample_save sample_image (py "3f2a-01") (py "77") sample_server).
  reflexivity.
Defined.

Lemma file_response_is_the_calendar_witness :
  py "ics_files/schedule_77.ics" = py "ics_files/schedule_" ++ py "77" ++ py ".ics"
  /\ py "text/calendar" = py "text/calendar"
  /\ py "schedule.ics" = py "schedule.ics"
  /\ exists name img_type content rest events dumped,
       filename sample_image = Some name
       /\ image_type (lower (snd (splitext (upload_path (py "3f2a-01") name))))
          = Some img_type
       /\ sample_create (request_for sample_b64encode img_type
                           (body sample_image))
          = inr (Some (Some content :: rest))
       /\ parse_schedule sample_decode (strip content) = Ok events
       /\ sample_json_dumps events = Ok dumped
       /\ sample_write_ics (py "ics_files/schedule_77.ics")
            (add_all (batch_entries events) ∅ (next_id (world sample_server)))
          = CalendarWritten
       /\ world (snd (sample_upload sample_image))
          = snd (generate_ics events (py "77") (world sample_server))
       /\ dict_lookup (files (world (snd (sample_upload sample_image))))
                      (py "ics_files/schedule_77.ics")
          = Some (add_all (batch_entries events) ∅
                    (next_id (world sample_server)))
       /\ dict_lookup (uploads (snd (sample_upload sample_image)))
                      (upload_path (py "3f2a-01") name) = None.
Proof.
  apply (file_response_is_the_calendar unit sample_create sample_b64encode
           sample_decode sample_json_dumps sample_write_ics sample_save
           sample_image (py "3f2a-01") (py "77") sample_server
           (py "ics_files/schedule_77.ics") (py "text/calendar")
           (py "schedule.ics")).
  vm_compute. reflexivity.
Defined.

Lemma upload_removed_on_every_path_witness :
  dict_lookup (uploads (snd (sample_upload gif_image)))
              (upload_path (py "3f2a-01") (py "schedule.gif")) = None
  /\ forall q,
       str_eqb (upload_path (py "3f2a-01") (py "schedule.gif")) q = false ->
       dict_lookup (uploads (snd (sample_upload gif_image))) q
       = dict_lookup (uploads sample_server) q.
Proof.
  apply (upload_removed_on_every_path unit sample_create sample_b64encode
           sample_decode sample_json_dumps sample_write_ics sample_save
           gif_image (py "schedule.gif") (py "3f2a-01") (py "77")
           sample_server); reflexivity.
Defined.

Lemma unsupported_extension_rejected_witness :
  fst (sample_upload gif_image)
  = HTTPException 500 (ApiFailure UnsupportedImageType)
  /\ uploads (snd (sample_upload gif_image))
     = remove_file (upload_path (py "3f2a-01") (py "schedule.gif"))
                   (uploads sample_server)
  /\ world (snd (sample_upload gif_image)) = world sample_server
  /\ server_log (snd (sample_upload gif_image))
     = server_log sample_server
       ++ [(ERROR, ErrorCallingApi UnsupportedImageType)].
Proof.
  apply (unsupported_extension_rejected unit sample_create sample_b64encode
           sample_decode sample_json_dumps sample_write_ics sample_save
           gif_image (py "schedule.gif") (py "3f2a-01") (py "77")
           sample_server); reflexivity.
Defined.

Lemma upload_schedule_succeeds_witness :
  fst (sample_upload sample_image)
  = FileResponse
      (fst (generate_ics [cs101 "MWF"] (py "77") (world sample_server)))
      (py "text/calendar") (py "schedule.ics")
  /\ world (snd (sample_upload sample_image))
     = snd (generate_ics [cs101 "MWF"] (py "77") (world sample_server))
  /\ written_calendar
       (generate_ics [cs101 "MWF"] (py "77") (world sample_server))
     = Some (add_all (batch_entries [cs101 "MWF"]) ∅
               (next_id (world sample_server)))
  /\ server_log (snd (sample_upload sample_image))
     = server_log sample_server
       ++ [(INFO, FormattedSchedule (strip sample_reply));
           (INFO, ParsedEvents (py "[{...}]"))]
  /\ unfinished (snd (sample_upload sample_image)) = unfinished sample_server
  /\ dict_lookup (uploads (snd (sample_upload sample_image)))
                 (upload_path (py "3f2a-01") (py "my.schedule.JPG")) = None.
Proof.
  apply (upload_schedule_succeeds unit sample_create sample_b64encode
           sample_decode sample_json_dumps sample_write_ics sample_save
           sample_image (py "my.schedule.JPG") (py "3f2a-01") (py "77")
           sample_server (py "image/jpeg") sample_reply (py "[{...}]") []
           [cs101 "MWF"]); reflexivity.
Defined.

(** ** The decoder behind the sanitizer *)

(** X20: the decoder reads a reply in a [json] code fence as it reads the
    bare body: for a trimmed body without backticks that begins neither
    with a colon nor with [json], both are decoded from the same text, the
    body. *)
Theorem parse_schedule_through_fence (decode : str -> result pyval)
  (pre tag ws1 body ws2 post : str) :
  all_space pre = true -> all_space post = true ->
  all_space ws1 = true -> all_space ws2 = true ->
  lower tag = py "json" ->
  strip body = body -> backtick_free body = true ->
  startswith (py ":") body = false ->
  starts_with_json body = false ->
  parse_schedule decode
    (pre ++ (py "```" ++ (tag ++ ws1 ++ body ++ ws2) ++ py "```") ++ post)
  = parse_schedule decode body
  /\ parse_schedule decode body
     = match decode body with
       | Raise _ => Raise ValueError
       | Ok (PDict d) =>
           match dict_lookup d (py "events") with
           | None => Ok []
           | Some (PList l) => Ok l
           | Some _ => Raise ValueError
           end
       | Ok _ => Raise ValueError
       end.
Proof.
  intros Hpre Hpost H1 H2 Htag T B C J.
  pose proof (backtick_free_spec body B) as Nb.
  assert (F : clean_response
                (pre ++ (py "```" ++ (tag ++ ws1 ++ body ++ ws2) ++ py "```")
                 ++ post) = body).
  { rewrite (clean_response_fence pre _ post Hpre Hpost),
      (without_tag_tagged tag ws1 body ws2 H1 H2 Htag T C).
    apply remove_char_id, Nb. }
  assert (P : clean_response body = body)
    by (apply clean_response_fixed_iff; auto).
  rewrite !parse_schedule_unfold, F, P. auto.
Qed.

Lemma parse_schedule_through_fence_witness :
  parse_schedule sample_decode
    (py "" ++ (py "```" ++ (py "json" ++ [chr 10] ++ py "{events: [CS101]}"
                            ++ [chr 10]) ++ py "```") ++ [chr 10])
  = parse_schedule sample_decode (py "{events: [CS101]}")
  /\ parse_schedule sample_decode (py "{events: [CS101]}")
     = match sample_decode (py "{events: [CS101]}") with
       | Raise _ => Raise ValueError
       | Ok (PDict d) =>
           match dict_lookup d (py "events") with
           | None => Ok []
           | Some (PList l) => Ok l
           | Some _ => Raise ValueError
           end
       | Ok _ => Raise ValueError
       end.
Proof.
  apply (parse_schedule_through_fence sample_decode (py "") (py "json")
           [chr 10] (py "{events: [CS101]}") [chr 10] [chr 10]); reflexivity.
Defined.

(** ** The order of the document *)

Lemma table_order_walks : walks_the_set table_order.
Proof. intros cal. reflexivity. Qed.

(** An iteration that follows the identities lists the entries as they
    were added. *)
Lemma document_in_insertion_order
  (iteration : gmap nat Event -> list (nat * Event)) (es : list Event)
  (n : nat) :
  walks_the_set iteration ->
  map fst (iteration (add_all es ∅ n)) = seq n (List.length es) ->
  document iteration (add_all es ∅ n) = es.
Proof.
  intros Wk Ks. unfold document.
  set (l := iteration (add_all es ∅ n)) in *.
  assert (Len : List.length l = List.length es).
  { rewrite <- (length_map fst l), Ks. apply length_seq. }
  apply list_eq. intros i. rewrite list_lookup_fmap.
  destruct (l !! i) as [[k e]|] eqn:Li; cbn [fmap option_fmap option_map snd].
  - assert (Hi : (i < List.length es)%nat).
    { rewrite <- Len. apply lookup_lt_is_Some. eauto. }
    assert (Hk : k = (n + i)%nat).
    { assert (Kl : (map fst l) !! i = Some k)
        by (rewrite list_lookup_fmap, Li; reflexivity).
      rewrite Ks in Kl. apply lookup_seq in Kl. lia. }
    assert (In : (k, e) ∈ map_to_list (add_all es ∅ n)).
    { rewrite <- (Wk (add_all es ∅ n)). apply list_elem_of_lookup. eauto. }
    apply elem_of_map_to_list in In. subst k.
    rewrite add_all_lookup in In by exact Hi. symmetry. exact In.
  - symmetry. apply lookup_ge_None. rewrite <- Len.
    apply lookup_ge_None in Li. exact Li.
Qed.

(** C8, amended: the emitter adds the entries to the set of the
    calendar in the order it makes them, entry [j] as the object with the
    [j]-th identity drawn, and writes the set into one document.  The
    document holds exactly the entries made, each as many times as it was
    made, in the order in which the set hands them out: whatever that
    order is, the document is a rearrangement of the entries in the order
    they were made, and it is that order itself when the set hands its
    elements out as they were added. *)
Theorem document_holds_the_entries
  (iteration : gmap nat Event -> list (nat * Event)) (events : list pyval)
  (uuid4 : str) (w : World) :
  walks_the_set iteration ->
  exists cal doc,
    written_calendar (generate_ics events uuid4 w) = Some cal
    /\ written_document iteration (generate_ics events uuid4 w) = Some doc
    /\ (forall j e,
          batch_entries events !! j = Some e ->
          cal !! (next_id w + j)%nat = Some e)
    /\ size cal = List.length (batch_entries events)
    /\ List.length doc = List.length (batch_entries events)
    /\ doc ≡ₚ batch_entries events
    /\ (map fst (iteration cal)
        = seq (next_id w) (List.length (batch_entries events)) ->
        doc = batch_entries events).
Proof.
  intros Wk.
  destruct (generate_ics_run events uuid4 w) as (_ & W & _).
  exists (add_all (batch_entries events) ∅ (next_id w)).
  exists (document iteration (add_all (batch_entries events) ∅ (next_id w))).
  assert (P : document iteration
                (add_all (batch_entries events) ∅ (next_id w))
              ≡ₚ batch_entries events).
  { unfold document. rewrite (Wk _), add_all_entries
      by (intros; apply lookup_empty).
    rewrite map_to_list_empty. cbn [map]. rewrite app_nil_r. reflexivity. }
  split; [exact W|]. split; [unfold written_document; rewrite W; reflexivity|].
  split.
  { intros j e L. rewrite add_all_lookup; [exact L|].
    apply lookup_lt_is_Some. eauto. }
  split; [apply add_all_empty_size|].
  split; [apply Permutation_length, P|].
  split; [exact P|].
  apply document_in_insertion_order, Wk.
Qed.

Lemma document_holds_the_entries_witness :
  exists cal doc,
    written_calendar (generate_ics [cs101 "MWF"] (py "u") initial_world)
    = Some cal
    /\ written_document table_order
         (generate_ics [cs101 "MWF"] (py "u") initial_world) = Some doc
    /\ (forall j e,
          batch_entries [cs101 "MWF"] !! j = Some e ->
          cal !! (next_id initial_world + j)%nat = Some e)
    /\ size cal = List.length (batch_entries [cs101 "MWF"])
    /\ List.length doc = List.length (batch_entries [cs101 "MWF"])
    /\ doc ≡ₚ batch_entries [cs101 "MWF"]
    /\ (map fst (table_order cal)
        = seq (next_id initial_world)
              (List.length (batch_entries [cs101 "MWF"])) ->
        doc = batch_entries [cs101 "MWF"]).
Proof.
  apply (document_holds_the_entries table_order [cs101 "MWF"] (py "u")
           initial_world).
  exact table_order_walks.
Defined.

(** C8, as stated: the order is not kept.  For the class on Monday, Wednesday and
    Friday the entries are made in that order, and a set that hands its
    elements out in the order of its table gives a document that begins
    with the Friday entry. *)
Lemma document_order_not_preserved :
  walks_the_set table_order
  /\ batch_entries [cs101 "MWF"]
     = [make_event (cs101_fields "MWF") (mkdate 2024 1 8);
        make_event (cs101_fields "MWF") (mkdate 2024 1 10);
        make_event (cs101_fields "MWF") (mkdate 2024 1 12)]
  /\ written_document table_order
       (generate_ics [cs101 "MWF"] (py "u") initial_world)
     = Some [make_event (cs101_fields "MWF") (mkdate 2024 1 12);
             make_event (cs101_fields "MWF") (mkdate 2024 1 10);
             make_event (cs101_fields "MWF") (mkdate 2024 1 8)]
  /\ ~ order_preserved table_order [cs101 "MWF"] (py "u") initial_world.
Proof.
  split; [exact table_order_walks|].
  split; [vm_compute; reflexivity|].
  split; [vm_compute; reflexivity|].
  unfold order_preserved. vm_compute. discriminate.
Qed.
